(** * AutoBoot: a shallow embedding of [autoboot/cli.py]

    The command line tool scaffolds a project directory ([.gitignore],
    [LICENSE]), initialises a git repository, optionally runs audits,
    creates a GitHub repository over HTTP and pushes to it.

    The embedding follows the Python source function by function.  Text is
    a list of Unicode code points, the file system is a finite map from
    paths to nodes, and everything outside the interpreter (sub-processes,
    the HTTP endpoint, the environment) is an oracle carried by the
    [World] record.  Effects are threaded through a small state and
    exception monad whose outcomes are: normal return, a raised
    [Exception], or [SystemExit].

    [argparse] is a library like the others: what it makes of the command
    line ([parse_result]) is an input.  [main args] is the body of [main]
    once the command line is parsed, [cli_main] the function from its
    first line.

    What the model leaves out: the encoding of files (a file holds text);
    failures of [print]; what the programs the tool starts write.  The
    file system of a state changes by the tool's own writes only: the
    [.git] directory that [git init] makes and the packages that
    [pip install] adds do not appear in it, so a statement about the
    files of a run speaks of what the tool itself writes.  A run executes
    each command line at most once, so the answer of a sub-process is a
    function of its directory and command line. *)

From Stdlib Require Import ZArith NArith Ascii String DecimalString.
From stdpp Require Import gmap strings list.

Local Open Scope Z_scope.

(** ** Python [str] *)

Module PyStr.

(** A Python [str] is a sequence of code points. *)
Definition char : Type := N.
Definition str : Type := list char.

(** The code points of an ASCII literal of the source. *)
Definition py (s : string) : str :=
  (fun a => N_of_ascii a) <$> list_ascii_of_string s.
#[global] Arguments py s%_string.

Definition LF : char := 10%N.
Definition CR : char := 13%N.
Definition DQ : char := 34%N.
Definition ELLIPSIS : char := 8230%N.

(** [str.isspace] on one code point. *)
Definition is_space (c : char) : bool :=
  ((9 <=? c) && (c <=? 13) || (28 <=? c) && (c <=? 32)
   || (c =? 133) || (c =? 160) || (c =? 5760)
   || (8192 <=? c) && (c <=? 8202)
   || (c =? 8232) || (c =? 8233) || (c =? 8239) || (c =? 8287)
   || (c =? 12288))%N.

(** The line boundaries of [str.splitlines], [CR] apart. *)
Definition is_break (c : char) : bool :=
  ((c =? 10) || (c =? 11) || (c =? 12) || (28 <=? c) && (c <=? 30)
   || (c =? 133) || (c =? 8232) || (c =? 8233))%N.

Definition is_cr (c : char) : bool := (c =? 13)%N.
Definition is_lf (c : char) : bool := (c =? 10)%N.

(** [s.splitlines()]: lines without their terminators; ["\r\n"] is one
    terminator; no empty last line after a final terminator. *)
Fixpoint splitlines (s : str) : list str :=
  match s with
  | [] => []
  | c :: s' =>
      if is_cr c then
        match s' with
        | c' :: s'' =>
            if is_lf c' then [] :: splitlines s'' else [] :: splitlines s'
        | [] => [[]]
        end
      else if is_break c then [] :: splitlines s'
      else
        match splitlines s' with
        | [] => [[c]]
        | l :: ls => (c :: l) :: ls
        end
  end.

(** [sep.join(parts)]. *)
Fixpoint join (sep : str) (parts : list str) : str :=
  match parts with
  | [] => []
  | [p] => p
  | p :: ps => p ++ sep ++ join sep ps
  end.

(** [s.lstrip()], [s.rstrip()], [s.strip()]. *)
Fixpoint lstrip (s : str) : str :=
  match s with
  | c :: s' => if is_space c then lstrip s' else s
  | [] => []
  end.

Definition rstrip (s : str) : str := reverse (lstrip (reverse s)).
Definition strip (s : str) : str := rstrip (lstrip s).

(** [s.startswith(p)]. *)
Fixpoint startswith (p s : str) : bool :=
  match p, s with
  | [], _ => true
  | a :: p', b :: s' => (a =? b)%N && startswith p' s'
  | _ :: _, [] => false
  end.

(** [needle in hay] on strings. *)
Fixpoint contains (needle hay : str) : bool :=
  startswith needle hay ||
  match hay with
  | [] => false
  | _ :: hay' => contains needle hay'
  end.

(** [s.split()]: the maximal runs of non-whitespace. *)
Fixpoint split_ws_aux (cur : str) (s : str) : list str :=
  match s with
  | [] => match cur with [] => [] | _ => [reverse cur] end
  | c :: s' =>
      if is_space c
      then match cur with
           | [] => split_ws_aux [] s'
           | _ => reverse cur :: split_ws_aux [] s'
           end
      else split_ws_aux (c :: cur) s'
  end.

Definition split_ws (s : str) : list str := split_ws_aux [] s.

(** [s.split("\n")]: always at least one piece. *)
Fixpoint split_lf (s : str) : list str :=
  match s with
  | [] => [[]]
  | c :: s' =>
      if is_lf c then [] :: split_lf s'
      else match split_lf s' with
           | [] => [[c]]
           | l :: ls => (c :: l) :: ls
           end
  end.

(** [str(n)] for an [int]. *)
Definition str_of_int (n : Z) : str := py (NilZero.string_of_int (Z.to_int n)).

(** Truth value of a string: non-empty. *)
Definition truthy (s : str) : bool :=
  match s with [] => false | _ => true end.

End PyStr.

Export PyStr.

(** ** [textwrap.dedent] *)

Module Textwrap.

Definition is_blank (c : char) : bool := ((c =? 32) || (c =? 9))%N.

(** Leading run of spaces and tabs. *)
Fixpoint leading_ws (l : str) : str :=
  match l with
  | c :: l' => if is_blank c then c :: leading_ws l' else []
  | [] => []
  end.

(** Lines made of blanks only are emptied. *)
Definition normalize_line (l : str) : str :=
  if forallb is_blank l then [] else l.

Fixpoint common_prefix (a b : str) : str :=
  match a, b with
  | x :: a', y :: b' => if (x =? y)%N then x :: common_prefix a' b' else []
  | _, _ => []
  end.

(** The margin: common leading whitespace of the lines that have text. *)
Definition margin (ls : list str) : option str :=
  foldl (fun m l =>
           match l with
           | [] => m
           | _ => match m with
                  | None => Some (leading_ws l)
                  | Some mg => Some (common_prefix mg (leading_ws l))
                  end
           end) None ls.

Definition remove_margin (mg l : str) : str :=
  if startswith mg l then drop (length mg) l else l.

Definition dedent (text : str) : str :=
  let ls := normalize_line <$> split_lf text in
  match margin ls with
  | Some (c :: mg) => join [LF] (remove_margin (c :: mg) <$> ls)
  | _ => join [LF] ls
  end.

End Textwrap.

(** ** Module-level constants of [cli.py] *)

Definition GITIGNORE_TEMPLATE : str :=
  Eval vm_compute in
  (strip (Textwrap.dedent (py "
# Python
__pycache__/
*.py[cod]
*.pyo
*.pyd
*.so
*.egg-info/
dist/
build/

# Virtual env
.venv/
venv/
env/

# Editors
.vscode/
.idea/

# OS
.DS_Store
Thumbs.db

# Env and secrets
.env
*.env

# Streamlit
.streamlit/

# Jupyter
.ipynb_checkpoints
")) ++ py "
")%list.

Definition MIT_LICENSE : str :=
  Eval vm_compute in
  Textwrap.dedent (py "MIT License

Copyright (c) YOUR NAME

Permission is hereby granted, free of charge, to any person obtaining a copy
of this software and associated documentation files (the " ++ [DQ] ++ py "Software" ++ [DQ] ++ py "), to deal
in the Software without restriction, including without limitation the rights
to use, copy, modify, merge, publish, distribute, sublicense, and/or sell
copies of the Software, and to permit persons to whom the Software is
furnished to do so, subject to the following conditions:

The above copyright notice and this permission notice shall be included in all
copies or substantial portions of the Software.

THE SOFTWARE IS PROVIDED " ++ [DQ] ++ py "AS IS" ++ [DQ] ++ py ", WITHOUT WARRANTY OF ANY KIND, EXPRESS OR
IMPLIED, INCLUDING BUT NOT LIMITED TO THE WARRANTIES OF MERCHANTABILITY,
FITNESS FOR A PARTICULAR PURPOSE AND NONINFRINGEMENT. IN NO EVENT SHALL THE
AUTHORS OR COPYRIGHT HOLDERS BE LIABLE FOR ANY CLAIM, DAMAGES OR OTHER
LIABILITY, WHETHER IN AN ACTION OF CONTRACT, TORT OR OTHERWISE, ARISING FROM,
OUT OF OR IN CONNECTION WITH THE SOFTWARE OR THE USE OR OTHER DEALINGS IN THE
SOFTWARE.
")%list.

(** ** Values exchanged with the outside *)

(** A Python [float]: [m] times two to the power [e], an infinity, or not
    a number. *)
Inductive pyfloat : Type :=
  | Finite (m e : Z)
  | Infinite (negative : bool)
  | NaN.

(** A parsed JSON document, as [json.loads] builds it. *)
#[warnings="-register-all"]
Inductive json : Type :=
  | JNull
  | JBool (b : bool)
  | JInt (n : Z)
  | JFloat (x : pyfloat)
  | JStr (s : str)
  | JArr (items : list json)
  | JObj (fields : gmap str json).

(** Truth value of a parsed JSON value ([bool(v)]). *)
Definition json_truthy (v : json) : bool :=
  match v with
  | JNull => false
  | JBool b => b
  | JInt n => negb (n =? 0)
  | JFloat (Finite m _) => negb (m =? 0)
  | JFloat _ => true
  | JStr s => truthy s
  | JArr items => match items with [] => false | _ => true end
  | JObj fields => match map_to_list fields with [] => false | _ => true end
  end.

(** [bool(d.get(k))]: [None] when the key is absent. *)
Definition opt_truthy (o : option json) : bool :=
  match o with
  | None => false
  | Some v => json_truthy v
  end.

(** A [pathlib.Path], as the list of its components. *)
Definition path : Type := list str.

(** [p / name] and [p.name]. *)
Definition path_join (p : path) (name : str) : path := p ++ [name].
Definition path_name (p : path) : str := default [] (last p).
Definition path_str (p : path) : str := (py "/" ++ join (py "/") p)%list.

Infix "//" := path_join (at level 40, left associativity).

(** The exceptions the program can meet; all are subclasses of
    [Exception].  [SystemExit] is not, and is an outcome of its own. *)
Inductive exn : Type :=
  | CalledProcessError (returncode : Z) (cmd : list str) (stdout stderr : str)
  | OSError (detail : str)
  | IsADirectoryError (p : path)
  | RuntimeError (msg : str)
  | RequestException (detail : str)
  | JSONDecodeError (detail : str)
  | AttributeError (detail : str)
  | TypeError (detail : str)
  | KeyError (key : str).

Definition is_CalledProcessError (e : exn) : bool :=
  match e with
  | CalledProcessError _ _ _ _ => true
  | _ => false
  end.

Definition is_Exception (e : exn) : bool := true.

(** What [subprocess.run(cmd, cwd=..., text=True, capture_output=True)]
    gives: the process could not be started (an [OSError], such as
    [FileNotFoundError]), or it ran and exited. *)
Inductive spawn_result : Type :=
  | SpawnFailed (detail : str)
  | Exited (returncode : Z) (stdout stderr : str).

Record CompletedProcess : Type := {
  cp_args : list str;
  cp_returncode : Z;
  cp_stdout : str;
  cp_stderr : str;
}.

(** The request [requests.post] sends.  [rq_payload] is the dictionary
    handed to [json.dumps]. *)
Record Request : Type := {
  rq_url : str;
  rq_headers : gmap str str;
  rq_payload : gmap str json;
  rq_timeout : Z;
}.

(** A [requests.Response]: [rs_json] is what [resp.json()] returns,
    [None] when the body is not JSON (the call then raises). *)
Record Response : Type := {
  status_code : Z;
  rs_text : str;
  rs_json : option json;
}.

(** What [requests.post] gives: no response (a [RequestException], such
    as a timeout), or a response. *)
Inductive post_result : Type :=
  | PostFailed (detail : str)
  | Responded (r : Response).

Inductive Platform : Type := Posix | Windows.

(** [os.linesep]. *)
Definition linesep (p : Platform) : str :=
  match p with
  | Posix => [LF]
  | Windows => [CR; LF]
  end.

(** Text-mode output: every ["\n"] is written as [os.linesep]. *)
Definition translate_out (p : Platform) (s : str) : str :=
  concat ((fun c => if is_lf c then linesep p else [c]) <$> s).

(** Text-mode input (universal newlines): ["\r\n"] and ["\r"] are read
    as ["\n"]. *)
Fixpoint universal_newlines (s : str) : str :=
  match s with
  | [] => []
  | c :: s' =>
      if is_cr c then
        match s' with
        | c' :: s'' =>
            if is_lf c' then LF :: universal_newlines s''
            else LF :: universal_newlines s'
        | [] => [LF]
        end
      else c :: universal_newlines s'
  end.

(** The parsed command line ([argparse.Namespace]). *)
Record Namespace : Type := {
  name : option str;
  private : bool;
  no_audit : bool;
  bandit : bool;
  desc : option str;
  branch : str;
}.

(** What [parser.parse_args()] makes of the command line: the
    [Namespace]; or the end of the process with status 2, after a usage
    message on standard error, for a command line the parser rejects; or
    the end of the process with status 0, after the help text, for [-h]
    and [--help]. *)
Inductive parse_result : Type :=
  | Parsed (args : Namespace)
  | UsageError (message : str)
  | HelpRequested.

(** Everything the run reads from outside and does not change. *)
Record World : Type := {
  platform : Platform;
  cwd : path;
  executable : str;
  environ : gmap str str;
  subprocess_run : option path -> list str -> spawn_result;
  requests_post : Request -> post_result;
}.

(** A directory entry. *)
Inductive node : Type :=
  | File (content : str)
  | Dir.

(** One piece of a formatted message (an f-string). *)
Inductive piece : Type :=
  | Lit (s : str)
  | Val (v : option json)
  | Exc (e : exn).

(** What the run does to the outside, in order. *)
Inductive event : Type :=
  | Print (msg : list piece)
  | Spawn (dir : option path) (cmd : list str)
  | Post (rq : Request).

Record State : Type := {
  fs : gmap path node;
  trace : list event;
}.

Definition log (e : event) (st : State) : State :=
  {| fs := fs st; trace := trace st ++ [e] |}.

Definition set_fs (f : gmap path node) (st : State) : State :=
  {| fs := f; trace := trace st |}.

(** ** The monad of the interpreter *)

Inductive outcome (A : Type) : Type :=
  | Return (a : A)
  | Raise (e : exn)
  | SysExit (code : Z).

Arguments Return {A} a.
Arguments Raise {A} e.
Arguments SysExit {A} code.

Definition M (A : Type) : Type := State -> outcome A * State.

#[export] Instance M_ret : MRet M := fun A a st => (Return a, st).

#[export] Instance M_bind : MBind M := fun A B f m st =>
  match m st with
  | (Return a, st') => f a st'
  | (Raise e, st') => (Raise e, st')
  | (SysExit c, st') => (SysExit c, st')
  end.

Definition raise {A : Type} (e : exn) : M A := fun st => (Raise e, st).

(** [sys.exit(code)]. *)
Definition sys_exit {A : Type} (code : Z) : M A := fun st => (SysExit code, st).

(** [try: body / except <class> as e: handler e]. *)
Definition try_except {A : Type} (body : M A) (class : exn -> bool)
    (handler : exn -> M A) : M A := fun st =>
  match body st with
  | (Raise e, st') => if class e then handler e st' else (Raise e, st')
  | r => r
  end.

Definition print (msg : list piece) : M unit := fun st =>
  (Return tt, log (Print msg) st).

(** The status the interpreter ends with: 0 after a normal return, the
    argument of [sys.exit], and 1 (after a traceback) for an exception
    that nothing catches. *)
Definition exit_code {A : Type} (o : outcome A) : Z :=
  match o with
  | Return _ => 0
  | SysExit c => c
  | Raise _ => 1
  end.

(** ** The functions of [cli.py] *)

Section Cli.

Variable w : World.

(** [Path.exists], [Path.read_text], [Path.write_text] and writing to a
    file opened in append mode, all in text mode with UTF-8. *)
Definition path_exists (p : path) : M bool := fun st =>
  (Return (bool_decide (is_Some (fs st !! p))), st).

Definition read_text (p : path) : M str := fun st =>
  match fs st !! p with
  | Some (File c) => (Return (universal_newlines c), st)
  | Some Dir => (Raise (IsADirectoryError p), st)
  | None => (Raise (OSError (py "No such file or directory")), st)
  end.

Definition write_text (p : path) (s : str) : M unit := fun st =>
  match fs st !! p with
  | Some Dir => (Raise (IsADirectoryError p), st)
  | _ => (Return tt, set_fs (<[p := File (translate_out (platform w) s)]> (fs st)) st)
  end.

Definition append_text (p : path) (s : str) : M unit := fun st =>
  match fs st !! p with
  | Some Dir => (Raise (IsADirectoryError p), st)
  | Some (File c) =>
      (Return tt, set_fs (<[p := File (c ++ translate_out (platform w) s)]> (fs st)) st)
  | None =>
      (Return tt, set_fs (<[p := File (translate_out (platform w) s)]> (fs st)) st)
  end.

(** [run(cmd, cwd, check)]: Run a shell command and return the
    CompletedProcess. *)
Definition run (cmd : list str) (dir : option path) (check : bool)
    : M CompletedProcess := fun st =>
  let st' := log (Spawn dir cmd) st in
  match subprocess_run w dir cmd with
  | SpawnFailed detail => (Raise (OSError detail), st')
  | Exited rc out err =>
      if check && negb (rc =? 0)
      then (Raise (CalledProcessError rc cmd out err), st')
      else (Return {| cp_args := cmd; cp_returncode := rc;
                      cp_stdout := out; cp_stderr := err |}, st')
  end.

(** The lines of the template that [ensure_gitignore] has to append. *)
Definition to_add (existing : list str) : list str :=
  filter (fun ln => truthy ln ∧ ln ∉ existing) (splitlines GITIGNORE_TEMPLATE).

(** Create or update .gitignore. Return True if changed. *)
Definition ensure_gitignore (root : path) : M bool :=
  let gi_path := root // py ".gitignore" in
  ex ← path_exists gi_path;
  if negb ex then
    write_text gi_path GITIGNORE_TEMPLATE;;
    print [Lit (py "[gitignore] Created .gitignore")];;
    mret true
  else
    text ← read_text gi_path;
    let existing := splitlines text in
    match to_add existing with
    | (_ :: _) as lines =>
        append_text gi_path ([LF] ++ join [LF] lines ++ [LF]);;
        print [Lit (py "[gitignore] Updated .gitignore")];;
        mret true
    | [] =>
        print [Lit (py "[gitignore] .gitignore is fine")];;
        mret false
    end.

(** Create MIT LICENSE file. Return True if created, False if it exists. *)
Definition create_license (root : path) : M bool :=
  let license_path := root // py "LICENSE" in
  ex ← path_exists license_path;
  if (ex : bool) then
    print [Lit (py "[license] LICENSE already exists")];;
    mret false
  else
    write_text license_path MIT_LICENSE;;
    print [Lit (py "[license] Created LICENSE (replace YOUR NAME with your name)")];;
    mret true.

Definition ensure_git_installed : M unit :=
  try_except
    (r ← run [py "git"; py "--version"] None true;
     print [Lit (py "[git] "); Lit (strip (cp_stdout r))])
    is_Exception
    (fun _ =>
       print [Lit (py "[git] git is not installed or not on PATH")];;
       sys_exit 1).

(** [e.stderr or e.stdout or ""], stripped, for a [CalledProcessError]. *)
Definition failure_message (e : exn) : str :=
  match e with
  | CalledProcessError _ _ out err =>
      strip (if truthy err then err else if truthy out then out else [])
  | _ => []
  end.

(** The test [init_git] applies to the message of a failed commit. *)
Definition mentions_identity (msg : str) : bool :=
  contains (py "user.name") msg || contains (py "user.email") msg.

(** Init repo and make an initial commit if needed. *)
Definition init_git (root : path) : M unit :=
  ex ← path_exists (root // py ".git");
  (if (ex : bool) then print [Lit (py "[git] Already a repository")]
   else
     run [py "git"; py "init"] (Some root) true;;
     print [Lit (py "[git] Initialized repository")]);;
  run [py "git"; py "add"; py "-A"] (Some root) true;;
  try_except
    (run [py "git"; py "commit"; py "-m"; py "initial commit"] (Some root) true;;
     print [Lit (py "[git] Created initial commit")])
    is_CalledProcessError
    (fun e =>
       let msg := failure_message e in
       if mentions_identity msg then
         print [Lit (py "[git] Commit failed. Set your identity:")];;
         print [Lit (py "  git config --global user.name " ++ [DQ] ++ py "Your Name" ++ [DQ])];;
         print [Lit (py "  git config --global user.email " ++ [DQ] ++ py "you@example.com" ++ [DQ])];;
         sys_exit 1
       else
         print [Lit (py "[git] Nothing to commit or commit failed, continuing" ++ [ELLIPSIS])]).

(** [description or "Pushed by autoboot"]. *)
Definition description_or_default (description : option str) : str :=
  match description with
  | Some (c :: d) => c :: d
  | _ => py "Pushed by autoboot"
  end.

(** [resp.json()]. *)
Definition response_json (resp : Response) : M json :=
  match rs_json resp with
  | Some v => mret v
  | None => raise (JSONDecodeError (rs_text resp))
  end.

(** [data.get(key)]: only a dictionary has the method. *)
Definition dict_get (data : json) (key : str) : M (option json) :=
  match data with
  | JObj fields => mret (fields !! key)
  | _ => raise (AttributeError (py "object has no attribute 'get'"))
  end.

(** [data[key]]. *)
Definition getitem (data : json) (key : str) : M json :=
  match data with
  | JObj fields =>
      match fields !! key with
      | Some v => mret v
      | None => raise (KeyError key)
      end
  | JArr _ | JStr _ => raise (TypeError (py "indices must be integers"))
  | _ => raise (TypeError (py "object is not subscriptable"))
  end.

Definition api_request (repo_name : str) (is_private : bool) (token : str)
    (description : option str) : Request :=
  {| rq_url := py "https://api.github.com/user/repos";
     rq_headers :=
       <[py "Authorization" := (py "Bearer " ++ token)]>
         (<[py "Accept" := py "application/vnd.github+json"]> ∅);
     rq_payload :=
       <[py "name" := JStr repo_name]>
         (<[py "private" := JBool is_private]>
            (<[py "description" := JStr (description_or_default description)]>
               (<[py "auto_init" := JBool false]> ∅)));
     rq_timeout := 30 |}.

(** [requests.post(url, headers=..., data=json.dumps(payload), timeout=30)]. *)
Definition post (rq : Request) : M Response := fun st =>
  let st' := log (Post rq) st in
  match requests_post w rq with
  | PostFailed detail => (Raise (RequestException detail), st')
  | Responded r => (Return r, st')
  end.

(** Create repo via GitHub API. Return JSON with clone_url and html_url. *)
Definition create_github_repo (repo_name : str) (is_private : bool)
    (token : str) (description : option str) : M json :=
  resp ← post (api_request repo_name is_private token description);
  if 300 <=? status_code resp then
    raise (RuntimeError (py "GitHub API error " ++ str_of_int (status_code resp)
                         ++ py ": " ++ rs_text resp))
  else
    data ← response_json resp;
    clone ← dict_get data (py "clone_url");
    if negb (opt_truthy clone) then
      raise (RuntimeError (py "GitHub API did not return clone_url"))
    else
      html ← dict_get data (py "html_url");
      print [Lit (py "[github] Created repo: "); Val html];;
      mret data.

(** A command line holds strings only. *)
Definition as_argument (v : json) : M str :=
  match v with
  | JStr s => mret s
  | _ => raise (TypeError (py "expected str, bytes or os.PathLike object"))
  end.

(** Add remote 'origin', set branch name, and push. *)
Definition connect_remote_and_push (root : path) (clone_url : json)
    (branch_name : str) : M unit :=
  try_except
    (run [py "git"; py "branch"; py "-M"; branch_name] (Some root) true;; mret tt)
    is_CalledProcessError
    (fun _ => mret tt);;
  r ← run [py "git"; py "remote"] (Some root) false;
  let remotes := split_ws (cp_stdout r) in
  (if bool_decide (py "origin" ∈ remotes) then mret tt
   else
     url ← as_argument clone_url;
     run [py "git"; py "remote"; py "add"; py "origin"; url] (Some root) true;;
     print [Lit (py "[git] Added remote origin -> "); Val (Some clone_url)]);;
  run [py "git"; py "push"; py "-u"; py "origin"; branch_name] (Some root) true;;
  print [Lit (py "[git] Pushed to "); Lit branch_name].

Definition pip_audit (root : path) : M (option str) :=
  let req := root // py "requirements.txt" in
  ex ← path_exists req;
  if negb ex then
    print [Lit (py "[audit] No requirements.txt found, skipping dependency audit")];;
    mret None
  else
    ok ← try_except
      (run [executable w; py "-m"; py "pip_audit"; py "--version"] None true;;
       mret true)
      is_CalledProcessError
      (fun _ =>
         print [Lit (py "[audit] pip-audit not found. Installing" ++ [ELLIPSIS])];;
         try_except
           (run [executable w; py "-m"; py "pip"; py "install"; py "pip-audit"] None true;;
            mret true)
           is_CalledProcessError
           (fun _ =>
              print [Lit (py "[audit] Could not install pip-audit. Skipping.")];;
              mret false));
    if negb ok then mret None
    else
      let report_path := root // py "pip-audit-report.txt" in
      print [Lit (py "[audit] Running pip-audit" ++ [ELLIPSIS])];;
      result ← run [executable w; py "-m"; py "pip_audit"; py "-r"; path_str req]
                   None false;
      write_text report_path (cp_stdout result ++ [LF] ++ cp_stderr result);;
      (if cp_returncode result =? 0
       then print [Lit (py "[audit] No known vulnerabilities (see pip-audit-report.txt)")]
       else print [Lit (py "[audit] Vulnerabilities found (see pip-audit-report.txt)")]);;
      mret (Some (path_str report_path)).

Definition bandit_scan (root : path) : M (option str) :=
  ok ← try_except
    (run [executable w; py "-m"; py "bandit"; py "--version"] None true;;
     mret true)
    is_CalledProcessError
    (fun _ =>
       print [Lit (py "[bandit] bandit not found. Installing" ++ [ELLIPSIS])];;
       try_except
         (run [executable w; py "-m"; py "pip"; py "install"; py "bandit"] None true;;
          mret true)
         is_CalledProcessError
         (fun _ =>
            print [Lit (py "[bandit] Could not install bandit. Skipping.")];;
            mret false));
  if negb ok then mret None
  else
    let report_path := root // py "bandit-report.txt" in
    print [Lit (py "[bandit] Scanning" ++ [ELLIPSIS])];;
    result ← run [executable w; py "-m"; py "bandit"; py "-r"; py "."] None false;
    write_text report_path (cp_stdout result ++ [LF] ++ cp_stderr result);;
    print [Lit (py "[bandit] Finished (see bandit-report.txt)")];;
    mret (Some (path_str report_path)).

(** [os.environ.get("GITHUB_TOKEN") or os.environ.get("GH_TOKEN")]. *)
Definition lookup_token : option str :=
  match environ w !! py "GITHUB_TOKEN" with
  | Some v => if truthy v then Some v else environ w !! py "GH_TOKEN"
  | None => environ w !! py "GH_TOKEN"
  end.

(** [not token]. *)
Definition token_missing (token : option str) : bool :=
  match token with
  | Some (_ :: _) => false
  | _ => true
  end.

Definition missing_token_message : str :=
  py "[github] Missing token. Set GITHUB_TOKEN (repo scope) globally and rerun." ++ [LF]
  ++ py "Example (PowerShell): setx GITHUB_TOKEN " ++ [DQ] ++ py "ghp_yourtoken" ++ [DQ] ++ [LF]
  ++ py "After that, restart your terminal or IDE before running autoboot.".

(** [args.name or root.name]. *)
Definition repo_name_of (args : Namespace) (root : path) : str :=
  match name args with
  | Some (c :: n) => c :: n
  | _ => path_name root
  end.

(** The [try] block of [main]. *)
Definition create_and_push (args : Namespace) (root : path) (token : str) : M json :=
  data ← create_github_repo (repo_name_of args root) (private args) token (desc args);
  clone ← getitem data (py "clone_url");
  connect_remote_and_push root clone (branch args);;
  mret data.

(** The body of [main] once the command line is parsed, from
    [root = Path.cwd()] on; [args] is what [parser.parse_args()]
    returned. *)
Definition main (args : Namespace) : M unit :=
  let root := cwd w in
  ensure_git_installed;;
  ensure_gitignore root;;
  create_license root;;
  init_git root;;
  (if negb (no_audit args) then pip_audit root;; mret tt else mret tt);;
  (if bandit args then bandit_scan root;; mret tt else mret tt);;
  let token := lookup_token in
  (if token_missing token then
     print [Lit missing_token_message];;
     sys_exit 2
   else mret tt);;
  data ← try_except
    (create_and_push args root (default [] token))
    is_Exception
    (fun e =>
       print [Lit (py "[github] Error: "); Exc e];;
       sys_exit 3);
  html ← dict_get data (py "html_url");
  print [Lit ([LF] ++ py "Done.")];;
  print [Lit (py "- Repo: "); Val html];;
  print [Lit (py "- Branch: "); Lit (branch args)].

(** [args = parser.parse_args()]. *)
Definition parse_args (cmdline : parse_result) : M Namespace :=
  match cmdline with
  | Parsed args => mret args
  | UsageError _ => sys_exit 2
  | HelpRequested => sys_exit 0
  end.

(** [main()] from its first line: the command line is parsed, then the
    steps run. *)
Definition cli_main (cmdline : parse_result) : M unit :=
  args ← parse_args cmdline;
  main args.

End Cli.


(** ** Notions used to state the properties *)

(** A character that ends no line. *)
Definition plain (c : char) : bool := negb (is_cr c) && negb (is_break c).

Definition plain_line (l : str) : bool := forallb plain l.

(** The two values of [os.linesep]. *)
Definition is_linesep (sep : str) : Prop := sep = [LF] \/ sep = [CR; LF].

(** Lines written one after the other, each with its separator. *)
Definition block (sep : str) (ls : list str) : str :=
  concat ((fun l => l ++ sep) <$> ls).


(** The two files the scaffolding works on. *)
Definition gitignore_path (root : path) : path := root // py ".gitignore".
Definition license_path (root : path) : path := root // py "LICENSE".

(** The lines [ensure_gitignore] sees in a file with the given content:
    [read_text(...).splitlines()]. *)
Definition file_lines (content : str) : list str :=
  splitlines (universal_newlines content).

(** Number of occurrences of a line. *)
Definition count_line (t : str) (ls : list str) : nat :=
  length (filter (fun l => l = t) ls).

(** The lines of the merged file that come after the original ones. *)
Definition appended_lines (old new : str) : list str :=
  drop (length (file_lines old)) (file_lines new).

(** Some template line is in the file and some is not. *)
Definition partial_overlap (old : str) : Prop :=
  (exists t, t ∈ splitlines GITIGNORE_TEMPLATE /\ t ∈ file_lines old) /\
  (exists t, t ∈ splitlines GITIGNORE_TEMPLATE /\ t ∉ file_lines old).

(** The merge as the specification words it: the original lines remain,
    each template line that was missing is appended exactly once, and no
    line is duplicated. *)
Definition merge_as_specified (old new : str) : Prop :=
  file_lines old `prefix_of` file_lines new /\
  (forall t, t ∈ splitlines GITIGNORE_TEMPLATE -> t ∉ file_lines old ->
             (count_line t (appended_lines old new) = 1)%nat) /\
  (forall t, count_line t (appended_lines old new) <= 1 /\
             (t ∈ file_lines old -> count_line t (appended_lines old new) = 0)%nat)%nat.

(** The same with the empty line set apart: it is no entry of the
    template, and at most one empty line separates the additions from the
    original content. *)
Definition merge_of_entries (old new : str) : Prop :=
  file_lines old `prefix_of` file_lines new /\
  (forall t, t <> [] -> t ∈ splitlines GITIGNORE_TEMPLATE -> t ∉ file_lines old ->
             (count_line t (appended_lines old new) = 1)%nat) /\
  (forall t, count_line t (appended_lines old new) <= 1 /\
             (t <> [] -> t ∈ file_lines old ->
              count_line t (appended_lines old new) = 0)%nat)%nat /\
  (forall t, t <> [] -> t ∈ appended_lines old new ->
             t ∈ splitlines GITIGNORE_TEMPLATE).

(** The content of the ignore file once [ensure_gitignore] has run. *)
Definition merged (w : World) (root : path) (st : State) : option str :=
  match fs (snd (ensure_gitignore w root st)) !! gitignore_path root with
  | Some (File new) => Some new
  | _ => None
  end.

(** ** Sample data for the examples *)

Definition sample_root : path := [py "home"; py "dev"; py "demo"].

Definition sample_args : Namespace :=
  {| name := None; private := false; no_audit := false; bandit := true;
     desc := None; branch := py "main" |}.

Definition sample_payload : gmap str json :=
  <[py "clone_url" := JStr (py "https://github.com/dev/demo.git")]>
    (<[py "html_url" := JStr (py "https://github.com/dev/demo")]> ∅).

Definition created_response : Response :=
  {| status_code := 201; rs_text := py "{...}"; rs_json := Some (JObj sample_payload) |}.

(** A world where every command succeeds silently, the API answers
    [created_response] and [GITHUB_TOKEN] is set. *)
Definition calm_world (p : Platform) : World :=
  {| platform := p;
     cwd := sample_root;
     executable := py "python3";
     environ := <[py "GITHUB_TOKEN" := py "ghp_1"]> ∅;
     subprocess_run := fun _ _ => Exited 0 [] [];
     requests_post := fun _ => Responded created_response |}.

Definition empty_state : State := {| fs := ∅; trace := [] |}.

Definition state_with_gitignore (content : str) : State :=
  {| fs := <[gitignore_path sample_root := File content]> ∅; trace := [] |}.

Definition state_with_license (content : str) : State :=
  {| fs := <[license_path sample_root := File content]> ∅; trace := [] |}.



(** ** The phases of [main] *)

(** The commands [init_git] runs. *)
Definition version_cmd : list str := [py "git"; py "--version"].
Definition init_cmd : list str := [py "git"; py "init"].
Definition add_cmd : list str := [py "git"; py "add"; py "-A"].
Definition commit_cmd : list str :=
  [py "git"; py "commit"; py "-m"; py "initial commit"].

(** The first command of [connect_remote_and_push]. *)
Definition branch_cmd (branch_name : str) : list str :=
  [py "git"; py "branch"; py "-M"; branch_name].

(** The optional audits of [main]. *)
Definition audits (w : World) (args : Namespace) : M unit :=
  (if negb (no_audit args) then pip_audit w (cwd w);; mret tt else mret tt);;
  (if bandit args then bandit_scan w (cwd w);; mret tt else mret tt).

(** [main] up to the credential lookup. *)
Definition prelude (w : World) (args : Namespace) : M unit :=
  ensure_git_installed w;;
  ensure_gitignore w (cwd w);;
  create_license w (cwd w);;
  init_git w (cwd w);;
  audits w args.

(** [main] from the credential lookup on. *)
Definition publish (w : World) (args : Namespace) : M unit :=
  let token := lookup_token w in
  (if token_missing token then
     print [Lit missing_token_message];;
     sys_exit 2
   else mret tt);;
  data ← try_except
    (create_and_push w args (cwd w) (default [] token))
    is_Exception
    (fun e =>
       print [Lit (py "[github] Error: "); Exc e];;
       sys_exit 3);
  html ← dict_get data (py "html_url");
  print [Lit ([LF] ++ py "Done.")];;
  print [Lit (py "- Repo: "); Val html];;
  print [Lit (py "- Branch: "); Lit (branch args)].

(** The request [main] sends for a given credential. *)
Definition main_request (w : World) (args : Namespace) (token : str) : Request :=
  api_request (repo_name_of args (cwd w)) (private args) token (desc args).

(** ** Classes of events *)

(** A call of the HTTP endpoint. *)
Definition is_post (e : event) : bool :=
  match e with
  | Post _ => true
  | _ => false
  end.

(** A command of [connect_remote_and_push]: [git branch], [git remote] or
    [git push]. *)
Definition is_push_step (e : event) : bool :=
  match e with
  | Spawn _ (_ :: verb :: _) =>
      bool_decide (verb = py "branch") || bool_decide (verb = py "remote")
      || bool_decide (verb = py "push")
  | _ => false
  end.

(** An event that reaches neither the API nor the remote. *)
Definition is_local (e : event) : bool := negb (is_post e) && negb (is_push_step e).

(** The events a computation adds to the trace. *)
Definition new_events {A : Type} (m : M A) (st : State) : list event :=
  drop (length (trace st)) (trace (snd (m st))).

(** A computation only adds events of a class. *)
Definition emits {A : Type} (P : event -> bool) (m : M A) : Prop :=
  forall st, exists evs,
    trace (snd (m st)) = trace st ++ evs /\ Forall (fun e => P e = true) evs.

(** A computation never ends in [SystemExit]. *)
Definition no_exit {A : Type} (m : M A) : Prop :=
  forall st c st', m st <> (SysExit c, st').

(** ** Causes of failure, as the outside shows them *)

(** The version check of [ensure_git_installed] fails: git cannot be
    started or exits with an error. *)
Definition git_check_fails (w : World) : Prop :=
  match subprocess_run w None version_cmd with
  | Exited rc _ _ => rc <> 0
  | SpawnFailed _ => True
  end.

(** The commit exits with an error whose message names the identity
    settings. *)
Definition identity_failure (w : World) : Prop :=
  exists rc out err,
    subprocess_run w (Some (cwd w)) commit_cmd = Exited rc out err /\
    rc <> 0 /\
    mentions_identity (failure_message (CalledProcessError rc commit_cmd out err)) = true.

(** A text occurs in another: some text before it, some text after. *)
Definition occurs_in (needle s : str) : Prop :=
  exists before behind, s = before ++ needle ++ behind.

(** What a failed command reports: its standard error, or its standard
    output when it wrote nothing to standard error. *)
Definition reported (out err : str) : str :=
  match err with
  | [] => out
  | _ :: _ => err
  end.

(** A report that names an identity setting of git. *)
Definition names_identity (report : str) : Prop :=
  occurs_in (py "user.name") report \/ occurs_in (py "user.email") report.

(** The commit exits with an error whose report names an identity
    setting. *)
Definition identity_reported (w : World) : Prop :=
  exists rc out err,
    subprocess_run w (Some (cwd w)) commit_cmd = Exited rc out err /\
    rc <> 0 /\
    names_identity (reported out err).

(** What [init_git] prints when the identity is missing, and when the
    commit fails otherwise. *)
Definition identity_guidance : list event :=
  [Print [Lit (py "[git] Commit failed. Set your identity:")];
   Print [Lit (py "  git config --global user.name " ++ [DQ] ++ py "Your Name" ++ [DQ])];
   Print [Lit (py "  git config --global user.email " ++ [DQ] ++ py "you@example.com" ++ [DQ])]].

Definition commit_failed_notice : event :=
  Print [Lit (py "[git] Nothing to commit or commit failed, continuing" ++ [ELLIPSIS])].

(** The last statement of [init_git]: the commit and its handler. *)
Definition commit_step (w : World) (root : path) : M unit :=
  try_except
    (run w commit_cmd (Some root) true;;
     print [Lit (py "[git] Created initial commit")])
    is_CalledProcessError
    (fun e =>
       let msg := failure_message e in
       if mentions_identity msg then
         print [Lit (py "[git] Commit failed. Set your identity:")];;
         print [Lit (py "  git config --global user.name " ++ [DQ] ++ py "Your Name" ++ [DQ])];;
         print [Lit (py "  git config --global user.email " ++ [DQ] ++ py "you@example.com" ++ [DQ])];;
         sys_exit 1
       else
         print [Lit (py "[git] Nothing to commit or commit failed, continuing" ++ [ELLIPSIS])]).

(** ** More sample worlds *)

(** What git writes when no identity is configured, and when there is
    nothing to commit. *)
Definition identity_unknown_stderr : str :=
  py "Author identity unknown

*** Please tell me who you are.

Run

  git config --global user.email " ++ [DQ] ++ py "you@example.com" ++ [DQ] ++ py "
  git config --global user.name " ++ [DQ] ++ py "Your Name" ++ [DQ] ++ py "

to set your account's default identity.
fatal: unable to auto-detect email address
".

Definition nothing_to_commit_stdout : str :=
  py "On branch main
nothing to commit, working tree clean
".

(** [calm_world] with one command failing. *)
Definition world_failing (cmd : list str) (result : spawn_result)
    (env : gmap str str) : World :=
  {| platform := Posix;
     cwd := sample_root;
     executable := py "python3";
     environ := env;
     subprocess_run := fun _ c => if bool_decide (c = cmd) then result else Exited 0 [] [];
     requests_post := fun _ => Responded created_response |}.

(** What git answers to a commit when there is nothing to commit on
    branch [b]: status 1, the report on standard output, nothing on
    standard error. *)
Definition nothing_to_commit_on (b : str) : spawn_result :=
  Exited 1
    (py "On branch " ++ b ++ [LF] ++ py "nothing to commit, working tree clean" ++ [LF])
    [].

(** The second half of the rule on commit failures as the specification
    words it, for its own example: a commit that fails because there is
    nothing to commit does not end the run. *)
Definition nothing_to_commit_is_not_fatal : Prop :=
  forall (b : str) (st : State),
    fst (init_git (world_failing commit_cmd (nothing_to_commit_on b) ∅) sample_root st)
    = Return tt.

(** [calm_world] with another answer of the API. *)
Definition world_answering (resp : Response) : World :=
  {| platform := Posix;
     cwd := sample_root;
     executable := py "python3";
     environ := <[py "GH_TOKEN" := py "ghp_2"]> ∅;
     subprocess_run := fun _ _ => Exited 0 [] [];
     requests_post := fun _ => Responded resp |}.

(** Status 201, with an empty [clone_url]. *)
Definition empty_clone_response : Response :=
  {| status_code := 201;
     rs_text := py "{...}";
     rs_json := Some (JObj (<[py "clone_url" := JStr []]>
                              (<[py "html_url" := JStr (py "https://github.com/dev/demo")]> ∅))) |}.

(** Status 422. *)
Definition rejected_response : Response :=
  {| status_code := 422;
     rs_text := py "name already exists on this account";
     rs_json := Some (JObj (<[py "message" := JStr (py "Repository creation failed.")]> ∅)) |}.

(** A computation whose first event is [e]. *)
Definition starts_with {A : Type} (e : event) (m : M A) : Prop :=
  forall st, exists rest, trace (snd (m st)) = trace st ++ e :: rest.

(** What [main] prints at the end of a run that succeeds. *)
Definition summary (args : Namespace) (fields : gmap str json) (st : State) : State :=
  log (Print [Lit (py "- Branch: "); Lit (branch args)])
    (log (Print [Lit (py "- Repo: "); Val (fields !! py "html_url")])
       (log (Print [Lit ([LF] ++ py "Done.")]) st)).

Definition summary_events (args : Namespace) (fields : gmap str json) : list event :=
  [Print [Lit ([LF] ++ py "Done.")];
   Print [Lit (py "- Repo: "); Val (fields !! py "html_url")];
   Print [Lit (py "- Branch: "); Lit (branch args)]].

(** What [main] prints when the [try] block raises [e]. *)
Definition error_report (e : exn) : event :=
  Print [Lit (py "[github] Error: "); Exc e].

(** The five ways a run of [main] can go, with the outcome and the final
    state of each. *)
Inductive run_shape (w : World) (args : Namespace) (st : State)
    : outcome unit * State -> Prop :=
  | EndsEarly (r : outcome unit) (st1 : State) :
      prelude w args st = (r, st1) ->
      r <> Return tt ->
      run_shape w args st (r, st1)
  | NoToken (st1 : State) :
      prelude w args st = (Return tt, st1) ->
      token_missing (lookup_token w) = true ->
      run_shape w args st (SysExit 2, log (Print [Lit missing_token_message]) st1)
  | NotCreated (st1 : State) (token : str) (e : exn) (st2 : State) :
      prelude w args st = (Return tt, st1) ->
      lookup_token w = Some token -> token <> [] ->
      create_github_repo w (repo_name_of args (cwd w)) (private args) token (desc args) st1
      = (Raise e, st2) ->
      run_shape w args st (SysExit 3, log (error_report e) st2)
  | PushFailed (st1 : State) (token : str) (fields : gmap str json) (v : json)
        (st2 : State) (e : exn) (st3 : State) :
      prelude w args st = (Return tt, st1) ->
      lookup_token w = Some token -> token <> [] ->
      create_github_repo w (repo_name_of args (cwd w)) (private args) token (desc args) st1
      = (Return (JObj fields), st2) ->
      fields !! py "clone_url" = Some v -> json_truthy v = true ->
      connect_remote_and_push w (cwd w) v (branch args) st2 = (Raise e, st3) ->
      run_shape w args st (SysExit 3, log (error_report e) st3)
  | Pushed (st1 : State) (token : str) (fields : gmap str json) (v : json)
        (st2 st3 : State) :
      prelude w args st = (Return tt, st1) ->
      lookup_token w = Some token -> token <> [] ->
      create_github_repo w (repo_name_of args (cwd w)) (private args) token (desc args) st1
      = (Return (JObj fields), st2) ->
      fields !! py "clone_url" = Some v -> json_truthy v = true ->
      connect_remote_and_push w (cwd w) v (branch args) st2 = (Return tt, st3) ->
      run_shape w args st (Return tt, summary args fields st3).

(** No git on the machine, and no credential. *)
Definition world_without_git : World :=
  world_failing version_cmd (SpawnFailed (py "No such file or directory: 'git'")) ∅.

(** [git add -A] fails, and no credential is set. *)
Definition world_add_fails : World :=
  world_failing add_cmd (Exited 128 [] (py "fatal: adding files failed")) ∅.

(** Every command succeeds, and no credential is set. *)
Definition world_without_token : World :=
  world_failing [] (Exited 0 [] []) ∅.

(** [GITHUB_TOKEN] is set to the empty string, [GH_TOKEN] to a token. *)
Definition world_empty_token : World :=
  world_failing [] (Exited 0 [] [])
    (<[py "GITHUB_TOKEN" := []]> (<[py "GH_TOKEN" := py "ghp_2"]> ∅)).

(** The credential rule as the specification words it: whenever the first
    variable is set, its value is the credential. *)
Definition first_variable_wins (w : World) : Prop :=
  forall v : str, environ w !! py "GITHUB_TOKEN" = Some v -> lookup_token w = Some v.

(** ** Notions for the remaining functions *)

(** The other commands the program runs. *)
Definition remote_cmd : list str := [py "git"; py "remote"].
Definition remote_add_cmd (url : str) : list str :=
  [py "git"; py "remote"; py "add"; py "origin"; url].
Definition push_cmd (branch_name : str) : list str :=
  [py "git"; py "push"; py "-u"; py "origin"; branch_name].

Definition requirements_path (root : path) : path := root // py "requirements.txt".
Definition audit_report_path (root : path) : path := root // py "pip-audit-report.txt".
Definition bandit_report_path (root : path) : path := root // py "bandit-report.txt".

Definition audit_version_cmd (w : World) : list str :=
  [executable w; py "-m"; py "pip_audit"; py "--version"].
Definition audit_install_cmd (w : World) : list str :=
  [executable w; py "-m"; py "pip"; py "install"; py "pip-audit"].
Definition audit_cmd (w : World) (root : path) : list str :=
  [executable w; py "-m"; py "pip_audit"; py "-r"; path_str (requirements_path root)].
Definition bandit_version_cmd (w : World) : list str :=
  [executable w; py "-m"; py "bandit"; py "--version"].
Definition bandit_install_cmd (w : World) : list str :=
  [executable w; py "-m"; py "pip"; py "install"; py "bandit"].
Definition bandit_cmd (w : World) : list str :=
  [executable w; py "-m"; py "bandit"; py "-r"; py "."].

(** The command lines among some events, in order. *)
Definition commands (evs : list event) : list (list str) :=
  concat ((fun e => match e with Spawn _ cmd => [cmd] | _ => [] end) <$> evs).

(** A text without carriage return. *)
Definition no_cr (s : str) : bool := forallb (fun c => negb (is_cr c)) s.

(** A computation changes the entries of some paths only, and removes
    none. *)
Definition touches {A : Type} (S : path -> Prop) (m : M A) : Prop :=
  forall st p,
    (~ S p -> fs (snd (m st)) !! p = fs st !! p) /\
    (is_Some (fs st !! p) -> is_Some (fs (snd (m st)) !! p)).

Definition nowhere : path -> Prop := fun _ => False.

(** The files a run of [main] may write, by its options. *)
Definition managed_path (args : Namespace) (root : path) (p : path) : Prop :=
  p = gitignore_path root \/ p = license_path root \/
  (no_audit args = false /\ p = audit_report_path root) \/
  (bandit args = true /\ p = bandit_report_path root).

(** An environment variable that gives no credential. *)
Definition unset_or_empty (value : option str) : Prop :=
  value = None \/ value = Some (py "").

(** State after some more events. *)
Definition after (evs : list event) (st : State) : State :=
  {| fs := fs st; trace := trace st ++ evs |}.

(** A world whose remote list names [origin], and one where an audit tool
    has to be installed first. *)
Definition world_with_origin : World :=
  world_failing remote_cmd (Exited 0 (py "origin
upstream
") []) ∅.

Definition world_installing : World :=
  world_failing (audit_version_cmd (calm_world Posix))
    (Exited 1 [] (py "No module named pip_audit")) ∅.

Definition state_with_requirements : State :=
  {| fs := <[requirements_path sample_root := File (py "requests==2.0
")]> ∅;
     trace := [] |}.

Definition state_with_repository : State :=
  {| fs := <[sample_root // py ".git" := Dir]> ∅; trace := [] |}.

(** [main] once the scaffolding is done. *)
Definition after_scaffolding (w : World) (args : Namespace) : M unit :=
  init_git w (cwd w);;
  audits w args;;
  publish w args.


(** An event that runs a given command line. *)
Definition is_spawn_of (cmd : list str) (e : event) : bool :=
  match e with
  | Spawn _ c => bool_decide (c = cmd)
  | _ => false
  end.

(** A failing commit that names the identity on standard output only,
    while standard error holds something else. *)
Definition world_identity_on_stdout : World :=
  world_failing commit_cmd
    (Exited 1 (py "set user.email first") (py "hook failed")) ∅.

(** A world where bandit has to be installed first, and one where no
    module of the interpreter can be run or installed. *)
Definition world_without_bandit : World :=
  world_failing (bandit_version_cmd (calm_world Posix))
    (Exited 1 [] (py "No module named bandit")) ∅.

Definition world_offline : World :=
  {| platform := Posix;
     cwd := sample_root;
     executable := py "python3";
     environ := ∅;
     subprocess_run := fun _ c =>
       match c with
       | exe :: _ =>
           if bool_decide (exe = py "python3")
           then Exited 1 [] (py "No matching distribution found")
           else Exited 0 [] []
       | [] => Exited 0 [] []
       end;
     requests_post := fun _ => Responded created_response |}.

(** Status 200 with a body that is not JSON, as a proxy may answer. *)
Definition html_response : Response :=
  {| status_code := 200;
     rs_text := py "<html>Sign in</html>";
     rs_json := None |}.

(** An event that starts no program other than git. *)
Definition runs_git (e : event) : bool :=
  match e with
  | Spawn _ (prog :: _) => bool_decide (prog = py "git")
  | Spawn _ [] => false
  | _ => true
  end.

(** Options that skip both audits. *)
Definition plain_args : Namespace :=
  {| name := Some (py "demo"); private := true; no_audit := true; bandit := false;
     desc := None; branch := py "trunk" |}.

(** The commit fails for want of an identity, and no credential is set. *)
Definition world_without_identity : World :=
  world_failing commit_cmd (Exited 128 [] identity_unknown_stderr) ∅.

(** ** Facts about lines *)


(** Induction that follows [splitlines]: a step may consume two characters. *)
Lemma list_pair_ind {A : Type} (P : list A -> Prop) :
  P [] ->
  (forall c, P [c]) ->
  (forall c c' s, P s -> P (c' :: s) -> P (c :: c' :: s)) ->
  forall s : list A, P s.
Proof.
  intros Hnil Hone Hstep s.
  cut (P s /\ forall c, P (c :: s)); [tauto|].
  induction s as [|c' s [IH1 IH2]]; split; auto.
Qed.

Lemma plain_not_lf c : plain c = true -> is_lf c = false.
Proof.
  unfold plain, is_break, is_lf.
  destruct (c =? 10)%N; simpl; [rewrite andb_false_r|]; done.
Qed.

Lemma splitlines_nil_inv s : splitlines s = [] -> s = [].
Proof.
  destruct s as [|c s]; [done|]. simpl.
  destruct (is_cr c).
  - destruct s as [|c' s]; [done|]. by destruct (is_lf c').
  - destruct (is_break c); [done|]. by destruct (splitlines s).
Qed.

Lemma linesep_is_linesep p : is_linesep (linesep p).
Proof. destruct p; [left|right]; done. Qed.

Lemma splitlines_sep sep rest :
  is_linesep sep -> splitlines (sep ++ rest) = [] :: splitlines rest.
Proof. by intros [-> | ->]. Qed.

Lemma splitlines_plain_cons c s :
  plain c = true ->
  splitlines (c :: s) =
    match splitlines s with
    | [] => [[c]]
    | l :: ls => (c :: l) :: ls
    end.
Proof.
  unfold plain. intros [Hcr Hbr]%andb_true_iff. simpl.
  apply negb_true_iff in Hcr, Hbr. by rewrite Hcr, Hbr.
Qed.

(** A line followed by a separator is read back as that line. *)
Lemma splitlines_line sep l rest :
  is_linesep sep -> plain_line l = true ->
  splitlines (l ++ sep ++ rest) = l :: splitlines rest.
Proof.
  intros Hsep. induction l as [|c l IH]; simpl; intros Hl.
  - by apply splitlines_sep.
  - apply andb_true_iff in Hl as [Hc Hl].
    change (splitlines (c :: (l ++ sep ++ rest)) = (c :: l) :: splitlines rest).
    rewrite splitlines_plain_cons by done. by rewrite IH.
Qed.

Lemma splitlines_block sep ls :
  is_linesep sep -> Forall (fun l => plain_line l = true) ls ->
  splitlines (block sep ls) = ls.
Proof.
  intros Hsep. induction 1 as [|l ls Hl _ IH]; [done|].
  unfold block. simpl. rewrite <- (assoc_L (++)).
  rewrite splitlines_line by done. by rewrite <- IH at 2.
Qed.

Lemma splitlines_cr_end c : is_cr c = true -> splitlines [c] = [[]].
Proof. intros H. simpl. by rewrite H. Qed.

Lemma splitlines_cr_lf c c' s :
  is_cr c = true -> is_lf c' = true ->
  splitlines (c :: c' :: s) = [] :: splitlines s.
Proof. intros H H'. simpl. by rewrite H, H'. Qed.

Lemma splitlines_cr_other c c' s :
  is_cr c = true -> is_lf c' = false ->
  splitlines (c :: c' :: s) = [] :: splitlines (c' :: s).
Proof. intros H H'. cbn [splitlines]. by rewrite H, H'. Qed.

Lemma splitlines_break c s :
  is_cr c = false -> is_break c = true ->
  splitlines (c :: s) = [] :: splitlines s.
Proof. intros H H'. cbn [splitlines]. by rewrite H, H'. Qed.

Lemma plain_intro c : is_cr c = false -> is_break c = false -> plain c = true.
Proof. unfold plain. by intros -> ->. Qed.

(** Appending a separator and a block of lines to any text keeps the lines
    of the text and adds the lines of the block, after at most one empty
    line. *)
Lemma splitlines_append sep ls :
  is_linesep sep -> Forall (fun l => plain_line l = true) ls ->
  forall s, exists gap,
    (gap = [] \/ gap = [[]]) /\ (s = [] -> gap = [[]]) /\
    splitlines (s ++ sep ++ block sep ls) = splitlines s ++ gap ++ ls.
Proof.
  intros Hsep Hls.
  assert (Hblock : splitlines (sep ++ block sep ls) = [] :: ls).
  { rewrite splitlines_sep by done. by rewrite splitlines_block. }
  intros s. induction s as [|c|c c' s IH1 IH2] using list_pair_ind.
  - exists [[]]. split; [by right|]. split; [done|].
    by rewrite app_nil_l, Hblock.
  - change ([c] ++ sep ++ block sep ls) with (c :: (sep ++ block sep ls)).
    destruct (is_cr c) eqn:Hcr; [|destruct (is_break c) eqn:Hbr].
    + rewrite (splitlines_cr_end c Hcr). destruct Hsep as [-> | ->].
      * exists []. split; [by left|]. split; [done|].
        change (c :: [LF] ++ block [LF] ls) with (c :: LF :: block [LF] ls).
        rewrite splitlines_cr_lf by done.
        by rewrite splitlines_block by (done || by left).
      * exists [[]]. split; [by right|]. split; [done|].
        change (c :: [CR; LF] ++ block [CR; LF] ls)
          with (c :: CR :: ([LF] ++ block [CR; LF] ls)).
        rewrite splitlines_cr_other by done.
        change (CR :: [LF] ++ block [CR; LF] ls)
          with ([CR; LF] ++ block [CR; LF] ls).
        by rewrite Hblock.
    + exists [[]]. split; [by right|]. split; [done|].
      rewrite !splitlines_break by done. by rewrite Hblock.
    + exists []. split; [by left|]. split; [done|].
      rewrite !splitlines_plain_cons by (by apply plain_intro).
      by rewrite Hblock.
  - destruct IH1 as (g1 & Hg1 & Hg1' & IH1). destruct IH2 as (g2 & Hg2 & _ & IH2).
    change ((c :: c' :: s) ++ sep ++ block sep ls)
      with (c :: c' :: (s ++ sep ++ block sep ls)).
    destruct (is_cr c) eqn:Hcr; [destruct (is_lf c') eqn:Hlf|].
    + exists g1. split; [done|]. split; [done|].
      rewrite !splitlines_cr_lf by done. by rewrite IH1.
    + exists g2. split; [done|]. split; [done|].
      rewrite !splitlines_cr_other by done.
      change (c' :: (s ++ sep ++ block sep ls))
        with ((c' :: s) ++ sep ++ block sep ls).
      by rewrite IH2.
    + exists g2. split; [done|]. split; [done|].
      change (c :: c' :: (s ++ sep ++ block sep ls))
        with (c :: ((c' :: s) ++ sep ++ block sep ls)).
      destruct (is_break c) eqn:Hbr.
      * rewrite !splitlines_break by done. by rewrite IH2.
      * rewrite !splitlines_plain_cons by (by apply plain_intro).
        rewrite IH2.
        destruct (splitlines (c' :: s)) as [|l ls0] eqn:Hs; [|done].
        by apply splitlines_nil_inv in Hs.
Qed.

(** Reading with universal newlines does not change the lines. *)
Lemma universal_newlines_cr_lf c c' s :
  is_cr c = true -> is_lf c' = true ->
  universal_newlines (c :: c' :: s) = LF :: universal_newlines s.
Proof. intros H H'. simpl. by rewrite H, H'. Qed.

Lemma universal_newlines_cr_other c c' s :
  is_cr c = true -> is_lf c' = false ->
  universal_newlines (c :: c' :: s) = LF :: universal_newlines (c' :: s).
Proof. intros H H'. cbn [universal_newlines]. by rewrite H, H'. Qed.

Lemma universal_newlines_other c s :
  is_cr c = false ->
  universal_newlines (c :: s) = c :: universal_newlines s.
Proof. intros H. cbn [universal_newlines]. by rewrite H. Qed.

Lemma splitlines_universal_newlines s :
  splitlines (universal_newlines s) = splitlines s.
Proof.
  induction s as [|c|c c' s IH1 IH2] using list_pair_ind; [done|..].
  - simpl. destruct (is_cr c) eqn:Hcr; [done|]. simpl. by rewrite Hcr.
  - destruct (is_cr c) eqn:Hcr; [destruct (is_lf c') eqn:Hlf|].
    + rewrite universal_newlines_cr_lf, splitlines_cr_lf by done.
      rewrite (splitlines_break LF) by done. by rewrite IH1.
    + rewrite universal_newlines_cr_other, splitlines_cr_other by done.
      rewrite (splitlines_break LF) by done. by rewrite IH2.
    + rewrite universal_newlines_other by done.
      destruct (is_break c) eqn:Hbr.
      * rewrite !splitlines_break by done. by rewrite IH2.
      * rewrite !splitlines_plain_cons by (by apply plain_intro).
        by rewrite IH2.
Qed.

(** Text-mode output of lines without line feeds. *)
Lemma translate_out_app p s t :
  translate_out p (s ++ t) = translate_out p s ++ translate_out p t.
Proof. unfold translate_out. by rewrite fmap_app, concat_app. Qed.

Lemma translate_out_plain p l :
  plain_line l = true -> translate_out p l = l.
Proof.
  induction l as [|c l IH]; [done|]. simpl. intros [Hc Hl]%andb_true_iff.
  change (translate_out p (c :: l))
    with ((if is_lf c then linesep p else [c]) ++ translate_out p l).
  rewrite (plain_not_lf c Hc), IH; done.
Qed.

Lemma translate_out_lf p : translate_out p [LF] = linesep p.
Proof. unfold translate_out. simpl. by rewrite app_nil_r. Qed.

Lemma translate_out_join p l ls :
  Forall (fun l => plain_line l = true) (l :: ls) ->
  translate_out p (join [LF] (l :: ls) ++ [LF]) = block (linesep p) (l :: ls).
Proof.
  revert l. induction ls as [|l' ls IH]; intros l Hl.
  - apply Forall_cons_1 in Hl as [Hl _]. simpl.
    rewrite translate_out_app, translate_out_lf, translate_out_plain by done.
    unfold block. simpl. by rewrite app_nil_r.
  - apply Forall_cons_1 in Hl as [Hl Hls].
    change (join [LF] (l :: l' :: ls)) with (l ++ [LF] ++ join [LF] (l' :: ls)).
    rewrite <- !(assoc_L (++)). rewrite translate_out_app, (translate_out_app _ [LF]).
    rewrite IH by done. rewrite translate_out_lf, translate_out_plain by done.
    unfold block. simpl. by rewrite <- !(assoc_L (++)).
Qed.

(** What [ensure_gitignore] writes at the end of the file. *)
Lemma translate_out_addition p l ls :
  Forall (fun l => plain_line l = true) (l :: ls) ->
  translate_out p ([LF] ++ join [LF] (l :: ls) ++ [LF])
  = linesep p ++ block (linesep p) (l :: ls).
Proof.
  intros Hl. rewrite translate_out_app, translate_out_lf.
  by rewrite translate_out_join.
Qed.

(** ** Substrings *)

Lemma startswith_spec (p s : str) :
  startswith p s = true <-> exists rest, s = p ++ rest.
Proof.
  revert s. induction p as [|a p IH]; intros s; cbn [startswith].
  { split; [by exists s|done]. }
  destruct s as [|b s]; [by split; [|intros [? ?]]|].
  rewrite andb_true_iff, N.eqb_eq, IH. split.
  - intros [-> [rest ->]]. by exists rest.
  - intros [rest H]. injection H as -> ->. split; [done|by exists rest].
Qed.

Lemma contains_spec (needle hay : str) :
  contains needle hay = true <-> occurs_in needle hay.
Proof.
  induction hay as [|c hay IH]; cbn [contains]; rewrite orb_true_iff, startswith_spec.
  - split.
    + intros [[rest H] | H]; [|done]. by exists [], rest.
    + intros (before & behind & H). left.
      destruct before; [by exists behind|done].
  - rewrite IH. split.
    + intros [[rest H] | (before & behind & H)]; [by exists [], rest|].
      exists (c :: before), behind. by rewrite H.
    + intros (before & behind & H). destruct before as [|b before].
      * left. by exists behind.
      * right. injection H as _ H. by exists before, behind.
Qed.

Lemma occurs_in_infix (needle s before behind : str) :
  occurs_in needle s -> occurs_in needle (before ++ s ++ behind).
Proof.
  intros (b & a & ->). exists (before ++ b), (a ++ behind).
  by rewrite <- !(assoc_L (++)).
Qed.

Lemma occurs_in_reverse (needle s : str) :
  occurs_in needle s -> occurs_in (reverse needle) (reverse s).
Proof.
  intros (b & a & ->). exists (reverse a), (reverse b).
  by rewrite !reverse_app, <- (assoc_L (++)).
Qed.

Lemma lstrip_suffix (s : str) : exists spaces, s = spaces ++ lstrip s.
Proof.
  induction s as [|c s [spaces IH]]; [by exists []|]. cbn [lstrip].
  destruct (is_space c); [|by exists []].
  exists (c :: spaces). by rewrite IH at 1.
Qed.

Lemma rstrip_prefix (s : str) : exists spaces, s = rstrip s ++ spaces.
Proof.
  unfold rstrip. destruct (lstrip_suffix (reverse s)) as [spaces H].
  exists (reverse spaces). rewrite <- reverse_app, <- H. by rewrite reverse_involutive.
Qed.

Lemma occurs_in_lstrip (c : char) (needle s : str) :
  is_space c = false -> occurs_in (c :: needle) s -> occurs_in (c :: needle) (lstrip s).
Proof.
  intros Hc (before & behind & ->).
  induction before as [|b before IH]; cbn [app lstrip].
  - rewrite Hc. by exists [], behind.
  - destruct (is_space b); [done|]. by exists (b :: before), behind.
Qed.

(** Stripping a text neither hides nor creates an occurrence of a word
    that begins and ends with something other than white space. *)
Lemma occurs_in_strip (needle s : str) (c d : char) :
  head needle = Some c -> is_space c = false ->
  head (reverse needle) = Some d -> is_space d = false ->
  occurs_in needle (strip s) <-> occurs_in needle s.
Proof.
  intros Hhead Hc Hlast Hd. unfold strip. split.
  - intros H. destruct (lstrip_suffix s) as [spaces Hs].
    destruct (rstrip_prefix (lstrip s)) as [spaces' Hs'].
    rewrite Hs, Hs'. by apply occurs_in_infix.
  - intros H.
    destruct needle as [|c' needle]; [done|]. injection Hhead as ->.
    apply (occurs_in_lstrip c needle s Hc) in H.
    apply occurs_in_reverse in H.
    destruct (reverse (c :: needle)) as [|d' rest] eqn:Hrev; [done|].
    injection Hlast as ->.
    apply (occurs_in_lstrip d rest _ Hd) in H.
    apply occurs_in_reverse in H.
    rewrite <- Hrev, reverse_involutive in H. exact H.
Qed.

(** The test of [init_git] on the message of a failed commit, in words:
    the report of the failure names an identity setting. *)
Lemma mentions_identity_spec (rc : Z) (cmd : list str) (out err : str) :
  mentions_identity (failure_message (CalledProcessError rc cmd out err)) = true
  <-> names_identity (reported out err).
Proof.
  unfold mentions_identity, names_identity, failure_message.
  assert (Hmsg : (if truthy err then err else if truthy out then out else [])
                 = reported out err).
  { destruct err; [|done]. by destruct out. }
  rewrite Hmsg, orb_true_iff, !contains_spec.
  rewrite (occurs_in_strip (py "user.name") _ 117%N 101%N) by done.
  by rewrite (occurs_in_strip (py "user.email") _ 117%N 108%N) by done.
Qed.

Lemma identity_reported_iff (w : World) : identity_reported w <-> identity_failure w.
Proof.
  unfold identity_reported, identity_failure. split.
  - intros (rc & out & err & Hrun & Hrc & H). exists rc, out, err.
    by rewrite mentions_identity_spec.
  - intros (rc & out & err & Hrun & Hrc & H). exists rc, out, err.
    by rewrite <- (mentions_identity_spec rc commit_cmd).
Qed.

(** ** The template *)

Lemma template_lines_plain :
  Forall (fun l => plain_line l = true) (splitlines GITIGNORE_TEMPLATE).
Proof. vm_compute. repeat (constructor; [reflexivity|]). constructor. Qed.

Lemma template_entries_NoDup :
  NoDup (filter (fun ln => Is_true (truthy ln)) (splitlines GITIGNORE_TEMPLATE)).
Proof. apply (bool_decide_unpack _). vm_compute. exact I. Qed.

Lemma template_read_back p :
  file_lines (translate_out p GITIGNORE_TEMPLATE) = splitlines GITIGNORE_TEMPLATE.
Proof. destruct p; vm_compute; reflexivity. Qed.

Lemma truthy_nonempty (l : str) : Is_true (truthy l) <-> l <> [].
Proof. destruct l; simpl; split; try done. Qed.

Lemma elem_of_to_add existing t :
  t ∈ to_add existing <->
  t <> [] /\ (t ∉ existing) /\ (t ∈ splitlines GITIGNORE_TEMPLATE).
Proof.
  unfold to_add. rewrite list_elem_of_filter, truthy_nonempty. tauto.
Qed.

Lemma to_add_plain existing :
  Forall (fun l => plain_line l = true) (to_add existing).
Proof.
  apply Forall_forall. intros t Ht%elem_of_to_add.
  destruct Ht as (_ & _ & Ht).
  by apply (proj1 (Forall_forall _ _) template_lines_plain).
Qed.

Lemma to_add_NoDup existing : NoDup (to_add existing).
Proof.
  unfold to_add.
  rewrite (list_filter_iff _ (fun ln => (ln ∉ existing) /\ Is_true (truthy ln)))
    by (intros; tauto).
  rewrite <- list_filter_filter. apply NoDup_filter, template_entries_NoDup.
Qed.

(** Once the missing entries are among the lines, nothing is missing. *)
Lemma to_add_fixpoint existing later :
  (forall t, t ∈ existing -> t ∈ later) ->
  (forall t, t ∈ to_add existing -> t ∈ later) ->
  to_add later = [].
Proof.
  intros Hold Hnew.
  destruct (to_add later) as [|t ts] eqn:Hadd; [done|exfalso].
  assert (Ht : t ∈ to_add later) by (rewrite Hadd; left).
  apply elem_of_to_add in Ht as (Hne & Hnot & Htpl). apply Hnot.
  destruct (decide (t ∈ existing)); [by apply Hold|].
  apply Hnew, elem_of_to_add. done.
Qed.

Lemma to_add_template : to_add (splitlines GITIGNORE_TEMPLATE) = [].
Proof. vm_compute. reflexivity. Qed.

(** ** Stepping through the monad *)

Lemma bind_unfold {A B : Type} (m : M A) (f : A -> M B) st :
  (m ≫= f) st =
    match m st with
    | (Return a, st') => f a st'
    | (Raise e, st') => (Raise e, st')
    | (SysExit c, st') => (SysExit c, st')
    end.
Proof. reflexivity. Qed.




Lemma bind_assoc {A B C : Type} (m : M A) (f : A -> M B) (g : B -> M C) st :
  ((m ≫= f) ≫= g) st = (m ≫= (fun a => f a ≫= g)) st.
Proof. rewrite !bind_unfold. by destruct (m st) as [[a|e|c] st']. Qed.

Lemma path_exists_eq p st :
  path_exists p st = (Return (bool_decide (is_Some (fs st !! p))), st).
Proof. reflexivity. Qed.

Lemma print_eq msg st : print msg st = (Return tt, log (Print msg) st).
Proof. reflexivity. Qed.

Lemma gitignore_license_ne root : gitignore_path root <> license_path root.
Proof.
  unfold gitignore_path, license_path, path_join.
  intros H%(inj (app root)). discriminate.
Qed.

(** ** [ensure_gitignore], case by case *)

Lemma ensure_gitignore_absent w root st :
  fs st !! gitignore_path root = None ->
  ensure_gitignore w root st =
    (Return true,
     log (Print [Lit (py "[gitignore] Created .gitignore")])
       (set_fs (<[gitignore_path root :=
                   File (translate_out (platform w) GITIGNORE_TEMPLATE)]> (fs st)) st)).
Proof.
  intros H. unfold ensure_gitignore. fold (gitignore_path root).
  rewrite bind_unfold, path_exists_eq, H.
  rewrite bool_decide_false by (by intros [? ?]).
  cbn [negb]. rewrite bind_unfold. unfold write_text at 1. by rewrite H.
Qed.

Lemma ensure_gitignore_dir w root st :
  fs st !! gitignore_path root = Some Dir ->
  ensure_gitignore w root st = (Raise (IsADirectoryError (gitignore_path root)), st).
Proof.
  intros H. unfold ensure_gitignore. fold (gitignore_path root).
  rewrite bind_unfold, path_exists_eq, H.
  rewrite bool_decide_true by done.
  cbn [negb]. rewrite bind_unfold. unfold read_text at 1. by rewrite H.
Qed.

Lemma ensure_gitignore_file w root st old :
  fs st !! gitignore_path root = Some (File old) ->
  ensure_gitignore w root st =
    match to_add (file_lines old) with
    | [] =>
        (Return false, log (Print [Lit (py "[gitignore] .gitignore is fine")]) st)
    | l :: ls =>
        (Return true,
         log (Print [Lit (py "[gitignore] Updated .gitignore")])
           (set_fs (<[gitignore_path root :=
                       File (old ++ linesep (platform w)
                                 ++ block (linesep (platform w)) (l :: ls))]> (fs st)) st))
    end.
Proof.
  intros H. unfold ensure_gitignore. fold (gitignore_path root).
  rewrite bind_unfold, path_exists_eq, H.
  rewrite bool_decide_true by done.
  cbn [negb]. rewrite bind_unfold. unfold read_text at 1. rewrite H.
  fold (file_lines old).
  pose proof (to_add_plain (file_lines old)) as Hplain.
  destruct (to_add (file_lines old)) as [|l ls]; [done|].
  rewrite bind_unfold. unfold append_text at 1. rewrite H.
  by rewrite translate_out_addition.
Qed.

Lemma file_lines_eq content : file_lines content = splitlines content.
Proof. apply splitlines_universal_newlines. Qed.

Lemma file_lines_append p old ls :
  Forall (fun l => plain_line l = true) ls ->
  exists gap,
    (gap = [] \/ gap = [[]]) /\
    file_lines (old ++ linesep p ++ block (linesep p) ls)
    = file_lines old ++ gap ++ ls.
Proof.
  intros Hls. rewrite !file_lines_eq.
  destruct (splitlines_append (linesep p) ls (linesep_is_linesep p) Hls old)
    as (gap & Hgap & _ & Heq).
  by exists gap.
Qed.

(** The lines of the file before and after [ensure_gitignore], for a file
    that exists: the old lines, at most one empty line, the missing
    entries. *)
Lemma ensure_gitignore_lines w root st old :
  fs st !! gitignore_path root = Some (File old) ->
  exists changed st' new gap,
    ensure_gitignore w root st = (Return changed, st') /\
    fs st' !! gitignore_path root = Some (File new) /\
    old `prefix_of` new /\
    (gap = [] \/ gap = [[]]) /\
    file_lines new = file_lines old ++ gap ++ to_add (file_lines old).
Proof.
  intros H. rewrite (ensure_gitignore_file w root st old H).
  pose proof (to_add_plain (file_lines old)) as Hplain.
  destruct (to_add (file_lines old)) as [|l ls] eqn:Hadd.
  - exists false, (log (Print [Lit (py "[gitignore] .gitignore is fine")]) st), old, [].
    split; [done|]. split; [done|]. split; [done|]. split; [by left|].
    by rewrite !app_nil_r.
  - destruct (file_lines_append (platform w) old (l :: ls) Hplain)
      as (gap & Hgap & Hlines).
    eexists true, _, _, gap. split; [done|]. split.
    { cbn [fs set_fs log]. apply lookup_insert_eq. }
    split; [by eexists|]. done.
Qed.

(** ** Counting lines *)

Lemma count_line_app t l1 l2 :
  count_line t (l1 ++ l2) = (count_line t l1 + count_line t l2)%nat.
Proof. unfold count_line. by rewrite filter_app, length_app. Qed.

Lemma count_line_absent t l : t ∉ l -> count_line t l = 0%nat.
Proof.
  unfold count_line. intros Hnot.
  destruct (filter (fun l0 => l0 = t) l) as [|x xs] eqn:Hf; [done|exfalso].
  assert (Hx : x ∈ filter (fun l0 => l0 = t) l) by (rewrite Hf; left).
  apply list_elem_of_filter in Hx as [-> Hx]. done.
Qed.

Lemma count_line_cons t x l :
  count_line t (x :: l) = ((if decide (x = t) then 1 else 0) + count_line t l)%nat.
Proof. unfold count_line. rewrite filter_cons. by case_decide. Qed.

Lemma count_line_NoDup t l : NoDup l -> t ∈ l -> count_line t l = 1%nat.
Proof.
  induction 1 as [|x l Hx Hl IH]; [by intros ?%elem_of_nil|].
  rewrite count_line_cons. intros [-> | Hin]%elem_of_cons.
  - rewrite decide_True by done. by rewrite (count_line_absent x l Hx).
  - rewrite decide_False by (by intros ->). by rewrite IH.
Qed.

Lemma count_line_NoDup_le t l : NoDup l -> (count_line t l <= 1)%nat.
Proof.
  intros Hl. destruct (decide (t ∈ l)).
  - by rewrite count_line_NoDup.
  - rewrite count_line_absent by done. lia.
Qed.

Lemma count_line_gap t gap :
  gap = [] \/ gap = [[]] ->
  (count_line t gap <= 1)%nat /\ (t <> [] -> count_line t gap = 0%nat).
Proof.
  intros [-> | ->].
  - split; [|done]. unfold count_line. simpl. lia.
  - rewrite count_line_cons. unfold count_line. simpl.
    case_decide; split; try lia; try done.
Qed.

(** ** [create_license], case by case *)

Lemma create_license_exists w root st :
  is_Some (fs st !! license_path root) ->
  create_license w root st =
    (Return false, log (Print [Lit (py "[license] LICENSE already exists")]) st).
Proof.
  intros H. unfold create_license. fold (license_path root).
  rewrite bind_unfold, path_exists_eq. by rewrite bool_decide_true.
Qed.

Lemma create_license_absent w root st :
  fs st !! license_path root = None ->
  create_license w root st =
    (Return true,
     log (Print [Lit (py "[license] Created LICENSE (replace YOUR NAME with your name)")])
       (set_fs (<[license_path root := File (translate_out (platform w) MIT_LICENSE)]> (fs st)) st)).
Proof.
  intros H. unfold create_license. fold (license_path root).
  rewrite bind_unfold, path_exists_eq, H.
  rewrite bool_decide_false by (by intros [? ?]).
  rewrite bind_unfold. unfold write_text at 1. by rewrite H.
Qed.

(** ** Properties of the scaffolding *)

(** Closed decidable facts are settled by evaluation. *)
Ltac by_computation := apply (bool_decide_unpack _); vm_compute; exact I.

(** C10. [ensure_gitignore] only appends to an ignore file that exists:
    the old content is a prefix of the new content, and the lines read
    from the old file are, in the same order, the first lines read from
    the new one. *)
Theorem ensure_gitignore_append_only (w : World) (root : path) (st : State) (old : str) :
  fs st !! gitignore_path root = Some (File old) ->
  exists changed st' new,
    ensure_gitignore w root st = (Return changed, st') /\
    fs st' !! gitignore_path root = Some (File new) /\
    old `prefix_of` new /\
    file_lines old `prefix_of` file_lines new.
Proof.
  intros H.
  destruct (ensure_gitignore_lines w root st old H)
    as (changed & st' & new & gap & Hrun & Hnew & Hpre & _ & Hlines).
  exists changed, st', new. repeat split; try done.
  rewrite Hlines. by eexists.
Qed.

Lemma ensure_gitignore_append_only_witness :
  exists changed st' new,
    ensure_gitignore (calm_world Windows) sample_root
      (state_with_gitignore (py "dist/" ++ [CR])) = (Return changed, st') /\
    fs st' !! gitignore_path sample_root = Some (File new) /\
    (py "dist/" ++ [CR]) `prefix_of` new /\
    file_lines (py "dist/" ++ [CR]) `prefix_of` file_lines new.
Proof.
  apply (ensure_gitignore_append_only (calm_world Windows) sample_root
           (state_with_gitignore (py "dist/" ++ [CR])) (py "dist/" ++ [CR])).
  vm_compute. reflexivity.
Defined.

Lemma appended_lines_app old new extra :
  file_lines new = file_lines old ++ extra -> appended_lines old new = extra.
Proof. unfold appended_lines. intros ->. by rewrite drop_app_length. Qed.

(** C3, as amended.  For an ignore file that exists, the merged file
    keeps every original line; every non-empty template line that was
    missing is appended exactly once; no appended line occurs twice and no
    non-empty original line is appended again; and every non-empty
    appended line is a template line.  (Empty template lines are not
    merged; at most one empty line is added as a separator.) *)
Theorem ensure_gitignore_merges_entries (w : World) (root : path) (st : State) (old : str) :
  fs st !! gitignore_path root = Some (File old) ->
  exists changed st' new,
    ensure_gitignore w root st = (Return changed, st') /\
    fs st' !! gitignore_path root = Some (File new) /\
    merge_of_entries old new.
Proof.
  intros H.
  destruct (ensure_gitignore_lines w root st old H)
    as (changed & st' & new & gap & Hrun & Hnew & _ & Hgap & Hlines).
  exists changed, st', new. split; [done|]. split; [done|].
  pose proof (to_add_NoDup (file_lines old)) as Hnodup.
  unfold merge_of_entries.
  rewrite (appended_lines_app old new _ Hlines). repeat split.
  - rewrite Hlines. by eexists.
  - intros t Hne Htpl Hmiss. rewrite count_line_app.
    rewrite (proj2 (count_line_gap t gap Hgap) Hne).
    apply count_line_NoDup; [done|]. by apply elem_of_to_add.
  - rewrite count_line_app.
    destruct (decide (t = [])) as [-> | Hne].
    + rewrite (count_line_absent [] (to_add _)).
      * pose proof (proj1 (count_line_gap [] gap Hgap)). lia.
      * by intros (? & _)%elem_of_to_add.
    + rewrite (proj2 (count_line_gap t gap Hgap) Hne).
      by apply count_line_NoDup_le.
  - intros Hne Hin. rewrite count_line_app.
    rewrite (proj2 (count_line_gap t gap Hgap) Hne).
    apply count_line_absent. by intros (_ & ? & _)%elem_of_to_add.
  - intros t Hne [Hin | Hin]%elem_of_app.
    + destruct Hgap as [-> | ->]; [by apply elem_of_nil in Hin|].
      by apply list_elem_of_singleton in Hin.
    + by apply elem_of_to_add in Hin as (_ & _ & ?).
Qed.

Lemma ensure_gitignore_merges_entries_witness :
  exists changed st' new,
    ensure_gitignore (calm_world Posix) sample_root
      (state_with_gitignore (py "# Python")) = (Return changed, st') /\
    fs st' !! gitignore_path sample_root = Some (File new) /\
    merge_of_entries (py "# Python") new.
Proof.
  apply (ensure_gitignore_merges_entries (calm_world Posix) sample_root
           (state_with_gitignore (py "# Python")) (py "# Python")).
  vm_compute. reflexivity.
Defined.

(** C3, as the specification words it, fails on empty lines.  A file
    holding the single line "# Python" without a final newline lacks the
    empty template line and does not get it; a file that already has an
    empty line gets a second one. *)
Lemma merge_as_specified_counterexample :
  (partial_overlap (py "# Python") /\
   exists new,
     merged (calm_world Posix) sample_root (state_with_gitignore (py "# Python"))
     = Some new /\
     ~ merge_as_specified (py "# Python") new) /\
  (partial_overlap (py "# Python" ++ [LF; LF] ++ py "mine" ++ [LF]) /\
   exists new,
     merged (calm_world Posix) sample_root
       (state_with_gitignore (py "# Python" ++ [LF; LF] ++ py "mine" ++ [LF]))
     = Some new /\
     ~ merge_as_specified (py "# Python" ++ [LF; LF] ++ py "mine" ++ [LF]) new).
Proof.
  split; (split; [split|]).
  - exists (py "# Python"). split; by_computation.
  - exists (py "dist/"). split; by_computation.
  - eexists. split; [vm_compute; reflexivity|].
    intros (_ & Hadd & _).
    assert (Hin : [] ∈ splitlines GITIGNORE_TEMPLATE) by by_computation.
    assert (Hout : [] ∉ file_lines (py "# Python")) by by_computation.
    specialize (Hadd [] Hin Hout). vm_compute in Hadd. discriminate.
  - exists (py "# Python"). split; by_computation.
  - exists (py "dist/"). split; by_computation.
  - eexists. split; [vm_compute; reflexivity|].
    intros (_ & _ & Hdup).
    assert (Hin : [] ∈ file_lines (py "# Python" ++ [LF; LF] ++ py "mine" ++ [LF]))
      by by_computation.
    destruct (Hdup []) as [_ Hzero]. specialize (Hzero Hin).
    vm_compute in Hzero. discriminate.
Qed.

(** After a run that returns, the ignore file holds every template entry. *)
Lemma ensure_gitignore_settles w root st :
  fs st !! gitignore_path root <> Some Dir ->
  exists changed st1 content,
    ensure_gitignore w root st = (Return changed, st1) /\
    fs st1 !! gitignore_path root = Some (File content) /\
    to_add (file_lines content) = [] /\
    fs st1 !! license_path root = fs st !! license_path root.
Proof.
  intros Hdir. destruct (fs st !! gitignore_path root) as [[old|]|] eqn:H; [|done|].
  - rewrite (ensure_gitignore_file w root st old H).
    pose proof (to_add_plain (file_lines old)) as Hplain.
    destruct (to_add (file_lines old)) as [|l ls] eqn:Hadd.
    + eexists false, _, old. by repeat split.
    + destruct (file_lines_append (platform w) old (l :: ls) Hplain)
        as (gap & _ & Hlines).
      eexists true, _, _. split; [done|]. cbn [fs set_fs log]. split; [|split].
      * apply lookup_insert_eq.
      * rewrite Hlines. apply (to_add_fixpoint (file_lines old)).
        -- intros t Ht. apply elem_of_app. by left.
        -- intros t Ht. rewrite Hadd in Ht. rewrite !elem_of_app. by right; right.
      * apply lookup_insert_ne, gitignore_license_ne.
  - rewrite (ensure_gitignore_absent w root st H).
    eexists true, _, _. split; [done|]. cbn [fs set_fs log]. split; [|split].
    + apply lookup_insert_eq.
    + rewrite template_read_back. apply to_add_template.
    + apply lookup_insert_ne, gitignore_license_ne.
Qed.

(** [create_license] always returns, leaves every other file alone, and a
    license file exists afterwards. *)
Lemma create_license_returns w root st :
  exists created st',
    create_license w root st = (Return created, st') /\
    is_Some (fs st' !! license_path root) /\
    (forall p, p <> license_path root -> fs st' !! p = fs st !! p).
Proof.
  destruct (fs st !! license_path root) as [n|] eqn:H.
  - rewrite create_license_exists by (by rewrite H).
    eexists false, _. split; [done|]. cbn [fs log]. by rewrite H.
  - rewrite create_license_absent by done.
    eexists true, _. split; [done|]. cbn [fs set_fs log]. split.
    + by rewrite lookup_insert_eq.
    + intros p Hp. by apply lookup_insert_ne.
Qed.




(** C8. A license file that exists is left as it is, whatever it holds,
    and [create_license] returns [False]. *)
Theorem create_license_keeps_existing (w : World) (root : path) (st : State) (content : str) :
  fs st !! license_path root = Some (File content) ->
  exists st',
    create_license w root st = (Return false, st') /\
    fs st' !! license_path root = Some (File content) /\
    fs st' = fs st.
Proof.
  intros H. rewrite create_license_exists by (by rewrite H).
  eexists. split; [done|]. by cbn [fs log].
Qed.

Lemma create_license_keeps_existing_witness :
  exists st',
    create_license (calm_world Posix) sample_root
      (state_with_license (py "All rights reserved.")) = (Return false, st') /\
    fs st' !! license_path sample_root = Some (File (py "All rights reserved.")) /\
    fs st' = fs (state_with_license (py "All rights reserved.")).
Proof.
  apply (create_license_keeps_existing (calm_world Posix) sample_root
           (state_with_license (py "All rights reserved.")) (py "All rights reserved.")).
  vm_compute. reflexivity.
Defined.

(** ** Sub-processes and [init_git] *)

Lemma run_eq w cmd dir check st :
  run w cmd dir check st =
    match subprocess_run w dir cmd with
    | SpawnFailed detail => (Raise (OSError detail), log (Spawn dir cmd) st)
    | Exited rc out err =>
        if check && negb (rc =? 0)
        then (Raise (CalledProcessError rc cmd out err), log (Spawn dir cmd) st)
        else (Return {| cp_args := cmd; cp_returncode := rc;
                        cp_stdout := out; cp_stderr := err |}, log (Spawn dir cmd) st)
    end.
Proof. reflexivity. Qed.

Lemma try_except_unfold {A : Type} (body : M A) class handler st :
  try_except body class handler st =
    match body st with
    | (Raise e, st') => if class e then handler e st' else (Raise e, st')
    | r => r
    end.
Proof. reflexivity. Qed.

Lemma bind_ext {A B : Type} (m : M A) (f g : A -> M B) st :
  (forall a st', f a st' = g a st') -> (m ≫= f) st = (m ≫= g) st.
Proof. intros H. rewrite !bind_unfold. by destruct (m st) as [[a|e|c] st']. Qed.

Lemma main_phases w args st :
  main w args st = (prelude w args ≫= fun _ => publish w args) st.
Proof.
  unfold main, prelude, audits. symmetry.
  do 5 (rewrite bind_assoc; apply bind_ext; intros ? ?).
  reflexivity.
Qed.

Lemma run_ok w cmd dir check st out err :
  subprocess_run w dir cmd = Exited 0 out err ->
  run w cmd dir check st =
    (Return {| cp_args := cmd; cp_returncode := 0; cp_stdout := out; cp_stderr := err |},
     log (Spawn dir cmd) st).
Proof. intros H. rewrite run_eq, H. by rewrite andb_false_r. Qed.

Lemma run_check_fails w cmd dir st rc out err :
  subprocess_run w dir cmd = Exited rc out err -> rc <> 0 ->
  run w cmd dir true st =
    (Raise (CalledProcessError rc cmd out err), log (Spawn dir cmd) st).
Proof.
  intros H Hrc. rewrite run_eq, H.
  destruct (rc =? 0) eqn:Heq; [|done]. apply Z.eqb_eq in Heq. done.
Qed.

(** When the repository exists or [git init] succeeds, and [git add]
    succeeds, [init_git] gets to the commit. *)
Lemma init_git_reaches_commit w root st :
  (is_Some (fs st !! (root // py ".git")) \/
   exists out err, subprocess_run w (Some root) init_cmd = Exited 0 out err) ->
  (exists out err, subprocess_run w (Some root) add_cmd = Exited 0 out err) ->
  exists st1, init_git w root st = commit_step w root st1
              /\ fs st1 = fs st /\ trace st `prefix_of` trace st1.
Proof.
  intros Hinit (out & err & Hadd). unfold init_git. fold (commit_step w root).
  rewrite bind_unfold, path_exists_eq.
  destruct (bool_decide (is_Some (fs st !! (root // py ".git")))) eqn:Hex.
  - rewrite !bind_unfold, print_eq. rewrite bind_unfold.
    rewrite (run_ok w _ _ _ _ out err Hadd).
    eexists. split; [done|]. cbn [fs trace log]. split; [done|].
    rewrite <- (assoc_L (++)). by eexists.
  - destruct Hinit as [Hgit | (out0 & err0 & Hinit)].
    { by apply bool_decide_eq_false in Hex. }
    rewrite !bind_unfold. rewrite (run_ok w _ _ _ _ out0 err0 Hinit).
    rewrite print_eq, bind_unfold.
    rewrite (run_ok w _ _ _ _ out err Hadd).
    eexists. split; [done|]. cbn [fs trace log]. split; [done|].
    rewrite <- !(assoc_L (++)). by eexists.
Qed.

(** The commit step when the commit exits with an error. *)
Lemma commit_step_failure w root st rc out err :
  subprocess_run w (Some root) commit_cmd = Exited rc out err -> rc <> 0 ->
  commit_step w root st =
    if mentions_identity (failure_message (CalledProcessError rc commit_cmd out err))
    then (SysExit 1,
          {| fs := fs st;
             trace := (trace st ++ [Spawn (Some root) commit_cmd]) ++ identity_guidance |})
    else (Return tt,
          {| fs := fs st;
             trace := (trace st ++ [Spawn (Some root) commit_cmd]) ++ [commit_failed_notice] |}).
Proof.
  intros H Hrc. unfold commit_step. rewrite try_except_unfold, bind_unfold.
  rewrite (run_check_fails w _ _ _ rc out err H Hrc).
  cbn [is_CalledProcessError].
  destruct (mentions_identity _); [|reflexivity].
  rewrite !bind_unfold, !print_eq. rewrite !bind_unfold, !print_eq.
  rewrite !bind_unfold, !print_eq. unfold sys_exit, log, identity_guidance.
  cbn [fs trace]. by rewrite <- !(assoc_L (++)).
Qed.

(** C5, as amended.  When the commit of [init_git] exits with an error,
    what decides is the report of the failure: standard error or, when
    that is empty, standard output.  If [user.name] or [user.email] occurs
    in the report, [init_git] prints how to set the identity and ends the
    process with status 1, whatever was to follow and whatever the cause
    of the failure was; if neither occurs, [init_git] prints a notice,
    returns, and the caller goes on with its next step. *)
Theorem init_git_commit_failure (w : World) (root : path) (st : State)
    (rc : Z) (out err : str) :
  (is_Some (fs st !! (root // py ".git")) \/
   exists o e, subprocess_run w (Some root) init_cmd = Exited 0 o e) ->
  (exists o e, subprocess_run w (Some root) add_cmd = Exited 0 o e) ->
  subprocess_run w (Some root) commit_cmd = Exited rc out err ->
  rc <> 0 ->
  (names_identity (reported out err) ->
   exists st',
     init_git w root st = (SysExit 1, st') /\
     identity_guidance `suffix_of` trace st' /\
     (forall (B : Type) (next : unit -> M B),
         (init_git w root ≫= next) st = (SysExit 1, st'))) /\
  (~ names_identity (reported out err) ->
   exists st',
     init_git w root st = (Return tt, st') /\
     [commit_failed_notice] `suffix_of` trace st' /\
     (forall (B : Type) (next : unit -> M B),
         (init_git w root ≫= next) st = next tt st')).
Proof.
  intros Hinit Hadd Hcommit Hrc.
  destruct (init_git_reaches_commit w root st Hinit Hadd) as (st1 & Hreach & _ & _).
  pose proof (commit_step_failure w root st1 rc out err Hcommit Hrc) as Hstep.
  pose proof (mentions_identity_spec rc commit_cmd out err) as Hspec.
  destruct (mentions_identity _).
  - split; [intros _|intros Hno; by destruct Hno; apply Hspec].
    eexists. split; [by rewrite Hreach, Hstep|].
    split; [by eexists|]. intros B next. by rewrite bind_unfold, Hreach, Hstep.
  - split; [intros Hyes; by apply Hspec in Hyes|intros _].
    eexists. split; [by rewrite Hreach, Hstep|].
    split; [by eexists|]. intros B next. by rewrite bind_unfold, Hreach, Hstep.
Qed.

Lemma init_git_commit_failure_witness :
  exists st',
    init_git (world_failing commit_cmd (Exited 128 [] identity_unknown_stderr) ∅)
      sample_root empty_state = (SysExit 1, st') /\
    identity_guidance `suffix_of` trace st' /\
    (forall (B : Type) (next : unit -> M B),
        (init_git (world_failing commit_cmd (Exited 128 [] identity_unknown_stderr) ∅)
           sample_root ≫= next) empty_state = (SysExit 1, st')).
Proof.
  destruct (init_git_commit_failure
              (world_failing commit_cmd (Exited 128 [] identity_unknown_stderr) ∅)
              sample_root empty_state 128 [] identity_unknown_stderr) as [Hfatal _].
  - right. exists [], []. vm_compute. reflexivity.
  - exists [], []. vm_compute. reflexivity.
  - vm_compute. reflexivity.
  - lia.
  - apply Hfatal. right. apply contains_spec. vm_compute. reflexivity.
Defined.

(** C5, as the specification words it, fails for its own example: on a
    branch called [user.name], a commit that fails because there is
    nothing to commit reports the name of the branch, and [init_git] ends
    the process with status 1. *)
Lemma init_git_commit_failure_counterexample :
  subprocess_run (world_failing commit_cmd (nothing_to_commit_on (py "user.name")) ∅)
    (Some sample_root) commit_cmd
  = Exited 1 (py "On branch user.name
nothing to commit, working tree clean
") [] /\
  fst (init_git (world_failing commit_cmd (nothing_to_commit_on (py "user.name")) ∅)
         sample_root empty_state) = SysExit 1 /\
  ~ nothing_to_commit_is_not_fatal.
Proof.
  split; [vm_compute; reflexivity|]. split; [vm_compute; reflexivity|].
  intros H. specialize (H (py "user.name") empty_state).
  vm_compute in H. discriminate.
Qed.

Example init_git_nothing_to_commit :
  exists st',
    init_git (world_failing commit_cmd (Exited 1 nothing_to_commit_stdout []) ∅)
      sample_root empty_state = (Return tt, st') /\
    last (trace st') = Some commit_failed_notice.
Proof. eexists. split; vm_compute; reflexivity. Qed.

(** ** [create_github_repo] *)

Lemma post_eq w rq st :
  post w rq st =
    match requests_post w rq with
    | PostFailed detail => (Raise (RequestException detail), log (Post rq) st)
    | Responded r => (Return r, log (Post rq) st)
    end.
Proof. reflexivity. Qed.

Lemma create_github_repo_responded w repo_name is_private token description st resp :
  requests_post w (api_request repo_name is_private token description) = Responded resp ->
  create_github_repo w repo_name is_private token description st =
    let st1 := log (Post (api_request repo_name is_private token description)) st in
    if 300 <=? status_code resp then
      (Raise (RuntimeError (py "GitHub API error " ++ str_of_int (status_code resp)
                            ++ py ": " ++ rs_text resp)), st1)
    else
      match rs_json resp with
      | None => (Raise (JSONDecodeError (rs_text resp)), st1)
      | Some (JObj fields) =>
          if opt_truthy (fields !! py "clone_url") then
            (Return (JObj fields),
             log (Print [Lit (py "[github] Created repo: "); Val (fields !! py "html_url")]) st1)
          else (Raise (RuntimeError (py "GitHub API did not return clone_url")), st1)
      | Some _ => (Raise (AttributeError (py "object has no attribute 'get'")), st1)
      end.
Proof.
  intros H. unfold create_github_repo. rewrite bind_unfold, post_eq, H.
  cbv zeta. destruct (300 <=? status_code resp); [done|].
  rewrite bind_unfold. unfold response_json.
  destruct (rs_json resp) as [[| | | | | |fields]|]; try done.
  cbn [mret M_ret]. rewrite bind_unfold. cbn [dict_get mret M_ret].
  by destruct (opt_truthy (fields !! py "clone_url")).
Qed.

(** C6, as amended.  Once the endpoint has answered: a status of 300 or
    more raises a failure whose message carries the status and the body; a
    lower status whose JSON object has no [clone_url], or an empty (falsy)
    one, raises a failure too; a lower status whose JSON object has a
    non-empty (truthy) [clone_url] returns the whole parsed object. *)
Theorem create_github_repo_outcomes (w : World) (repo_name : str) (is_private : bool)
    (token : str) (description : option str) (st : State) (resp : Response) :
  requests_post w (api_request repo_name is_private token description) = Responded resp ->
  let result := create_github_repo w repo_name is_private token description st in
  let st1 := log (Post (api_request repo_name is_private token description)) st in
  (300 <= status_code resp ->
     result = (Raise (RuntimeError (py "GitHub API error " ++ str_of_int (status_code resp)
                                    ++ py ": " ++ rs_text resp)), st1)) /\
  (status_code resp < 300 ->
     forall fields, rs_json resp = Some (JObj fields) ->
       (fields !! py "clone_url" = None ->
          result = (Raise (RuntimeError (py "GitHub API did not return clone_url")), st1)) /\
       (forall v, fields !! py "clone_url" = Some v -> json_truthy v = false ->
          result = (Raise (RuntimeError (py "GitHub API did not return clone_url")), st1)) /\
       (forall v, fields !! py "clone_url" = Some v -> json_truthy v = true ->
          result =
            (Return (JObj fields),
             log (Print [Lit (py "[github] Created repo: "); Val (fields !! py "html_url")])
               st1))).
Proof.
  intros H result st1. subst result st1.
  rewrite (create_github_repo_responded _ _ _ _ _ _ resp H). cbv zeta.
  split.
  - intros Hst. by rewrite (proj2 (Z.leb_le _ _) Hst).
  - intros Hst fields Hjson.
    rewrite (proj2 (Z.leb_gt _ _) Hst), Hjson.
    split; [|split].
    + by intros ->.
    + intros v -> Hv. cbn [opt_truthy]. by rewrite Hv.
    + intros v -> Hv. cbn [opt_truthy]. by rewrite Hv.
Qed.

Lemma create_github_repo_outcomes_witness :
  create_github_repo (calm_world Posix) (py "demo") true (py "ghp_1") None empty_state
  = (Return (JObj sample_payload),
     log (Print [Lit (py "[github] Created repo: "); Val (sample_payload !! py "html_url")])
       (log (Post (api_request (py "demo") true (py "ghp_1") None)) empty_state)).
Proof.
  pose proof (create_github_repo_outcomes (calm_world Posix) (py "demo") true (py "ghp_1")
                None empty_state created_response eq_refl) as H.
  cbv zeta in H. destruct H as [_ H].
  destruct (H ltac:(reflexivity) sample_payload eq_refl) as (_ & _ & Hreturn).
  apply (Hreturn (JStr (py "https://github.com/dev/demo.git"))).
  - vm_compute. reflexivity.
  - reflexivity.
Defined.

(** C6, as the specification words it, fails for a response that has the
    [clone_url] field with an empty value: status 201, the field is there,
    and the call raises instead of returning the payload. *)
Lemma create_github_repo_counterexample :
  let w := world_answering empty_clone_response in
  exists fields st',
    requests_post w (api_request (py "demo") false (py "ghp_2") None)
    = Responded empty_clone_response /\
    status_code empty_clone_response = 201 /\
    rs_json empty_clone_response = Some (JObj fields) /\
    fields !! py "clone_url" = Some (JStr []) /\
    create_github_repo w (py "demo") false (py "ghp_2") None empty_state
    = (Raise (RuntimeError (py "GitHub API did not return clone_url")), st').
Proof.
  cbv zeta. eexists _, _. split; [reflexivity|]. split; [reflexivity|].
  split; [reflexivity|]. split; [vm_compute; reflexivity|].
  vm_compute. reflexivity.
Qed.

(** ** What a computation adds to the trace *)


Lemma emits_silent {A : Type} (P : event -> bool) (m : M A) :
  (forall st, trace (snd (m st)) = trace st) -> emits P m.
Proof. intros H st. exists []. by rewrite H, app_nil_r. Qed.

Lemma emits_ret {A : Type} P (a : A) : emits P (mret a).
Proof. by apply emits_silent. Qed.

Lemma emits_raise {A : Type} P e : emits P (@raise A e).
Proof. by apply emits_silent. Qed.

Lemma emits_sys_exit {A : Type} P c : emits P (@sys_exit A c).
Proof. by apply emits_silent. Qed.

Lemma emits_path_exists P p : emits P (path_exists p).
Proof. by apply emits_silent. Qed.

Lemma emits_read_text P p : emits P (read_text p).
Proof.
  apply emits_silent. intros st. unfold read_text.
  by destruct (fs st !! p) as [[]|].
Qed.

Lemma emits_write_text P w p s : emits P (write_text w p s).
Proof.
  apply emits_silent. intros st. unfold write_text.
  by destruct (fs st !! p) as [[]|].
Qed.

Lemma emits_append_text P w p s : emits P (append_text w p s).
Proof.
  apply emits_silent. intros st. unfold append_text.
  by destruct (fs st !! p) as [[]|].
Qed.

Lemma emits_one {A : Type} (P : event -> bool) (m : M A) e :
  P e = true -> (forall st, snd (m st) = log e st) -> emits P m.
Proof.
  intros HP H st. exists [e]. rewrite H. split; [done|]. by constructor.
Qed.

Lemma emits_print P msg : P (Print msg) = true -> emits P (print msg).
Proof. intros HP. by apply (emits_one P _ (Print msg)). Qed.

Lemma emits_run P w cmd dir check :
  P (Spawn dir cmd) = true -> emits P (run w cmd dir check).
Proof.
  intros HP. apply (emits_one P _ (Spawn dir cmd)); [done|].
  intros st. rewrite run_eq.
  destruct (subprocess_run w dir cmd) as [e|rc out err]; [done|].
  by destruct (check && negb (rc =? 0)).
Qed.

Lemma emits_post P w rq : P (Post rq) = true -> emits P (post w rq).
Proof.
  intros HP. apply (emits_one P _ (Post rq)); [done|].
  intros st. rewrite post_eq. by destruct (requests_post w rq).
Qed.

Lemma emits_bind {A B : Type} P (m : M A) (f : A -> M B) :
  emits P m -> (forall a, emits P (f a)) -> emits P (m ≫= f).
Proof.
  intros Hm Hf st. rewrite bind_unfold.
  destruct (Hm st) as (evs & Heq & Hall).
  destruct (m st) as [[a|e|c] st1]; cbn [snd] in *; [|by exists evs..].
  destruct (Hf a st1) as (evs' & Heq' & Hall').
  exists (evs ++ evs'). rewrite Heq', Heq, (assoc_L (++)). split; [done|].
  by apply Forall_app.
Qed.

Lemma emits_try {A : Type} P (body : M A) class handler :
  emits P body -> (forall e, emits P (handler e)) ->
  emits P (try_except body class handler).
Proof.
  intros Hm Hh st. rewrite try_except_unfold.
  destruct (Hm st) as (evs & Heq & Hall).
  destruct (body st) as [[a|e|c] st1]; cbn [snd] in *; [by exists evs| |by exists evs].
  destruct (class e); [|by exists evs].
  destruct (Hh e st1) as (evs' & Heq' & Hall').
  exists (evs ++ evs'). rewrite Heq', Heq, (assoc_L (++)). split; [done|].
  by apply Forall_app.
Qed.


(** One step of the analysis of a computation. *)
Ltac emits_step :=
  match goal with
  | |- emits _ (mbind _ _) => apply emits_bind; [|intros ?]
  | |- emits _ (try_except _ _ _) => apply emits_try; [|intros ?]
  | |- emits _ (print _) => apply emits_print; reflexivity
  | |- emits _ (run _ _ _ _) => apply emits_run; reflexivity
  | |- emits _ (post _ _) => apply emits_post; reflexivity
  | |- emits _ (mret _) => apply emits_ret
  | |- emits _ (raise _) => apply emits_raise
  | |- emits _ (sys_exit _) => apply emits_sys_exit
  | |- emits _ (path_exists _) => apply emits_path_exists
  | |- emits _ (read_text _) => apply emits_read_text
  | |- emits _ (write_text _ _ _) => apply emits_write_text
  | |- emits _ (append_text _ _ _) => apply emits_append_text
  | |- emits _ (if ?b then _ else _) => destruct b
  | |- emits _ (match ?x with _ => _ end) => destruct x
  | |- emits _ (let _ := _ in _) => cbv zeta
  end.

Lemma emits_ensure_git_installed w : emits is_local (ensure_git_installed w).
Proof. unfold ensure_git_installed. repeat emits_step. Qed.

Lemma emits_ensure_gitignore w root : emits is_local (ensure_gitignore w root).
Proof. unfold ensure_gitignore. repeat emits_step. Qed.

Lemma emits_create_license w root : emits is_local (create_license w root).
Proof. unfold create_license. repeat emits_step. Qed.

Lemma emits_init_git w root : emits is_local (init_git w root).
Proof. unfold init_git. repeat emits_step. Qed.

Lemma emits_pip_audit w root : emits is_local (pip_audit w root).
Proof. unfold pip_audit. repeat emits_step. Qed.

Lemma emits_bandit_scan w root : emits is_local (bandit_scan w root).
Proof. unfold bandit_scan. repeat emits_step. Qed.

Lemma emits_audits w args : emits is_local (audits w args).
Proof.
  unfold audits.
  repeat first [apply emits_pip_audit | apply emits_bandit_scan | emits_step].
Qed.

(** The steps before the credential lookup reach neither the API nor the
    remote. *)
Lemma emits_prelude w args : emits is_local (prelude w args).
Proof.
  unfold prelude.
  repeat first [apply emits_ensure_git_installed | apply emits_ensure_gitignore
               | apply emits_create_license | apply emits_init_git
               | apply emits_audits | emits_step].
Qed.

(** Creating the repository does not touch the remote. *)
Lemma emits_create_github_repo w repo_name is_private token description :
  emits (fun e => negb (is_push_step e))
    (create_github_repo w repo_name is_private token description).
Proof.
  unfold create_github_repo, response_json, dict_get. repeat emits_step.
Qed.

Lemma emits_connect_remote_and_push w root clone_url branch_name :
  emits (fun _ => true) (connect_remote_and_push w root clone_url branch_name).
Proof. unfold connect_remote_and_push, as_argument. repeat emits_step. Qed.

(** ** Computations that never call [sys.exit] *)


Lemma no_exit_ret {A : Type} (a : A) : no_exit (mret a).
Proof. by intros st c st'. Qed.

Lemma no_exit_raise {A : Type} e : no_exit (@raise A e).
Proof. by intros st c st'. Qed.

Lemma no_exit_print msg : no_exit (print msg).
Proof. by intros st c st'. Qed.

Lemma no_exit_path_exists p : no_exit (path_exists p).
Proof. by intros st c st'. Qed.

Lemma no_exit_read_text p : no_exit (read_text p).
Proof. intros st c st'. unfold read_text. by destruct (fs st !! p) as [[]|]. Qed.

Lemma no_exit_write_text w p s : no_exit (write_text w p s).
Proof. intros st c st'. unfold write_text. by destruct (fs st !! p) as [[]|]. Qed.

Lemma no_exit_append_text w p s : no_exit (append_text w p s).
Proof. intros st c st'. unfold append_text. by destruct (fs st !! p) as [[]|]. Qed.

Lemma no_exit_run w cmd dir check : no_exit (run w cmd dir check).
Proof.
  intros st c st'. rewrite run_eq.
  destruct (subprocess_run w dir cmd) as [e|rc out err]; [done|].
  by destruct (check && negb (rc =? 0)).
Qed.

Lemma no_exit_post w rq : no_exit (post w rq).
Proof. intros st c st'. rewrite post_eq. by destruct (requests_post w rq). Qed.

Lemma no_exit_bind {A B : Type} (m : M A) (f : A -> M B) :
  no_exit m -> (forall a, no_exit (f a)) -> no_exit (m ≫= f).
Proof.
  intros Hm Hf st c st'. rewrite bind_unfold.
  destruct (m st) as [[a|e|c'] st1] eqn:Heq; [apply Hf|done|].
  by apply Hm in Heq.
Qed.

Lemma no_exit_try {A : Type} (body : M A) class handler :
  no_exit body -> (forall e, no_exit (handler e)) ->
  no_exit (try_except body class handler).
Proof.
  intros Hm Hh st c st'. rewrite try_except_unfold.
  destruct (body st) as [[a|e|c'] st1] eqn:Heq; [done| |by apply Hm in Heq].
  destruct (class e); [apply Hh|done].
Qed.

Ltac no_exit_step :=
  match goal with
  | |- no_exit (mbind _ _) => apply no_exit_bind; [|intros ?]
  | |- no_exit (try_except _ _ _) => apply no_exit_try; [|intros ?]
  | |- no_exit (print _) => apply no_exit_print
  | |- no_exit (run _ _ _ _) => apply no_exit_run
  | |- no_exit (post _ _) => apply no_exit_post
  | |- no_exit (mret _) => apply no_exit_ret
  | |- no_exit (raise _) => apply no_exit_raise
  | |- no_exit (path_exists _) => apply no_exit_path_exists
  | |- no_exit (read_text _) => apply no_exit_read_text
  | |- no_exit (write_text _ _ _) => apply no_exit_write_text
  | |- no_exit (append_text _ _ _) => apply no_exit_append_text
  | |- no_exit (if ?b then _ else _) => destruct b
  | |- no_exit (match ?x with _ => _ end) => destruct x
  | |- no_exit (let _ := _ in _) => cbv zeta
  end.

Lemma no_exit_ensure_gitignore w root : no_exit (ensure_gitignore w root).
Proof. unfold ensure_gitignore. repeat no_exit_step. Qed.

Lemma no_exit_create_license w root : no_exit (create_license w root).
Proof. unfold create_license. repeat no_exit_step. Qed.

Lemma no_exit_audits w args : no_exit (audits w args).
Proof. unfold audits, pip_audit, bandit_scan. repeat no_exit_step. Qed.

Lemma no_exit_create_and_push w args root token :
  no_exit (create_and_push w args root token).
Proof.
  unfold create_and_push, create_github_repo, connect_remote_and_push,
    response_json, dict_get, getitem, as_argument.
  repeat no_exit_step.
Qed.

(** A sequence ends in [SystemExit] in its second part when the first
    part cannot. *)
Lemma bind_exit_inv {A B : Type} (m : M A) (f : A -> M B) st c st' :
  no_exit m -> (m ≫= f) st = (SysExit c, st') ->
  exists a st1, m st = (Return a, st1) /\ f a st1 = (SysExit c, st').
Proof.
  intros Hm. rewrite bind_unfold.
  destruct (m st) as [[a|e|c'] st1] eqn:Heq; [by eauto|done|].
  by apply Hm in Heq.
Qed.

(** ** The steps of [main] that can end the process *)

Lemma ensure_git_installed_cases w st :
  (git_check_fails w /\ exists st1, ensure_git_installed w st = (SysExit 1, st1)) \/
  (~ git_check_fails w /\ exists st1, ensure_git_installed w st = (Return tt, st1)).
Proof.
  unfold ensure_git_installed, git_check_fails. fold version_cmd.
  rewrite try_except_unfold, bind_unfold, run_eq.
  destruct (subprocess_run w None version_cmd) as [detail|rc out err].
  - left. split; [done|]. eexists. reflexivity.
  - cbn [andb]. destruct (rc =? 0) eqn:Hrc; cbn [negb].
    + right. apply Z.eqb_eq in Hrc. split; [by intros ?|]. eexists. reflexivity.
    + left. apply Z.eqb_neq in Hrc. split; [done|]. eexists. reflexivity.
Qed.

Lemma commit_step_exit w root st c st' :
  commit_step w root st = (SysExit c, st') ->
  c = 1 /\
  exists rc out err,
    subprocess_run w (Some root) commit_cmd = Exited rc out err /\
    rc <> 0 /\
    mentions_identity (failure_message (CalledProcessError rc commit_cmd out err)) = true.
Proof.
  unfold commit_step. rewrite try_except_unfold, bind_unfold, run_eq.
  destruct (subprocess_run w (Some root) commit_cmd) as [detail|rc out err] eqn:Hrun;
    [done|].
  cbn [andb]. destruct (rc =? 0) eqn:Hrc; cbn [negb]; [done|].
  apply Z.eqb_neq in Hrc. cbn [is_CalledProcessError]. cbv zeta.
  destruct (mentions_identity _) eqn:Hid; [|done].
  rewrite !bind_unfold, !print_eq. rewrite !bind_unfold, !print_eq.
  rewrite !bind_unfold, !print_eq. unfold sys_exit.
  intros [= <- _]. split; [done|]. by exists rc, out, err.
Qed.

Lemma init_git_exit w st c st' :
  init_git w (cwd w) st = (SysExit c, st') -> c = 1 /\ identity_failure w.
Proof.
  unfold init_git. fold (commit_step w (cwd w)). intros H.
  apply bind_exit_inv in H as (ex & st1 & _ & H); [|apply no_exit_path_exists].
  apply bind_exit_inv in H as ([] & st2 & _ & H); [|repeat no_exit_step].
  apply bind_exit_inv in H as (r & st3 & _ & H); [|apply no_exit_run].
  by apply commit_step_exit in H.
Qed.

(** [main] ends before the credential lookup by [sys.exit] only with
    status 1, and only for one of the two causes it tests. *)
Lemma prelude_exit w args st c st' :
  prelude w args st = (SysExit c, st') ->
  c = 1 /\ (git_check_fails w \/ identity_failure w).
Proof.
  unfold prelude. rewrite bind_unfold.
  destruct (ensure_git_installed_cases w st) as [[Hgit [st1 ->]] | [_ [st1 ->]]].
  { intros [= <- _]. by split; [|left]. }
  intros H.
  apply bind_exit_inv in H as (b & st2 & _ & H); [|apply no_exit_ensure_gitignore].
  apply bind_exit_inv in H as (b' & st3 & _ & H); [|apply no_exit_create_license].
  rewrite bind_unfold in H.
  destruct (init_git w (cwd w) st3) as [[[]|e|c'] st4] eqn:Hinit; [|done|].
  - by apply no_exit_audits in H.
  - injection H as -> ->. apply init_git_exit in Hinit as [-> Hid]. by split; [|right].
Qed.

Lemma prelude_git_check_fails w args st :
  git_check_fails w -> exists st', prelude w args st = (SysExit 1, st').
Proof.
  intros Hgit. unfold prelude. rewrite bind_unfold.
  destruct (ensure_git_installed_cases w st) as [[_ [st1 ->]] | [Hok _]]; [|done].
  by eexists.
Qed.

(** ** From the credential lookup on *)

Lemma token_cases w :
  token_missing (lookup_token w) = true \/
  exists token, lookup_token w = Some token /\ token <> [].
Proof.
  destruct (lookup_token w) as [[|c t]|]; [by left| |by left].
  right. by eexists.
Qed.

Lemma token_present w token :
  lookup_token w = Some token -> token <> [] -> token_missing (lookup_token w) = false.
Proof. intros -> H. by destruct token. Qed.

Lemma publish_without_token w args st :
  token_missing (lookup_token w) = true ->
  publish w args st = (SysExit 2, log (Print [Lit missing_token_message]) st).
Proof. intros H. unfold publish. cbv zeta. rewrite bind_unfold. by rewrite H. Qed.

Lemma create_github_repo_returns w repo_name is_private token description st data st' :
  create_github_repo w repo_name is_private token description st = (Return data, st') ->
  exists fields v,
    data = JObj fields /\ fields !! py "clone_url" = Some v /\ json_truthy v = true.
Proof.
  destruct (requests_post w (api_request repo_name is_private token description))
    as [detail|resp] eqn:Hpost.
  { unfold create_github_repo. by rewrite bind_unfold, post_eq, Hpost. }
  rewrite (create_github_repo_responded _ _ _ _ _ _ resp Hpost). cbv zeta.
  destruct (300 <=? status_code resp); [done|].
  destruct (rs_json resp) as [[| | | | | |fields]|]; try done.
  destruct (fields !! py "clone_url") as [v|] eqn:Hclone; [|done].
  cbn [opt_truthy]. destruct (json_truthy v) eqn:Hv; [|done].
  intros [= <- _]. by exists fields, v.
Qed.

(** The [try] block once the repository is created: the push is made with
    the [clone_url] of the answer. *)
Lemma create_and_push_created w args root token st fields v st1 :
  create_github_repo w (repo_name_of args root) (private args) token (desc args) st
  = (Return (JObj fields), st1) ->
  fields !! py "clone_url" = Some v ->
  create_and_push w args root token st =
    (connect_remote_and_push w root v (branch args) ≫= fun _ => mret (JObj fields)) st1.
Proof.
  intros Hcreate Hclone. unfold create_and_push.
  rewrite bind_unfold, Hcreate. rewrite bind_unfold. cbn [getitem].
  by rewrite Hclone.
Qed.


Lemma create_and_push_returns_dict w args root token st data st' :
  create_and_push w args root token st = (Return data, st') ->
  exists fields, data = JObj fields.
Proof.
  unfold create_and_push. rewrite bind_unfold.
  destruct (create_github_repo _ _ _ _ _ _) as [[d|e|c] st1] eqn:Hc; [|done..].
  apply create_github_repo_returns in Hc as (fields & v & -> & Hclone & _).
  rewrite bind_unfold. cbn [getitem]. rewrite Hclone. cbn [mret M_ret].
  rewrite bind_unfold.
  destruct (connect_remote_and_push _ _ _ _ _) as [[[]|e|c] st2]; [|done..].
  intros [= <- _]. by eexists.
Qed.

(** [publish] with a credential, by the outcome of the [try] block. *)
Lemma publish_with_token w args st token :
  lookup_token w = Some token -> token <> [] ->
  publish w args st =
    match create_and_push w args (cwd w) token st with
    | (Return data, st1) =>
        (html ← dict_get data (py "html_url");
         print [Lit ([LF] ++ py "Done.")];;
         print [Lit (py "- Repo: "); Val html];;
         print [Lit (py "- Branch: "); Lit (branch args)]) st1
    | (Raise e, st1) =>
        (SysExit 3, log (Print [Lit (py "[github] Error: "); Exc e]) st1)
    | (SysExit c, st1) => (SysExit c, st1)
    end.
Proof.
  intros Htok Hne. unfold publish. cbv zeta.
  rewrite bind_unfold, (token_present w token Htok Hne). cbn [mret M_ret].
  replace (default [] (lookup_token w)) with token by (by rewrite Htok).
  rewrite bind_unfold, try_except_unfold.
  destruct (create_and_push w args (cwd w) token st) as [[data|e|c] st1];
    reflexivity.
Qed.


Lemma no_exit_create_github_repo w repo_name is_private token description :
  no_exit (create_github_repo w repo_name is_private token description).
Proof.
  unfold create_github_repo, response_json, dict_get. repeat no_exit_step.
Qed.

Lemma no_exit_connect_remote_and_push w root clone_url branch_name :
  no_exit (connect_remote_and_push w root clone_url branch_name).
Proof. unfold connect_remote_and_push, as_argument. repeat no_exit_step. Qed.

(** Every run of [main] has one of the five shapes. *)
Lemma main_shape w args st : run_shape w args st (main w args st).
Proof.
  rewrite main_phases, bind_unfold.
  destruct (prelude w args st) as [[[]|e|c] st1] eqn:Hpre;
    [|by apply EndsEarly..].
  destruct (token_cases w) as [Hmiss | (token & Htok & Hne)].
  { rewrite publish_without_token by done. by apply NoToken. }
  rewrite (publish_with_token w args st1 token Htok Hne).
  destruct (create_github_repo w (repo_name_of args (cwd w)) (private args) token
              (desc args) st1) as [[data|e|c] st2] eqn:Hcreate.
  - destruct (create_github_repo_returns _ _ _ _ _ _ _ _ Hcreate)
      as (fields & v & -> & Hclone & Hv).
    rewrite (create_and_push_created w args (cwd w) token st1 fields v st2 Hcreate Hclone).
    rewrite bind_unfold.
    destruct (connect_remote_and_push w (cwd w) v (branch args) st2)
      as [[[]|e|c] st3] eqn:Hpush.
    + by eapply Pushed.
    + by eapply PushFailed.
    + by apply no_exit_connect_remote_and_push in Hpush.
  - unfold create_and_push. rewrite bind_unfold, Hcreate. by eapply NotCreated.
  - by apply no_exit_create_github_repo in Hcreate.
Qed.

(** ** The first event of a computation *)

Lemma emits_outcome {A : Type} P (m : M A) st r st1 :
  emits P m -> m st = (r, st1) ->
  exists evs, trace st1 = trace st ++ evs /\ Forall (fun e => P e = true) evs.
Proof. intros Hm Heq. specialize (Hm st). by rewrite Heq in Hm. Qed.

Lemma starts_with_outcome {A : Type} e (m : M A) st r st1 :
  starts_with e m -> m st = (r, st1) ->
  exists rest, trace st1 = trace st ++ e :: rest.
Proof. intros Hm Heq. specialize (Hm st). by rewrite Heq in Hm. Qed.

Lemma starts_with_post w rq : starts_with (Post rq) (post w rq).
Proof.
  intros st. exists []. rewrite post_eq. by destruct (requests_post w rq).
Qed.

Lemma starts_with_run w cmd dir check :
  starts_with (Spawn dir cmd) (run w cmd dir check).
Proof.
  intros st. exists []. rewrite run_eq.
  destruct (subprocess_run w dir cmd) as [e|rc out err]; [done|].
  by destruct (check && negb (rc =? 0)).
Qed.

Lemma starts_with_bind {A B : Type} e (m : M A) (f : A -> M B) :
  starts_with e m -> (forall a, emits (fun _ => true) (f a)) ->
  starts_with e (m ≫= f).
Proof.
  intros Hm Hf st. rewrite bind_unfold.
  destruct (Hm st) as (rest & Heq).
  destruct (m st) as [[a|x|c] st1]; cbn [snd] in *; [|by exists rest..].
  destruct (Hf a st1) as (evs & Heq' & _).
  exists (rest ++ evs). rewrite Heq', Heq. by rewrite <- (assoc_L (++)).
Qed.

Lemma starts_with_try {A : Type} e (body : M A) class handler :
  starts_with e body -> (forall x, emits (fun _ => true) (handler x)) ->
  starts_with e (try_except body class handler).
Proof.
  intros Hm Hh st. rewrite try_except_unfold.
  destruct (Hm st) as (rest & Heq).
  destruct (body st) as [[a|x|c] st1]; cbn [snd] in *; [by exists rest| |by exists rest].
  destruct (class x); [|by exists rest].
  destruct (Hh x st1) as (evs & Heq' & _).
  exists (rest ++ evs). rewrite Heq', Heq. by rewrite <- (assoc_L (++)).
Qed.

Lemma starts_with_create_github_repo w repo_name is_private token description :
  starts_with (Post (api_request repo_name is_private token description))
    (create_github_repo w repo_name is_private token description).
Proof.
  unfold create_github_repo. apply starts_with_bind; [apply starts_with_post|].
  intros resp. unfold response_json, dict_get. repeat emits_step.
Qed.

Lemma starts_with_connect_remote_and_push w root clone_url branch_name :
  starts_with (Spawn (Some root) (branch_cmd branch_name))
    (connect_remote_and_push w root clone_url branch_name).
Proof.
  unfold connect_remote_and_push, branch_cmd.
  apply starts_with_bind.
  - apply starts_with_try; [|intros; apply emits_ret].
    apply starts_with_bind; [apply starts_with_run|intros; apply emits_ret].
  - intros _. unfold as_argument. repeat emits_step.
Qed.

Lemma new_events_eq {A : Type} (m : M A) st evs :
  trace (snd (m st)) = trace st ++ evs -> new_events m st = evs.
Proof. unfold new_events. intros ->. by rewrite drop_app_length. Qed.

Lemma local_not_post e : is_local e = true -> is_post e = false.
Proof. unfold is_local. intros [H _]%andb_true_iff. by apply negb_true_iff. Qed.

Lemma local_not_push e : is_local e = true -> is_push_step e = false.
Proof. unfold is_local. intros [_ H]%andb_true_iff. by apply negb_true_iff. Qed.

Lemma summary_trace args fields st :
  trace (summary args fields st) = trace st ++ summary_events args fields.
Proof. unfold summary, summary_events. cbn [trace log]. by rewrite <- !(assoc_L (++)). Qed.

(** The events of a run, by its shape. *)
Lemma main_events w args st :
  (Forall (fun e => is_push_step e = false) (new_events (main w args) st) /\
   (Forall (fun e => is_post e = false) (new_events (main w args) st) \/
    exists st1 token e st2,
      prelude w args st = (Return tt, st1) /\
      lookup_token w = Some token /\ token <> [] /\
      create_github_repo w (repo_name_of args (cwd w)) (private args) token (desc args) st1
      = (Raise e, st2) /\
      main w args st = (SysExit 3, log (error_report e) st2)) /\
   forall st1 token data st2,
     prelude w args st = (Return tt, st1) -> lookup_token w = Some token -> token <> [] ->
     create_github_repo w (repo_name_of args (cwd w)) (private args) token (desc args) st1
     <> (Return data, st2)) \/
  (exists st1 token fields v st2,
     prelude w args st = (Return tt, st1) /\
     lookup_token w = Some token /\ token <> [] /\
     create_github_repo w (repo_name_of args (cwd w)) (private args) token (desc args) st1
     = (Return (JObj fields), st2) /\
     fields !! py "clone_url" = Some v /\ json_truthy v = true /\
     create_and_push w args (cwd w) token st1 =
       (connect_remote_and_push w (cwd w) v (branch args) ≫= fun _ => mret (JObj fields)) st2 /\
     Spawn (Some (cwd w)) (branch_cmd (branch args)) ∈ new_events (main w args) st).
Proof.
  pose proof (main_shape w args st) as Hshape.
  inversion Hshape as
    [r st1 Hpre Hr Hmain
    |st1 Hpre Hmiss Hmain
    |st1 token e st2 Hpre Htok Hne Hcreate Hmain
    |st1 token fields v st2 e st3 Hpre Htok Hne Hcreate Hclone Hv Hpush Hmain
    |st1 token fields v st2 st3 Hpre Htok Hne Hcreate Hclone Hv Hpush Hmain].
  - left.
    destruct (emits_outcome _ _ _ _ _ (emits_prelude w args) Hpre) as (evs & Heq & Hall).
    rewrite (new_events_eq (main w args) st evs) by (by rewrite <- Hmain).
    split; [|split].
    + eapply Forall_impl; [done|]. apply local_not_push.
    + left. eapply Forall_impl; [done|]. apply local_not_post.
    + intros st1' token data st2 Hpre'. rewrite Hpre in Hpre'.
      injection Hpre' as -> _. done.
  - left.
    destruct (emits_outcome _ _ _ _ _ (emits_prelude w args) Hpre) as (evs & Heq & Hall).
    rewrite (new_events_eq (main w args) st (evs ++ [Print [Lit missing_token_message]]))
      by (rewrite <- Hmain; cbn [snd trace log]; by rewrite Heq, (assoc_L (++))).
    split; [|split].
    + apply Forall_app. split; [|by repeat constructor].
      eapply Forall_impl; [done|]. apply local_not_push.
    + left. apply Forall_app. split; [|by repeat constructor].
      eapply Forall_impl; [done|]. apply local_not_post.
    + intros st1' token data st2 _ Htok Hne. rewrite Htok in Hmiss.
      by destruct token.
  - left.
    destruct (emits_outcome _ _ _ _ _ (emits_prelude w args) Hpre) as (evs & Heq & Hall).
    destruct (emits_outcome _ _ _ _ _ (emits_create_github_repo w _ _ _ _) Hcreate)
      as (evs' & Heq' & Hall').
    rewrite (new_events_eq (main w args) st (evs ++ evs' ++ [error_report e]))
      by (rewrite <- Hmain; cbn [snd trace log]; by rewrite Heq', Heq, <- !(assoc_L (++))).
    split; [|split].
    + rewrite !Forall_app. split; [|split; [|by repeat constructor]].
      * eapply Forall_impl; [done|]. apply local_not_push.
      * eapply Forall_impl; [done|]. intros x Hx. by apply negb_true_iff.
    + right. by exists st1, token, e, st2.
    + intros st1' token' data st2' Hpre' Htok' _. rewrite Hpre in Hpre'.
      injection Hpre' as ->. rewrite Htok in Htok'. injection Htok' as ->.
      by rewrite Hcreate.
  - right. exists st1, token, fields, v, st2. repeat (split; [done|]).
    split; [by apply create_and_push_created|].
    destruct (emits_outcome _ _ _ _ _ (emits_prelude w args) Hpre) as (evs & Heq & _).
    destruct (emits_outcome _ _ _ _ _
                (emits_create_github_repo w _ _ _ _) Hcreate) as (evs' & Heq' & _).
    destruct (starts_with_outcome _ _ _ _ _
                (starts_with_connect_remote_and_push w _ _ _) Hpush) as (rest & Heq'').
    rewrite (new_events_eq (main w args) st
               (evs ++ evs' ++ Spawn (Some (cwd w)) (branch_cmd (branch args))
                    :: rest ++ [error_report e])).
    + rewrite !elem_of_app, elem_of_cons. by right; right; left.
    + rewrite <- Hmain. cbn [snd trace log]. rewrite Heq'', Heq', Heq.
      by rewrite <- !(assoc_L (++)).
  - right. exists st1, token, fields, v, st2. repeat (split; [done|]).
    split; [by apply create_and_push_created|].
    destruct (emits_outcome _ _ _ _ _ (emits_prelude w args) Hpre) as (evs & Heq & _).
    destruct (emits_outcome _ _ _ _ _
                (emits_create_github_repo w _ _ _ _) Hcreate) as (evs' & Heq' & _).
    destruct (starts_with_outcome _ _ _ _ _
                (starts_with_connect_remote_and_push w _ _ _) Hpush) as (rest & Heq'').
    rewrite (new_events_eq (main w args) st
               (evs ++ evs' ++ Spawn (Some (cwd w)) (branch_cmd (branch args))
                    :: rest ++ summary_events args fields)).
    + rewrite !elem_of_app, elem_of_cons. by right; right; left.
    + rewrite <- Hmain. cbn [snd]. rewrite summary_trace, Heq'', Heq', Heq.
      by rewrite <- !(assoc_L (++)).
Qed.

Lemma main_after_prelude w args st st1 :
  prelude w args st = (Return tt, st1) -> main w args st = publish w args st1.
Proof. intros H. by rewrite main_phases, bind_unfold, H. Qed.

Lemma starts_with_publish w args token :
  lookup_token w = Some token -> token <> [] ->
  starts_with (Post (main_request w args token)) (publish w args).
Proof.
  intros Htok Hne st. rewrite (publish_with_token w args st token Htok Hne).
  assert (Hcp : starts_with (Post (main_request w args token))
                  (create_and_push w args (cwd w) token)).
  { unfold create_and_push. apply starts_with_bind.
    - apply starts_with_create_github_repo.
    - intros data. unfold getitem. repeat emits_step.
      all: apply emits_connect_remote_and_push. }
  destruct (Hcp st) as (rest & Heq).
  destruct (create_and_push w args (cwd w) token st) as [[data|e|c] st1] eqn:Hrun;
    cbn [snd] in Heq.
  - apply create_and_push_returns_dict in Hrun as [fields ->].
    exists (rest ++ summary_events args fields).
    change (trace (summary args fields st1)
            = trace st ++ Post (main_request w args token) :: rest ++ summary_events args fields).
    rewrite summary_trace, Heq. by rewrite <- (assoc_L (++)).
  - exists (rest ++ [error_report e]). cbn [snd trace log]. rewrite Heq.
    by rewrite <- (assoc_L (++)).
  - by exists rest.
Qed.

(** ** Properties of [main] *)

(** C7, as amended.  When neither [GITHUB_TOKEN] nor [GH_TOKEN] is set,
    no run calls the HTTP endpoint; and every run whose steps before the
    credential lookup return ends with status 2 right after printing the
    remediation text. *)
Theorem missing_credential_exit (w : World) (args : Namespace) (st : State) :
  environ w !! py "GITHUB_TOKEN" = None ->
  environ w !! py "GH_TOKEN" = None ->
  Forall (fun e => is_post e = false) (new_events (main w args) st) /\
  (forall st1,
      prelude w args st = (Return tt, st1) ->
      main w args st = (SysExit 2, log (Print [Lit missing_token_message]) st1)).
Proof.
  intros H1 H2.
  assert (Hmiss : token_missing (lookup_token w) = true).
  { unfold lookup_token. by rewrite H1, H2. }
  split.
  - destruct (main_events w args st)
      as [(_ & [Hpost | (st1 & token & e & st2 & _ & Htok & Hne & _)] & _)
         |(st1 & token & fields & v & st2 & _ & Htok & Hne & _)];
      [done|..]; by rewrite (token_present w token Htok Hne) in Hmiss.
  - intros st1 Hpre. rewrite (main_after_prelude w args st st1 Hpre).
    by apply publish_without_token.
Qed.

Lemma missing_credential_exit_witness :
  Forall (fun e => is_post e = false)
    (new_events (main world_without_token sample_args) empty_state) /\
  main world_without_token sample_args empty_state
  = (SysExit 2,
     log (Print [Lit missing_token_message])
       (snd (prelude world_without_token sample_args empty_state))).
Proof.
  destruct (missing_credential_exit world_without_token sample_args empty_state)
    as [Hquiet Hexit]; [vm_compute; reflexivity..|].
  split; [exact Hquiet|]. apply Hexit. vm_compute. reflexivity.
Defined.

(** C7, as the specification words it, fails when an earlier step ends
    the run: without git and without credentials the status is 1. *)
Lemma missing_credential_exit_counterexample :
  environ world_without_git !! py "GITHUB_TOKEN" = None /\
  environ world_without_git !! py "GH_TOKEN" = None /\
  fst (main world_without_git sample_args empty_state) = SysExit 1 /\
  exit_code (fst (main world_without_git sample_args empty_state)) <> 2.
Proof. repeat split; vm_compute; congruence. Qed.

(** C9, as amended.  A first variable [GITHUB_TOKEN] that is set to a
    non-empty value is the credential: the request carries it as bearer
    token.  The second variable [GH_TOKEN] is consulted exactly when the
    first is unset or empty. *)
Theorem token_precedence (w : World) :
  (forall v : str,
      environ w !! py "GITHUB_TOKEN" = Some v -> v <> [] ->
      lookup_token w = Some v /\
      forall args,
        rq_headers (main_request w args v) !! py "Authorization"
        = Some (py "Bearer " ++ v) /\
        forall st st1,
          prelude w args st = (Return tt, st1) ->
          exists rest,
            trace (snd (main w args st))
            = trace st1 ++ Post (main_request w args v) :: rest) /\
  (environ w !! py "GITHUB_TOKEN" = None \/
   environ w !! py "GITHUB_TOKEN" = Some (py "") ->
   lookup_token w = environ w !! py "GH_TOKEN").
Proof.
  split.
  - intros v Hv Hne.
    assert (Htok : lookup_token w = Some v).
    { unfold lookup_token. rewrite Hv. by destruct v. }
    split; [done|]. intros args. split; [apply lookup_insert_eq|].
    intros st st1 Hpre. rewrite (main_after_prelude w args st st1 Hpre).
    apply (starts_with_publish w args v Htok Hne).
  - unfold lookup_token. intros [H | H]; by rewrite H.
Qed.

Lemma token_precedence_witness :
  lookup_token (calm_world Posix) = Some (py "ghp_1") /\
  rq_headers (main_request (calm_world Posix) sample_args (py "ghp_1")) !! py "Authorization"
  = Some (py "Bearer " ++ py "ghp_1") /\
  exists rest,
    trace (snd (main (calm_world Posix) sample_args empty_state))
    = trace (snd (prelude (calm_world Posix) sample_args empty_state))
      ++ Post (main_request (calm_world Posix) sample_args (py "ghp_1")) :: rest.
Proof.
  destruct (token_precedence (calm_world Posix)) as [Hfirst _].
  destruct (Hfirst (py "ghp_1")) as (Htok & Hused);
    [vm_compute; reflexivity|discriminate|].
  destruct (Hused sample_args) as (Hheader & Hsent).
  split; [exact Htok|]. split; [exact Hheader|].
  apply Hsent. vm_compute. reflexivity.
Defined.

(** C9, as the specification words it, fails for a first variable that is
    set to the empty string: the second variable is the credential. *)
Lemma first_variable_wins_counterexample :
  environ world_empty_token !! py "GITHUB_TOKEN" = Some (py "") /\
  lookup_token world_empty_token = Some (py "ghp_2") /\
  ~ first_variable_wins world_empty_token.
Proof.
  split; [vm_compute; reflexivity|]. split; [vm_compute; reflexivity|].
  intros H. specialize (H (py "") ltac:(vm_compute; reflexivity)).
  vm_compute in H. discriminate.
Qed.

Lemma is_push_step_branch_cmd dir branch_name :
  is_push_step (Spawn dir (branch_cmd branch_name)) = true.
Proof. unfold is_push_step, branch_cmd. by rewrite bool_decide_true. Qed.

(** C1, as amended.  A run takes a step of the push (a [git branch],
    [git remote] or [git push] command) if and only if the creation of the
    repository returns.  When the endpoint answers 201 with a JSON object
    whose [clone_url] is non-empty (truthy), [connect_remote_and_push] is
    called with exactly that value and its first command is run.  When the
    endpoint answers 422, the run reports the error, ends with status 3 and
    takes no step of the push. *)
Theorem push_follows_creation (w : World) (args : Namespace) (st : State) :
  ((exists e, e ∈ new_events (main w args) st /\ is_push_step e = true) <->
   (exists st1 token data st2,
      prelude w args st = (Return tt, st1) /\
      lookup_token w = Some token /\ token <> [] /\
      create_github_repo w (repo_name_of args (cwd w)) (private args) token (desc args) st1
      = (Return data, st2))) /\
  (forall st1 token resp,
      prelude w args st = (Return tt, st1) ->
      lookup_token w = Some token -> token <> [] ->
      requests_post w (main_request w args token) = Responded resp ->
      (status_code resp = 201 ->
       forall fields v,
         rs_json resp = Some (JObj fields) ->
         fields !! py "clone_url" = Some v -> json_truthy v = true ->
         exists st2,
           create_and_push w args (cwd w) token st1
           = (connect_remote_and_push w (cwd w) v (branch args)
                ≫= fun _ => mret (JObj fields)) st2 /\
           Spawn (Some (cwd w)) (branch_cmd (branch args)) ∈ new_events (main w args) st) /\
      (status_code resp = 422 ->
       main w args st
       = (SysExit 3,
          log (error_report (RuntimeError (py "GitHub API error 422: " ++ rs_text resp)))
            (log (Post (main_request w args token)) st1)) /\
       Forall (fun e => is_push_step e = false) (new_events (main w args) st))).
Proof.
  pose proof (main_events w args st) as Hev. split; [split|].
  - intros (e & Hin & Hpush).
    destruct Hev as [(Hnone & _) | (st1 & token & fields & v & st2 & Hrest)].
    + rewrite Forall_forall in Hnone. by rewrite (Hnone e Hin) in Hpush.
    + destruct Hrest as (Hpre & Htok & Hne & Hcreate & _).
      by exists st1, token, (JObj fields), st2.
  - intros (st1 & token & data & st2 & Hpre & Htok & Hne & Hcreate).
    destruct Hev as [(_ & _ & Hnot) | (? & ? & ? & ? & ? & Hrest)].
    + by destruct (Hnot st1 token data st2).
    + destruct Hrest as (_ & _ & _ & _ & _ & _ & _ & Hin).
      eexists. split; [done|]. apply is_push_step_branch_cmd.
  - intros st1 token resp Hpre Htok Hne Hpost.
    pose proof (create_github_repo_responded w _ _ _ _ st1 resp Hpost) as Hcreate.
    cbv zeta in Hcreate. fold (main_request w args token) in Hcreate. split.
    + intros Hst fields v Hjson Hclone Hv.
      rewrite Hst, Hjson, Hclone in Hcreate. cbn [opt_truthy] in Hcreate.
      rewrite Hv in Hcreate. change (300 <=? 201) with false in Hcreate.
      cbv iota in Hcreate.
      eexists. split; [by apply (create_and_push_created _ _ _ _ _ _ _ _ Hcreate)|].
      destruct Hev as [(_ & _ & Hnot) | (? & ? & ? & ? & ? & Hrest)].
      * by destruct (Hnot st1 token _ _ Hpre Htok Hne Hcreate).
      * by destruct Hrest as (_ & _ & _ & _ & _ & _ & _ & Hin).
    + intros Hst. rewrite Hst in Hcreate. change (300 <=? 422) with true in Hcreate.
      cbv iota in Hcreate.
      split.
      * rewrite (main_after_prelude w args st st1 Hpre).
        rewrite (publish_with_token w args st1 token Htok Hne).
        unfold create_and_push. by rewrite bind_unfold, Hcreate.
      * destruct Hev as [(Hnone & _) | (st1' & token' & fields & v & st2 & Hrest)];
          [done|].
        destruct Hrest as (Hpre' & Htok' & _ & Hcreate' & _).
        rewrite Hpre in Hpre'. injection Hpre' as <-.
        rewrite Htok in Htok'. injection Htok' as <-.
        by rewrite Hcreate in Hcreate'.
Qed.

Lemma push_follows_creation_witness :
  (exists st2,
      create_and_push (calm_world Posix) sample_args sample_root (py "ghp_1")
        (snd (prelude (calm_world Posix) sample_args empty_state))
      = (connect_remote_and_push (calm_world Posix) sample_root
           (JStr (py "https://github.com/dev/demo.git")) (py "main")
           ≫= fun _ => mret (JObj sample_payload)) st2 /\
      Spawn (Some sample_root) (branch_cmd (py "main"))
        ∈ new_events (main (calm_world Posix) sample_args) empty_state) /\
  (main (world_answering rejected_response) sample_args empty_state
   = (SysExit 3,
      log (error_report
             (RuntimeError (py "GitHub API error 422: name already exists on this account")))
        (log (Post (main_request (world_answering rejected_response) sample_args (py "ghp_2")))
           (snd (prelude (world_answering rejected_response) sample_args empty_state)))) /\
   Forall (fun e => is_push_step e = false)
     (new_events (main (world_answering rejected_response) sample_args) empty_state)).
Proof.
  split.
  - destruct (push_follows_creation (calm_world Posix) sample_args empty_state)
      as [_ Hcases].
    destruct (Hcases (snd (prelude (calm_world Posix) sample_args empty_state))
                (py "ghp_1") created_response) as [Hcreated _];
      [vm_compute; reflexivity|vm_compute; reflexivity|discriminate|reflexivity|].
    apply (Hcreated eq_refl sample_payload); [reflexivity|vm_compute; reflexivity|reflexivity].
  - destruct (push_follows_creation (world_answering rejected_response) sample_args
                empty_state) as [_ Hcases].
    destruct (Hcases (snd (prelude (world_answering rejected_response) sample_args
                             empty_state))
                (py "ghp_2") rejected_response) as [_ Hrejected];
      [vm_compute; reflexivity|vm_compute; reflexivity|discriminate|reflexivity|].
    apply (Hrejected eq_refl).
Defined.

(** C1, as the specification words it, fails for an answer that has the
    [clone_url] field with an empty value: the endpoint is called and
    answers 201 with both fields, yet the run ends with status 3 and takes
    no step of the push. *)
Lemma push_follows_creation_counterexample :
  let w := world_answering empty_clone_response in
  exists fields u h,
    existsb is_post (new_events (main w sample_args) empty_state) = true /\
    requests_post w (main_request w sample_args (py "ghp_2")) = Responded empty_clone_response /\
    status_code empty_clone_response = 201 /\
    rs_json empty_clone_response = Some (JObj fields) /\
    fields !! py "clone_url" = Some u /\
    fields !! py "html_url" = Some h /\
    fst (main w sample_args empty_state) = SysExit 3 /\
    Forall (fun e => is_push_step e = false) (new_events (main w sample_args) empty_state).
Proof.
  cbv zeta. eexists _, _, _.
  split; [vm_compute; reflexivity|]. split; [reflexivity|]. split; [reflexivity|].
  split; [reflexivity|]. split; [vm_compute; reflexivity|].
  split; [vm_compute; reflexivity|]. split; [vm_compute; reflexivity|].
  by_computation.
Qed.

(** Every run falls in one of four classes, each with its exit status. *)
Lemma main_classified w args st :
  (exists r st1,
      prelude w args st = (r, st1) /\ r <> Return tt /\
      main w args st = (r, st1) /\ exit_code r = 1) \/
  (exists st1,
      prelude w args st = (Return tt, st1) /\
      token_missing (lookup_token w) = true /\
      fst (main w args st) = SysExit 2) \/
  (exists st1 token e st2,
      prelude w args st = (Return tt, st1) /\
      lookup_token w = Some token /\ token <> [] /\
      create_and_push w args (cwd w) token st1 = (Raise e, st2) /\
      fst (main w args st) = SysExit 3) \/
  (exists st1 token data st2,
      prelude w args st = (Return tt, st1) /\
      lookup_token w = Some token /\ token <> [] /\
      create_and_push w args (cwd w) token st1 = (Return data, st2) /\
      fst (main w args st) = Return tt).
Proof.
  destruct (prelude w args st) as [[[]|e|c] st1] eqn:Hpre.
  - rewrite (main_after_prelude w args st st1 Hpre).
    destruct (token_cases w) as [Hmiss | (token & Htok & Hne)].
    { right; left. exists st1. by rewrite publish_without_token. }
    rewrite (publish_with_token w args st1 token Htok Hne).
    destruct (create_and_push w args (cwd w) token st1) as [[data|e|c] st2] eqn:Hrun.
    + right; right; right. exists st1, token, data, st2.
      repeat (split; [done|]).
      by apply create_and_push_returns_dict in Hrun as [fields ->].
    + right; right; left. by exists st1, token, e, st2.
    + by apply no_exit_create_and_push in Hrun.
  - left. exists (Raise e), st1. repeat (split; [done|]).
    split; [|done]. by rewrite main_phases, bind_unfold, Hpre.
  - left. exists (SysExit c), st1. repeat (split; [done|]).
    split; [by rewrite main_phases, bind_unfold, Hpre|].
    by apply prelude_exit in Hpre as [-> _].
Qed.

(** Two descriptions of the same run agree. *)
Ltac same_run :=
  repeat match goal with
    | H1 : prelude ?w ?a ?s = _, H2 : prelude ?w ?a ?s = _ |- _ =>
        rewrite H1 in H2; simplify_eq
    | H1 : lookup_token ?w = Some ?t, H2 : token_missing (lookup_token ?w) = true,
      H3 : ?t <> [] |- _ =>
        rewrite (token_present _ _ H1 H3) in H2; discriminate
    | H1 : lookup_token ?w = Some _, H2 : lookup_token ?w = Some _ |- _ =>
        rewrite H1 in H2; simplify_eq
    | H1 : create_and_push ?w ?a ?r ?t ?s = _, H2 : create_and_push ?w ?a ?r ?t ?s = _ |- _ =>
        rewrite H1 in H2; simplify_eq
    end.

(** The exit status of a run once the command line is parsed: it is 0,
    1, 2 or 3, each in exactly one class of runs. *)
Lemma main_exit_codes (w : World) (args : Namespace) (st : State) :
  let o := fst (main w args st) in
  (exit_code o = 0 \/ exit_code o = 1 \/ exit_code o = 2 \/ exit_code o = 3) /\
  (exit_code o = 0 <->
   exists st1 token data st2,
     prelude w args st = (Return tt, st1) /\
     lookup_token w = Some token /\ token <> [] /\
     create_and_push w args (cwd w) token st1 = (Return data, st2)) /\
  (exit_code o = 2 <->
   exists st1,
     prelude w args st = (Return tt, st1) /\ token_missing (lookup_token w) = true) /\
  (exit_code o = 3 <->
   exists st1 token e st2,
     prelude w args st = (Return tt, st1) /\
     lookup_token w = Some token /\ token <> [] /\
     create_and_push w args (cwd w) token st1 = (Raise e, st2)) /\
  (exit_code o = 1 <->
   exists r st1, prelude w args st = (r, st1) /\ r <> Return tt) /\
  (forall c st1,
      prelude w args st = (SysExit c, st1) ->
      c = 1 /\ (git_check_fails w \/ identity_failure w)) /\
  (git_check_fails w -> o = SysExit 1).
Proof.
  cbv zeta.
  pose proof (main_classified w args st) as Hclass.
  split; [|split; [|split; [|split; [|split; [|split]]]]].
  - destruct Hclass as
      [(r & st1 & _ & _ & Hmain & Hcode)
      |[(st1 & _ & _ & Hmain)
       |[(st1 & token & e & st2 & _ & _ & _ & _ & Hmain)
        |(st1 & token & data & st2 & _ & _ & _ & _ & Hmain)]]];
      rewrite ?Hmain; cbn [fst exit_code]; auto.
  - split.
    + intros Hcode.
      destruct Hclass as
        [(r & st1 & _ & _ & Hmain & Hr)
        |[(st1 & _ & _ & Hmain)
         |[(st1 & token & e & st2 & _ & _ & _ & _ & Hmain)
          |(st1 & token & data & st2 & Hpre & Htok & Hne & Hrun & Hmain)]]];
        rewrite ?Hmain in Hcode; cbn [fst exit_code] in Hcode; try lia.
      by exists st1, token, data, st2.
    + intros (st1' & token' & data' & st2' & Hpre' & Htok' & Hne' & Hrun').
      destruct Hclass as
        [(r & st1 & Hpre & Hr & _)
        |[(st1 & Hpre & Hmiss & _)
         |[(st1 & token & e & st2 & Hpre & Htok & Hne & Hrun & _)
          |(st1 & token & data & st2 & _ & _ & _ & _ & Hmain)]]];
        [same_run; done|same_run|same_run|by rewrite Hmain].
  - split.
    + intros Hcode.
      destruct Hclass as
        [(r & st1 & _ & _ & Hmain & Hr)
        |[(st1 & Hpre & Hmiss & Hmain)
         |[(st1 & token & e & st2 & _ & _ & _ & _ & Hmain)
          |(st1 & token & data & st2 & _ & _ & _ & _ & Hmain)]]];
        rewrite ?Hmain in Hcode; cbn [fst exit_code] in Hcode; try lia.
      by exists st1.
    + intros (st1' & Hpre' & Hmiss').
      destruct Hclass as
        [(r & st1 & Hpre & Hr & _)
        |[(st1 & _ & _ & Hmain)
         |[(st1 & token & e & st2 & Hpre & Htok & Hne & Hrun & _)
          |(st1 & token & data & st2 & Hpre & Htok & Hne & Hrun & _)]]];
        [same_run; done|by rewrite Hmain|same_run|same_run].
  - split.
    + intros Hcode.
      destruct Hclass as
        [(r & st1 & _ & _ & Hmain & Hr)
        |[(st1 & _ & _ & Hmain)
         |[(st1 & token & e & st2 & Hpre & Htok & Hne & Hrun & Hmain)
          |(st1 & token & data & st2 & _ & _ & _ & _ & Hmain)]]];
        rewrite ?Hmain in Hcode; cbn [fst exit_code] in Hcode; try lia.
      by exists st1, token, e, st2.
    + intros (st1' & token' & e' & st2' & Hpre' & Htok' & Hne' & Hrun').
      destruct Hclass as
        [(r & st1 & Hpre & Hr & _)
        |[(st1 & Hpre & Hmiss & _)
         |[(st1 & token & e & st2 & _ & _ & _ & _ & Hmain)
          |(st1 & token & data & st2 & Hpre & Htok & Hne & Hrun & _)]]];
        [same_run; done|same_run|by rewrite Hmain|same_run].
  - split.
    + intros Hcode.
      destruct Hclass as
        [(r & st1 & Hpre & Hr & _)
        |[(st1 & _ & _ & Hmain)
         |[(st1 & token & e & st2 & _ & _ & _ & _ & Hmain)
          |(st1 & token & data & st2 & _ & _ & _ & _ & Hmain)]]];
        rewrite ?Hmain in Hcode; cbn [fst exit_code] in Hcode; try lia.
      by exists r, st1.
    + intros (r' & st1' & Hpre' & Hr').
      destruct Hclass as
        [(r & st1 & _ & _ & Hmain & Hcode)
        |[(st1 & Hpre & _)
         |[(st1 & token & e & st2 & Hpre & _)
          |(st1 & token & data & st2 & Hpre & _)]]];
        [by rewrite Hmain|same_run; done..].
  - intros c st1 Hpre. by apply prelude_exit in Hpre.
  - intros Hgit. destruct (prelude_git_check_fails w args st Hgit) as (st1 & Hpre).
    by rewrite main_phases, bind_unfold, Hpre.
Qed.

(** ** Further properties of the scaffolding *)

Lemma fs_lookup_insert (f : gmap path node) (p : path) (n : node) :
  <[p := n]> f !! p = Some n.
Proof. apply lookup_insert_eq. Qed.

Lemma fs_lookup_insert_ne (f : gmap path node) (p q : path) (n : node) :
  p <> q -> <[p := n]> f !! q = f !! q.
Proof. apply lookup_insert_ne. Qed.

Lemma translate_out_cons p c s :
  translate_out p (c :: s) = (if is_lf c then linesep p else [c]) ++ translate_out p s.
Proof. reflexivity. Qed.

Lemma universal_newlines_translate_out p s :
  no_cr s = true -> universal_newlines (translate_out p s) = s.
Proof.
  induction s as [|c s IH]; [done|]. simpl. intros [Hc Hs]%andb_true_iff.
  apply negb_true_iff in Hc. rewrite translate_out_cons.
  destruct (is_lf c) eqn:Hlf.
  - apply N.eqb_eq in Hlf as ->. destruct p; simpl linesep.
    + change ([LF] ++ translate_out Posix s) with (LF :: translate_out Posix s).
      rewrite universal_newlines_other by done. by rewrite IH.
    + change ([CR; LF] ++ translate_out Windows s)
        with (CR :: LF :: translate_out Windows s).
      rewrite universal_newlines_cr_lf by done. by rewrite IH.
  - change ([c] ++ translate_out p s) with (c :: translate_out p s).
    rewrite universal_newlines_other by done. by rewrite IH.
Qed.

(** A text without carriage return that [write_text] stores is the text
    [read_text] gives back, on both platforms, whatever file was there
    before. *)
Lemma write_text_read_text (w : World) (p : path) (s : str) (st : State) :
  fs st !! p <> Some Dir ->
  no_cr s = true ->
  exists st',
    write_text w p s st = (Return tt, st') /\
    read_text p st' = (Return s, st').
Proof.
  intros Hdir Hs. unfold write_text.
  destruct (fs st !! p) as [[old|]|] eqn:Hp; [|done|].
  - eexists. split; [reflexivity|].
    unfold read_text. cbn [fs set_fs]. rewrite fs_lookup_insert.
    by rewrite universal_newlines_translate_out.
  - eexists. split; [reflexivity|].
    unfold read_text. cbn [fs set_fs]. rewrite fs_lookup_insert.
    by rewrite universal_newlines_translate_out.
Qed.

(** X1. In a directory without ignore file, [ensure_gitignore] returns
    [True] and creates the file; reading it back gives the template, line
    by line, on both platforms; no other path changes. *)
Theorem ensure_gitignore_creates (w : World) (root : path) (st : State) :
  fs st !! gitignore_path root = None ->
  exists st',
    ensure_gitignore w root st = (Return true, st') /\
    read_text (gitignore_path root) st' = (Return GITIGNORE_TEMPLATE, st') /\
    (forall p, p <> gitignore_path root -> fs st' !! p = fs st !! p).
Proof.
  intros H. rewrite (ensure_gitignore_absent w root st H). eexists.
  split; [reflexivity|]. split.
  - unfold read_text. cbn [fs set_fs log]. rewrite fs_lookup_insert.
    rewrite universal_newlines_translate_out; [done|]. vm_compute. reflexivity.
  - intros p Hp. cbn [fs set_fs log]. by apply lookup_insert_ne.
Qed.

Lemma ensure_gitignore_creates_witness :
  exists st',
    ensure_gitignore (calm_world Windows) sample_root empty_state = (Return true, st') /\
    read_text (gitignore_path sample_root) st' = (Return GITIGNORE_TEMPLATE, st') /\
    (forall p, p <> gitignore_path sample_root -> fs st' !! p = fs empty_state !! p).
Proof.
  apply (ensure_gitignore_creates (calm_world Windows) sample_root empty_state).
  vm_compute. reflexivity.
Defined.

Lemma linesep_nonempty p : linesep p <> [].
Proof. by destruct p. Qed.

(** X2. The value [ensure_gitignore] returns tells whether it changed
    anything: it is [False] exactly when the file system is left as it
    was. *)
Theorem ensure_gitignore_flag (w : World) (root : path) (st : State)
    (changed : bool) (st' : State) :
  ensure_gitignore w root st = (Return changed, st') ->
  (changed = false <-> fs st' = fs st).
Proof.
  destruct (fs st !! gitignore_path root) as [[old|]|] eqn:H.
  - rewrite (ensure_gitignore_file w root st old H).
    destruct (to_add (file_lines old)) as [|l ls].
    + intros [= <- <-]. by cbn [fs log].
    + intros [= <- <-]. cbn [fs set_fs log]. split; [done|]. intros Heq.
      assert (Hlook : fs st !! gitignore_path root
                      = Some (File (old ++ linesep (platform w)
                                        ++ block (linesep (platform w)) (l :: ls)))).
      { by rewrite <- Heq, fs_lookup_insert. }
      rewrite H in Hlook. injection Hlook as Hlook.
      rewrite <- (app_nil_r old) in Hlook at 1. apply (inj (app old)) in Hlook.
      symmetry in Hlook. apply app_eq_nil in Hlook as [Hsep _].
      by apply linesep_nonempty in Hsep.
  - by rewrite (ensure_gitignore_dir w root st H).
  - rewrite (ensure_gitignore_absent w root st H).
    intros [= <- <-]. cbn [fs set_fs log]. split; [done|]. intros Heq.
    by rewrite <- Heq, fs_lookup_insert in H.
Qed.

Lemma ensure_gitignore_flag_witness :
  false = false <->
  fs (snd (ensure_gitignore (calm_world Posix) sample_root
             (state_with_gitignore GITIGNORE_TEMPLATE)))
  = fs (state_with_gitignore GITIGNORE_TEMPLATE).
Proof.
  apply (ensure_gitignore_flag (calm_world Posix) sample_root
           (state_with_gitignore GITIGNORE_TEMPLATE)).
  vm_compute. reflexivity.
Defined.

(** X3. In a directory without license, [create_license] returns [True]
    and creates the file; reading it back gives the license text; no other
    path changes. *)
Theorem create_license_creates (w : World) (root : path) (st : State) :
  fs st !! license_path root = None ->
  exists st',
    create_license w root st = (Return true, st') /\
    read_text (license_path root) st' = (Return MIT_LICENSE, st') /\
    (forall p, p <> license_path root -> fs st' !! p = fs st !! p).
Proof.
  intros H. rewrite (create_license_absent w root st H). eexists.
  split; [reflexivity|]. split.
  - unfold read_text. cbn [fs set_fs log]. rewrite fs_lookup_insert.
    rewrite universal_newlines_translate_out; [done|]. vm_compute. reflexivity.
  - intros p Hp. cbn [fs set_fs log]. by apply lookup_insert_ne.
Qed.

Lemma create_license_creates_witness :
  exists st',
    create_license (calm_world Posix) sample_root empty_state = (Return true, st') /\
    read_text (license_path sample_root) st' = (Return MIT_LICENSE, st') /\
    (forall p, p <> license_path sample_root -> fs st' !! p = fs empty_state !! p).
Proof.
  apply (create_license_creates (calm_world Posix) sample_root empty_state).
  vm_compute. reflexivity.
Defined.

(** X4. [create_license] never raises, not even when something other than
    a file stands at the path; it returns [True] exactly when nothing
    stood there, and [False] exactly when it leaves the file system as it
    was. *)
Theorem create_license_flag (w : World) (root : path) (st : State) :
  exists created st',
    create_license w root st = (Return created, st') /\
    (created = true <-> fs st !! license_path root = None) /\
    (created = false <-> fs st' = fs st).
Proof.
  destruct (fs st !! license_path root) as [n|] eqn:H.
  - rewrite create_license_exists by (by rewrite H).
    eexists false, _. split; [reflexivity|]. cbn [fs log]. by split; split.
  - rewrite create_license_absent by done.
    eexists true, _. split; [reflexivity|]. cbn [fs set_fs log]. split; [done|].
    split; [done|]. intros Heq. by rewrite <- Heq, fs_lookup_insert in H.
Qed.

(** X5. An ignore file with Windows line endings gets the same additions
    as the same file with plain line feeds: [ensure_gitignore] returns the
    same value for both and appends the same text. *)
Theorem ensure_gitignore_line_endings (w : World) (root : path) (st1 st2 : State)
    (text : str) :
  no_cr text = true ->
  fs st1 !! gitignore_path root = Some (File text) ->
  fs st2 !! gitignore_path root = Some (File (translate_out Windows text)) ->
  exists changed st1' st2' added,
    ensure_gitignore w root st1 = (Return changed, st1') /\
    ensure_gitignore w root st2 = (Return changed, st2') /\
    fs st1' !! gitignore_path root = Some (File (text ++ added)) /\
    fs st2' !! gitignore_path root = Some (File (translate_out Windows text ++ added)).
Proof.
  intros Hcr H1 H2.
  rewrite (ensure_gitignore_file w root st1 text H1).
  rewrite (ensure_gitignore_file w root st2 _ H2).
  assert (Hlines : file_lines (translate_out Windows text) = file_lines text).
  { unfold file_lines at 1. rewrite universal_newlines_translate_out by done.
    by rewrite file_lines_eq. }
  rewrite Hlines. destruct (to_add (file_lines text)) as [|l ls].
  - eexists false, _, _, []. split; [reflexivity|]. split; [reflexivity|].
    rewrite !app_nil_r. by cbn [fs log].
  - eexists true, _, _, _. split; [reflexivity|]. split; [reflexivity|].
    cbn [fs set_fs log]. rewrite !fs_lookup_insert. done.
Qed.

Lemma ensure_gitignore_line_endings_witness :
  exists changed st1' st2' added,
    ensure_gitignore (calm_world Posix) sample_root
      (state_with_gitignore (py "dist/
build/
")) = (Return changed, st1') /\
    ensure_gitignore (calm_world Posix) sample_root
      (state_with_gitignore (translate_out Windows (py "dist/
build/
"))) = (Return changed, st2') /\
    fs st1' !! gitignore_path sample_root = Some (File (py "dist/
build/
" ++ added)) /\
    fs st2' !! gitignore_path sample_root
    = Some (File (translate_out Windows (py "dist/
build/
") ++ added)).
Proof.
  apply (ensure_gitignore_line_endings (calm_world Posix) sample_root).
  - vm_compute. reflexivity.
  - vm_compute. reflexivity.
  - vm_compute. reflexivity.
Defined.

(** ** The files a run writes *)

Lemma touches_pure {A : Type} S (m : M A) :
  (forall st, fs (snd (m st)) = fs st) -> touches S m.
Proof. intros H st p. by rewrite H. Qed.

Lemma touches_weaken {A : Type} (S S' : path -> Prop) (m : M A) :
  (forall p, S p -> S' p) -> touches S m -> touches S' m.
Proof.
  intros HS Hm st p. destruct (Hm st p) as [Hsame Hkeep].
  split; [|done]. intros Hp. apply Hsame. intros ?. by apply Hp, HS.
Qed.

Lemma touches_ret {A : Type} S (a : A) : touches S (mret a).
Proof. by apply touches_pure. Qed.

Lemma touches_raise {A : Type} S e : touches S (@raise A e).
Proof. by apply touches_pure. Qed.

Lemma touches_sys_exit {A : Type} S c : touches S (@sys_exit A c).
Proof. by apply touches_pure. Qed.

Lemma touches_print S msg : touches S (print msg).
Proof. by apply touches_pure. Qed.

Lemma touches_path_exists S p : touches S (path_exists p).
Proof. by apply touches_pure. Qed.

Lemma touches_read_text S p : touches S (read_text p).
Proof.
  apply touches_pure. intros st. unfold read_text. by destruct (fs st !! p) as [[]|].
Qed.

Lemma touches_run S w cmd dir check : touches S (run w cmd dir check).
Proof.
  apply touches_pure. intros st. rewrite run_eq.
  destruct (subprocess_run w dir cmd) as [e|rc out err]; [done|].
  by destruct (check && negb (rc =? 0)).
Qed.

Lemma touches_post S w rq : touches S (post w rq).
Proof.
  apply touches_pure. intros st. rewrite post_eq. by destruct (requests_post w rq).
Qed.

Lemma touches_insert (S : path -> Prop) (f : gmap path node) q n p :
  S q ->
  (~ S p -> <[q := n]> f !! p = f !! p) /\
  (is_Some (f !! p) -> is_Some (<[q := n]> f !! p)).
Proof.
  intros Hq. split.
  - intros Hp. apply fs_lookup_insert_ne. by intros ->.
  - intros Hsome. destruct (decide (q = p)) as [-> | Hne].
    + by rewrite fs_lookup_insert.
    + by rewrite fs_lookup_insert_ne.
Qed.

Lemma touches_write_text (S : path -> Prop) w q s : S q -> touches S (write_text w q s).
Proof.
  intros Hq st p. unfold write_text.
  destruct (fs st !! q) as [[c|]|]; cbn [snd fs set_fs]; try done;
    by apply touches_insert.
Qed.

Lemma touches_append_text (S : path -> Prop) w q s : S q -> touches S (append_text w q s).
Proof.
  intros Hq st p. unfold append_text.
  destruct (fs st !! q) as [[c|]|]; cbn [snd fs set_fs]; try done;
    by apply touches_insert.
Qed.

Lemma touches_bind {A B : Type} S (m : M A) (f : A -> M B) :
  touches S m -> (forall a, touches S (f a)) -> touches S (m ≫= f).
Proof.
  intros Hm Hf st p. rewrite bind_unfold. specialize (Hm st p).
  destruct (m st) as [[a|e|c] st1]; cbn [snd] in *; [|done..].
  destruct (Hf a st1 p) as [Hsame Hkeep]. destruct Hm as [Hsame' Hkeep'].
  split; [|by auto]. intros Hp. by rewrite Hsame, Hsame'.
Qed.

Lemma touches_try {A : Type} S (body : M A) class handler :
  touches S body -> (forall e, touches S (handler e)) ->
  touches S (try_except body class handler).
Proof.
  intros Hm Hh st p. rewrite try_except_unfold. specialize (Hm st p).
  destruct (body st) as [[a|e|c] st1]; cbn [snd] in *; [done| |done].
  destruct (class e); [|done].
  destruct (Hh e st1 p) as [Hsame Hkeep]. destruct Hm as [Hsame' Hkeep'].
  split; [|by auto]. intros Hp. by rewrite Hsame, Hsame'.
Qed.

Ltac touches_step :=
  match goal with
  | |- touches _ (mbind _ _) => apply touches_bind; [|intros ?]
  | |- touches _ (try_except _ _ _) => apply touches_try; [|intros ?]
  | |- touches _ (print _) => apply touches_print
  | |- touches _ (run _ _ _ _) => apply touches_run
  | |- touches _ (post _ _) => apply touches_post
  | |- touches _ (mret _) => apply touches_ret
  | |- touches _ (raise _) => apply touches_raise
  | |- touches _ (sys_exit _) => apply touches_sys_exit
  | |- touches _ (path_exists _) => apply touches_path_exists
  | |- touches _ (read_text _) => apply touches_read_text
  | |- touches _ (write_text _ _ _) => apply touches_write_text; reflexivity
  | |- touches _ (append_text _ _ _) => apply touches_append_text; reflexivity
  | |- touches _ (if ?b then _ else _) => destruct b
  | |- touches _ (match ?x with _ => _ end) => destruct x
  | |- touches _ (let _ := _ in _) => cbv zeta
  end.

Lemma touches_ensure_git_installed w : touches nowhere (ensure_git_installed w).
Proof. unfold ensure_git_installed. repeat touches_step. Qed.

Lemma touches_ensure_gitignore w root :
  touches (fun p => p = gitignore_path root) (ensure_gitignore w root).
Proof. unfold ensure_gitignore. repeat touches_step. Qed.

Lemma touches_create_license w root :
  touches (fun p => p = license_path root) (create_license w root).
Proof. unfold create_license. repeat touches_step. Qed.

Lemma touches_init_git w root : touches nowhere (init_git w root).
Proof. unfold init_git. repeat touches_step. Qed.

Lemma touches_pip_audit w root :
  touches (fun p => p = audit_report_path root) (pip_audit w root).
Proof. unfold pip_audit. repeat touches_step. Qed.

Lemma touches_bandit_scan w root :
  touches (fun p => p = bandit_report_path root) (bandit_scan w root).
Proof. unfold bandit_scan. repeat touches_step. Qed.

Lemma touches_audits w args :
  touches (fun p => (no_audit args = false /\ p = audit_report_path (cwd w)) \/
                    (bandit args = true /\ p = bandit_report_path (cwd w)))
    (audits w args).
Proof.
  unfold audits. apply touches_bind; [|intros _].
  - destruct (no_audit args); cbn [negb]; [apply touches_ret|].
    apply touches_bind; [|intros; apply touches_ret].
    eapply touches_weaken; [|apply touches_pip_audit]. intros p ->. by left.
  - destruct (bandit args); [|apply touches_ret].
    apply touches_bind; [|intros; apply touches_ret].
    eapply touches_weaken; [|apply touches_bandit_scan]. intros p ->. by right.
Qed.

Lemma touches_publish w args : touches nowhere (publish w args).
Proof.
  unfold publish, create_and_push, create_github_repo, connect_remote_and_push,
    response_json, dict_get, getitem, as_argument.
  repeat touches_step.
Qed.

Lemma touches_after_scaffolding w args :
  touches (fun p => (no_audit args = false /\ p = audit_report_path (cwd w)) \/
                    (bandit args = true /\ p = bandit_report_path (cwd w)))
    (after_scaffolding w args).
Proof.
  unfold after_scaffolding. apply touches_bind; [|intros _; apply touches_bind].
  - eapply touches_weaken; [|apply touches_init_git]. by intros p [].
  - apply touches_audits.
  - intros _. eapply touches_weaken; [|apply touches_publish]. by intros p [].
Qed.

Lemma main_after_scaffolding w args st :
  main w args st =
    (ensure_git_installed w;;
     ensure_gitignore w (cwd w);;
     create_license w (cwd w);;
     after_scaffolding w args) st.
Proof.
  unfold main, after_scaffolding, audits. symmetry.
  do 4 (apply bind_ext; intros ? ?). rewrite bind_assoc. reflexivity.
Qed.

(** X6. What [main] itself writes.  By its own file operations (writing
    a text, appending to an open file) a run changes no path other than
    the ignore file, the license and the reports of the audits it was
    asked to run, and it removes no entry, however it ends.  What the
    programs it starts write (the [.git] directory of [git init], the
    packages of [pip install]) is not in the file system of a state, so
    the statement does not speak of it. *)
Theorem main_writes_only_its_files (w : World) (args : Namespace) (st : State)
    (p : path) :
  (~ managed_path args (cwd w) p -> fs (snd (main w args st)) !! p = fs st !! p) /\
  (is_Some (fs st !! p) -> is_Some (fs (snd (main w args st)) !! p)).
Proof.
  rewrite main_after_scaffolding.
  revert st p. change (touches (managed_path args (cwd w))
    (ensure_git_installed w;;
     ensure_gitignore w (cwd w);;
     create_license w (cwd w);;
     after_scaffolding w args)).
  apply touches_bind; [|intros _; apply touches_bind; [|intros _; apply touches_bind]].
  - eapply touches_weaken; [|apply touches_ensure_git_installed]. by intros p [].
  - eapply touches_weaken; [|apply touches_ensure_gitignore]. intros p ->. by left.
  - eapply touches_weaken; [|apply touches_create_license]. intros p ->. by right; left.
  - intros _. eapply touches_weaken; [|apply touches_after_scaffolding].
    intros p [H | H]; unfold managed_path; tauto.
Qed.

Lemma path_join_ne (root : path) (a b : str) : a <> b -> root // a <> root // b.
Proof. unfold path_join. intros Hne H%(inj (app root)). by injection H. Qed.




(** ** Further properties of the git steps *)

Lemma run_unchecked w cmd dir st rc out err :
  subprocess_run w dir cmd = Exited rc out err ->
  run w cmd dir false st =
    (Return {| cp_args := cmd; cp_returncode := rc; cp_stdout := out; cp_stderr := err |},
     log (Spawn dir cmd) st).
Proof. intros H. by rewrite run_eq, H. Qed.

Lemma run_not_started w cmd dir check st detail :
  subprocess_run w dir cmd = SpawnFailed detail ->
  run w cmd dir check st = (Raise (OSError detail), log (Spawn dir cmd) st).
Proof. intros H. by rewrite run_eq, H. Qed.

(** Two states with the same files and the same events. *)
Ltac same_state :=
  unfold log, after, set_fs; cbn [fs trace];
  rewrite <- ?(assoc_L (++)); reflexivity.

Lemma new_events_after {A : Type} (m : M A) st r evs :
  m st = (r, after evs st) -> new_events m st = evs.
Proof. intros H. apply new_events_eq. by rewrite H. Qed.

(** X8. [ensure_git_installed] never raises and changes no file: when
    [git --version] exits with status 0 it prints the version and returns;
    in every other case (git cannot be started, or exits with an error) it
    prints that git is missing and ends the process with status 1. *)
Theorem ensure_git_installed_outcomes (w : World) (st : State) :
  match subprocess_run w None version_cmd with
  | Exited 0 out _ =>
      ensure_git_installed w st
      = (Return tt,
         after [Spawn None version_cmd; Print [Lit (py "[git] "); Lit (strip out)]] st)
  | _ =>
      ensure_git_installed w st
      = (SysExit 1,
         after [Spawn None version_cmd;
                Print [Lit (py "[git] git is not installed or not on PATH")]] st)
  end.
Proof.
  unfold ensure_git_installed. fold version_cmd.
  rewrite try_except_unfold, bind_unfold, run_eq.
  destruct (subprocess_run w None version_cmd) as [detail|rc out err].
  - cbn [is_Exception]. rewrite bind_unfold, print_eq. unfold sys_exit.
    f_equal. same_state.
  - destruct rc as [|n|n]; cbn [andb Z.eqb negb is_Exception];
      rewrite ?bind_unfold, ?print_eq; unfold sys_exit; f_equal; same_state.
Qed.

(** X9. [init_git] never runs [git init] in a directory that already has
    a [.git] entry; in a directory without one, [git init] is the first
    thing it runs. *)
Theorem init_git_initialises_once (w : World) (root : path) (st : State) :
  if bool_decide (is_Some (fs st !! (root // py ".git")))
  then Forall (fun e => is_spawn_of init_cmd e = false) (new_events (init_git w root) st)
  else exists rest, new_events (init_git w root) st = Spawn (Some root) init_cmd :: rest.
Proof.
  unfold new_events, init_git. rewrite bind_unfold, path_exists_eq.
  destruct (bool_decide (is_Some (fs st !! (root // py ".git")))).
  - match goal with
    | |- context [trace (snd (?m st))] =>
        assert (Hm : emits (fun e => negb (is_spawn_of init_cmd e)) m)
    end.
    { repeat emits_step. }
    destruct (Hm st) as (evs & -> & Hall). rewrite drop_app_length.
    eapply Forall_impl; [done|]. intros e. apply negb_true_iff.
  - match goal with
    | |- context [trace (snd (?m st))] =>
        assert (Hm : starts_with (Spawn (Some root) init_cmd) m)
    end.
    { apply starts_with_bind.
      - apply starts_with_bind; [apply starts_with_run|intros; repeat emits_step].
      - intros _. repeat emits_step. }
    destruct (Hm st) as (rest & ->). exists rest. by rewrite drop_app_length.
Qed.

(** X10. [init_git] stops at the first git command that fails: when
    [git init] exits with an error, the error is raised and nothing else
    is run; when [git add] exits with an error, the error is raised and
    the commit is not attempted. *)
Theorem init_git_stops_at_first_failure (w : World) (root : path) (st : State)
    (rc : Z) (out err : str) :
  rc <> 0 ->
  (fs st !! (root // py ".git") = None ->
   subprocess_run w (Some root) init_cmd = Exited rc out err ->
   fst (init_git w root st) = Raise (CalledProcessError rc init_cmd out err) /\
   commands (new_events (init_git w root) st) = [init_cmd]) /\
  (fs st !! (root // py ".git") = None ->
   (exists o e, subprocess_run w (Some root) init_cmd = Exited 0 o e) ->
   subprocess_run w (Some root) add_cmd = Exited rc out err ->
   fst (init_git w root st) = Raise (CalledProcessError rc add_cmd out err) /\
   commands (new_events (init_git w root) st) = [init_cmd; add_cmd]) /\
  (is_Some (fs st !! (root // py ".git")) ->
   subprocess_run w (Some root) add_cmd = Exited rc out err ->
   fst (init_git w root st) = Raise (CalledProcessError rc add_cmd out err) /\
   commands (new_events (init_git w root) st) = [add_cmd]).
Proof.
  intros Hrc. split; [|split].
  - intros Hgit Hinit.
    assert (Hrun : init_git w root st
                   = (Raise (CalledProcessError rc init_cmd out err),
                      after [Spawn (Some root) init_cmd] st)).
    { unfold init_git. rewrite bind_unfold, path_exists_eq, Hgit.
      rewrite bool_decide_false by (by intros [? ?]).
      rewrite !bind_unfold. fold init_cmd.
      by rewrite (run_check_fails w _ _ _ rc out err Hinit Hrc). }
    rewrite (new_events_after _ _ _ _ Hrun). by rewrite Hrun.
  - intros Hgit (o & e & Hinit) Hadd.
    assert (Hrun : init_git w root st
                   = (Raise (CalledProcessError rc add_cmd out err),
                      after [Spawn (Some root) init_cmd;
                             Print [Lit (py "[git] Initialized repository")];
                             Spawn (Some root) add_cmd] st)).
    { unfold init_git. rewrite bind_unfold, path_exists_eq, Hgit.
      rewrite bool_decide_false by (by intros [? ?]).
      rewrite !bind_unfold. fold init_cmd add_cmd.
      rewrite (run_ok w _ _ _ _ o e Hinit), print_eq, bind_unfold.
      rewrite (run_check_fails w _ _ _ rc out err Hadd Hrc).
      f_equal. same_state. }
    rewrite (new_events_after _ _ _ _ Hrun). by rewrite Hrun.
  - intros Hgit Hadd.
    assert (Hrun : init_git w root st
                   = (Raise (CalledProcessError rc add_cmd out err),
                      after [Print [Lit (py "[git] Already a repository")];
                             Spawn (Some root) add_cmd] st)).
    { unfold init_git. rewrite bind_unfold, path_exists_eq.
      rewrite bool_decide_true by done.
      rewrite !bind_unfold, print_eq. fold add_cmd. rewrite ?bind_unfold.
      rewrite (run_check_fails w _ _ _ rc out err Hadd Hrc).
      f_equal. same_state. }
    rewrite (new_events_after _ _ _ _ Hrun). by rewrite Hrun.
Qed.

Lemma init_git_stops_at_first_failure_witness :
  fst (init_git world_add_fails sample_root empty_state)
  = Raise (CalledProcessError 128 add_cmd [] (py "fatal: adding files failed")) /\
  commands (new_events (init_git world_add_fails sample_root) empty_state)
  = [init_cmd; add_cmd].
Proof.
  destruct (init_git_stops_at_first_failure world_add_fails sample_root empty_state
              128 [] (py "fatal: adding files failed")) as (_ & Hadd & _); [lia|].
  apply Hadd.
  - vm_compute. reflexivity.
  - exists [], []. vm_compute. reflexivity.
  - vm_compute. reflexivity.
Defined.

(** X11. For a failed commit, [init_git] looks at standard error first:
    when it is not empty the decision rests on it alone, and standard
    output is only read when standard error is empty. *)
Theorem init_git_reads_stderr_first (w : World) (root : path) (st : State)
    (rc : Z) (out err : str) :
  (is_Some (fs st !! (root // py ".git")) \/
   exists o e, subprocess_run w (Some root) init_cmd = Exited 0 o e) ->
  (exists o e, subprocess_run w (Some root) add_cmd = Exited 0 o e) ->
  subprocess_run w (Some root) commit_cmd = Exited rc out err ->
  rc <> 0 ->
  (err <> [] ->
   fst (init_git w root st)
   = if mentions_identity (strip err) then SysExit 1 else Return tt) /\
  (err = [] ->
   fst (init_git w root st)
   = if mentions_identity (strip out) then SysExit 1 else Return tt).
Proof.
  intros Hinit Hadd Hcommit Hrc.
  destruct (init_git_reaches_commit w root st Hinit Hadd) as (st1 & -> & _ & _).
  rewrite (commit_step_failure w root st1 rc out err Hcommit Hrc).
  cbn [failure_message]. split.
  - intros Herr. destruct err as [|c err]; [done|]. cbn [truthy].
    by destruct (mentions_identity _).
  - intros ->. cbn [truthy]. destruct out as [|c out]; cbn [truthy];
      by destruct (mentions_identity _).
Qed.

Lemma init_git_reads_stderr_first_witness :
  fst (init_git world_identity_on_stdout sample_root empty_state) = Return tt.
Proof.
  destruct (init_git_reads_stderr_first world_identity_on_stdout sample_root empty_state
              1 (py "set user.email first") (py "hook failed")) as [Herr _].
  - right. exists [], []. vm_compute. reflexivity.
  - exists [], []. vm_compute. reflexivity.
  - vm_compute. reflexivity.
  - lia.
  - apply Herr. discriminate.
Defined.

(** ** [connect_remote_and_push] *)

(** The rename of the branch never stops the function. *)
Lemma rename_branch_tolerant w root branch_name st rc out err :
  subprocess_run w (Some root) (branch_cmd branch_name) = Exited rc out err ->
  try_except
    (run w [py "git"; py "branch"; py "-M"; branch_name] (Some root) true;; mret tt)
    is_CalledProcessError (fun _ => mret tt) st
  = (Return tt, log (Spawn (Some root) (branch_cmd branch_name)) st).
Proof.
  intros H. rewrite try_except_unfold, bind_unfold. fold (branch_cmd branch_name).
  rewrite run_eq, H. by destruct (true && negb (rc =? 0)).
Qed.

(** X12. When the remote list already names [origin],
    [connect_remote_and_push] leaves it alone: no remote is added and the
    clone URL is not used, whatever it is.  The rename of the branch may
    fail and the status of [git remote] is not looked at; the push decides:
    status 0 returns, any other status raises. *)
Theorem connect_keeps_existing_origin (w : World) (root : path) (clone_url : json)
    (branch_name : str) (st : State)
    (brc rrc prc : Z) (bout berr rout rerr pout perr : str) :
  subprocess_run w (Some root) (branch_cmd branch_name) = Exited brc bout berr ->
  subprocess_run w (Some root) remote_cmd = Exited rrc rout rerr ->
  py "origin" ∈ split_ws rout ->
  subprocess_run w (Some root) (push_cmd branch_name) = Exited prc pout perr ->
  connect_remote_and_push w root clone_url branch_name st =
    if prc =? 0
    then (Return tt,
          after [Spawn (Some root) (branch_cmd branch_name);
                 Spawn (Some root) remote_cmd;
                 Spawn (Some root) (push_cmd branch_name);
                 Print [Lit (py "[git] Pushed to "); Lit branch_name]] st)
    else (Raise (CalledProcessError prc (push_cmd branch_name) pout perr),
          after [Spawn (Some root) (branch_cmd branch_name);
                 Spawn (Some root) remote_cmd;
                 Spawn (Some root) (push_cmd branch_name)] st).
Proof.
  intros Hbranch Hremote Horigin Hpush. unfold connect_remote_and_push.
  rewrite bind_unfold, (rename_branch_tolerant w root branch_name st brc bout berr Hbranch).
  rewrite bind_unfold. fold remote_cmd.
  rewrite (run_unchecked w _ _ _ rrc rout rerr Hremote). cbn [cp_stdout].
  rewrite bool_decide_true by done. rewrite !bind_unfold. cbn [mret M_ret].
  fold (push_cmd branch_name). rewrite bind_unfold, run_eq, Hpush. cbn [andb].
  destruct (prc =? 0); cbn [negb]; rewrite ?print_eq; f_equal; same_state.
Qed.

Lemma connect_keeps_existing_origin_witness :
  connect_remote_and_push world_with_origin sample_root JNull (py "main") empty_state
  = (Return tt,
     after [Spawn (Some sample_root) (branch_cmd (py "main"));
            Spawn (Some sample_root) remote_cmd;
            Spawn (Some sample_root) (push_cmd (py "main"));
            Print [Lit (py "[git] Pushed to "); Lit (py "main")]] empty_state).
Proof.
  apply (connect_keeps_existing_origin world_with_origin sample_root JNull (py "main")
           empty_state 0 0 0 [] [] (py "origin
upstream
") [] [] []).
  - vm_compute. reflexivity.
  - vm_compute. reflexivity.
  - apply (bool_decide_unpack _). vm_compute. exact I.
  - vm_compute. reflexivity.
Defined.

(** X13. When the remote list does not name [origin],
    [connect_remote_and_push] adds it with exactly the clone URL and then
    pushes; if adding the remote fails, the error is raised and no push is
    attempted. *)
Theorem connect_adds_origin (w : World) (root : path) (url branch_name : str)
    (st : State) (brc rrc arc prc : Z)
    (bout berr rout rerr aout aerr pout perr : str) :
  subprocess_run w (Some root) (branch_cmd branch_name) = Exited brc bout berr ->
  subprocess_run w (Some root) remote_cmd = Exited rrc rout rerr ->
  py "origin" ∉ split_ws rout ->
  subprocess_run w (Some root) (remote_add_cmd url) = Exited arc aout aerr ->
  subprocess_run w (Some root) (push_cmd branch_name) = Exited prc pout perr ->
  connect_remote_and_push w root (JStr url) branch_name st =
    if negb (arc =? 0)
    then (Raise (CalledProcessError arc (remote_add_cmd url) aout aerr),
          after [Spawn (Some root) (branch_cmd branch_name);
                 Spawn (Some root) remote_cmd;
                 Spawn (Some root) (remote_add_cmd url)] st)
    else if prc =? 0
    then (Return tt,
          after [Spawn (Some root) (branch_cmd branch_name);
                 Spawn (Some root) remote_cmd;
                 Spawn (Some root) (remote_add_cmd url);
                 Print [Lit (py "[git] Added remote origin -> "); Val (Some (JStr url))];
                 Spawn (Some root) (push_cmd branch_name);
                 Print [Lit (py "[git] Pushed to "); Lit branch_name]] st)
    else (Raise (CalledProcessError prc (push_cmd branch_name) pout perr),
          after [Spawn (Some root) (branch_cmd branch_name);
                 Spawn (Some root) remote_cmd;
                 Spawn (Some root) (remote_add_cmd url);
                 Print [Lit (py "[git] Added remote origin -> "); Val (Some (JStr url))];
                 Spawn (Some root) (push_cmd branch_name)] st).
Proof.
  intros Hbranch Hremote Horigin Hadd Hpush. unfold connect_remote_and_push.
  rewrite bind_unfold, (rename_branch_tolerant w root branch_name st brc bout berr Hbranch).
  rewrite bind_unfold. fold remote_cmd.
  rewrite (run_unchecked w _ _ _ rrc rout rerr Hremote). cbn [cp_stdout].
  rewrite bool_decide_false by done. rewrite !bind_unfold. cbn [as_argument mret M_ret].
  fold (remote_add_cmd url). rewrite ?bind_unfold, run_eq, Hadd. cbn [andb].
  destruct (arc =? 0); cbn [negb]; [|f_equal; same_state].
  rewrite print_eq. fold (push_cmd branch_name).
  rewrite ?bind_unfold, run_eq, Hpush. cbn [andb].
  destruct (prc =? 0); cbn [negb]; rewrite ?print_eq; f_equal; same_state.
Qed.

Lemma connect_adds_origin_witness :
  connect_remote_and_push (calm_world Posix) sample_root
    (JStr (py "https://github.com/dev/demo.git")) (py "main") empty_state
  = (Return tt,
     after [Spawn (Some sample_root) (branch_cmd (py "main"));
            Spawn (Some sample_root) remote_cmd;
            Spawn (Some sample_root) (remote_add_cmd (py "https://github.com/dev/demo.git"));
            Print [Lit (py "[git] Added remote origin -> ");
                   Val (Some (JStr (py "https://github.com/dev/demo.git")))];
            Spawn (Some sample_root) (push_cmd (py "main"));
            Print [Lit (py "[git] Pushed to "); Lit (py "main")]] empty_state).
Proof.
  apply (connect_adds_origin (calm_world Posix) sample_root
           (py "https://github.com/dev/demo.git") (py "main") empty_state
           0 0 0 0 [] [] [] [] [] [] [] []).
  - reflexivity.
  - reflexivity.
  - vm_compute. intros H. inversion H.
  - reflexivity.
  - reflexivity.
Defined.

(** ** The audits *)

(** X14. Without [requirements.txt], [pip_audit] returns [None] after one
    message: it runs nothing and writes nothing. *)
Theorem pip_audit_without_requirements (w : World) (root : path) (st : State) :
  fs st !! requirements_path root = None ->
  pip_audit w root st
  = (Return None,
     after [Print [Lit (py "[audit] No requirements.txt found, skipping dependency audit")]]
       st).
Proof.
  intros H. unfold pip_audit. fold (requirements_path root).
  rewrite bind_unfold, path_exists_eq, H.
  by rewrite bool_decide_false by (by intros [? ?]).
Qed.

Lemma pip_audit_without_requirements_witness :
  pip_audit (calm_world Posix) sample_root empty_state
  = (Return None,
     after [Print [Lit (py "[audit] No requirements.txt found, skipping dependency audit")]]
       empty_state).
Proof.
  apply (pip_audit_without_requirements (calm_world Posix) sample_root empty_state).
  vm_compute. reflexivity.
Defined.

(** The audit proper, once the tool is there. *)
Lemma pip_audit_runs_tool w root st0 rc out err :
  subprocess_run w None (audit_cmd w root) = Exited rc out err ->
  fs st0 !! audit_report_path root <> Some Dir ->
  exists st',
    (print [Lit (py "[audit] Running pip-audit" ++ [ELLIPSIS])];;
     result ← run w [executable w; py "-m"; py "pip_audit"; py "-r";
                     path_str (root // py "requirements.txt")] None false;
     write_text w (root // py "pip-audit-report.txt")
       (cp_stdout result ++ [LF] ++ cp_stderr result);;
     (if cp_returncode result =? 0
      then print [Lit (py "[audit] No known vulnerabilities (see pip-audit-report.txt)")]
      else print [Lit (py "[audit] Vulnerabilities found (see pip-audit-report.txt)")]);;
     mret (Some (path_str (root // py "pip-audit-report.txt")))) st0
    = (Return (Some (path_str (audit_report_path root))), st') /\
    fs st' = <[audit_report_path root :=
                 File (translate_out (platform w) (out ++ [LF] ++ err))]> (fs st0) /\
    exists msg,
      trace st' = trace st0 ++ [Print [Lit (py "[audit] Running pip-audit" ++ [ELLIPSIS])];
                                Spawn None (audit_cmd w root); Print msg].
Proof.
  intros Hrun Hdir. fold (requirements_path root) (audit_report_path root).
  fold (audit_cmd w root).
  rewrite bind_unfold, print_eq, bind_unfold.
  rewrite (run_unchecked w _ _ _ rc out err Hrun). cbn [cp_stdout cp_stderr cp_returncode].
  rewrite bind_unfold. unfold write_text at 1. cbn [fs log].
  destruct (fs st0 !! audit_report_path root) as [[c|]|] eqn:Hrep; try done.
  all: destruct (rc =? 0); rewrite bind_unfold, print_eq; eexists;
    (split; [reflexivity|]); (split; [reflexivity|]); eexists; cbn [trace log set_fs];
    by rewrite <- !(assoc_L (++)).
Qed.

(** X15. With [requirements.txt] and the tool at hand, [pip_audit] runs
    the tool once and stores its standard output, a line feed and its
    standard error in the report, replacing any earlier report, and
    returns the path of the report, whatever the status of the tool. *)
Theorem pip_audit_writes_report (w : World) (root : path) (st : State)
    (vout verr : str) (rc : Z) (out err : str) :
  is_Some (fs st !! requirements_path root) ->
  subprocess_run w None (audit_version_cmd w) = Exited 0 vout verr ->
  subprocess_run w None (audit_cmd w root) = Exited rc out err ->
  fs st !! audit_report_path root <> Some Dir ->
  exists st',
    pip_audit w root st = (Return (Some (path_str (audit_report_path root))), st') /\
    fs st' = <[audit_report_path root :=
                 File (translate_out (platform w) (out ++ [LF] ++ err))]> (fs st) /\
    commands (new_events (pip_audit w root) st) = [audit_version_cmd w; audit_cmd w root].
Proof.
  intros Hreq Hversion Hrun Hdir.
  destruct (pip_audit_runs_tool w root (log (Spawn None (audit_version_cmd w)) st)
              rc out err Hrun Hdir) as (st' & Htool & Hfs & msg & Htrace).
  assert (Hrun' : pip_audit w root st
                  = (Return (Some (path_str (audit_report_path root))), st')).
  { unfold pip_audit. fold (requirements_path root).
    rewrite bind_unfold, path_exists_eq. rewrite bool_decide_true by done. cbn [negb].
    rewrite bind_unfold, try_except_unfold, bind_unfold. fold (audit_version_cmd w).
    rewrite (run_ok w _ _ _ _ vout verr Hversion). cbn [mret M_ret negb].
    exact Htool. }
  exists st'. split; [done|]. split; [done|].
  unfold new_events. rewrite Hrun'. cbn [snd]. rewrite Htrace. cbn [trace log].
  rewrite <- (assoc_L (++)). by rewrite drop_app_length.
Qed.

Lemma pip_audit_writes_report_witness :
  exists st',
    pip_audit (calm_world Windows) sample_root state_with_requirements
    = (Return (Some (path_str (audit_report_path sample_root))), st') /\
    fs st' = <[audit_report_path sample_root :=
                 File (translate_out Windows ([] ++ [LF] ++ []))]>
               (fs state_with_requirements) /\
    commands (new_events (pip_audit (calm_world Windows) sample_root)
                state_with_requirements)
    = [audit_version_cmd (calm_world Windows); audit_cmd (calm_world Windows) sample_root].
Proof.
  apply (pip_audit_writes_report (calm_world Windows) sample_root state_with_requirements
           [] [] 0 [] []).
  - vm_compute. eexists. reflexivity.
  - reflexivity.
  - reflexivity.
  - vm_compute. discriminate.
Defined.

(** X16. When the tool is missing, [pip_audit] tries to install it once.
    If the installation fails it returns [None] and writes nothing; if it
    succeeds the audit runs as if the tool had been there. *)
Theorem pip_audit_installs_tool (w : World) (root : path) (st : State)
    (vrc irc : Z) (vout verr iout ierr : str) :
  is_Some (fs st !! requirements_path root) ->
  subprocess_run w None (audit_version_cmd w) = Exited vrc vout verr ->
  vrc <> 0 ->
  subprocess_run w None (audit_install_cmd w) = Exited irc iout ierr ->
  (irc <> 0 ->
   exists st',
     pip_audit w root st = (Return None, st') /\
     fs st' = fs st /\
     commands (new_events (pip_audit w root) st)
     = [audit_version_cmd w; audit_install_cmd w]) /\
  (irc = 0 ->
   forall rc out err,
     subprocess_run w None (audit_cmd w root) = Exited rc out err ->
     fs st !! audit_report_path root <> Some Dir ->
     exists st',
       pip_audit w root st = (Return (Some (path_str (audit_report_path root))), st') /\
       fs st' = <[audit_report_path root :=
                    File (translate_out (platform w) (out ++ [LF] ++ err))]> (fs st) /\
       commands (new_events (pip_audit w root) st)
       = [audit_version_cmd w; audit_install_cmd w; audit_cmd w root]).
Proof.
  intros Hreq Hversion Hvrc Hinstall.
  assert (Hstart :
             pip_audit w root st
             = (ok ← try_except
                  (run w (audit_install_cmd w) None true;; mret true)
                  is_CalledProcessError
                  (fun _ =>
                     print [Lit (py "[audit] Could not install pip-audit. Skipping.")];;
                     mret false);
                if negb ok then mret None
                else
                  print [Lit (py "[audit] Running pip-audit" ++ [ELLIPSIS])];;
                  result ← run w [executable w; py "-m"; py "pip_audit"; py "-r";
                                  path_str (root // py "requirements.txt")] None false;
                  write_text w (root // py "pip-audit-report.txt")
                    (cp_stdout result ++ [LF] ++ cp_stderr result);;
                  (if cp_returncode result =? 0
                   then print [Lit (py "[audit] No known vulnerabilities (see pip-audit-report.txt)")]
                   else print [Lit (py "[audit] Vulnerabilities found (see pip-audit-report.txt)")]);;
                  mret (Some (path_str (root // py "pip-audit-report.txt"))))
                 (log (Print [Lit (py "[audit] pip-audit not found. Installing" ++ [ELLIPSIS])])
                    (log (Spawn None (audit_version_cmd w)) st))).
  { unfold pip_audit. fold (requirements_path root).
    rewrite bind_unfold, path_exists_eq. rewrite bool_decide_true by done. cbn [negb].
    rewrite bind_unfold, try_except_unfold, bind_unfold. fold (audit_version_cmd w).
    rewrite (run_check_fails w _ _ _ vrc vout verr Hversion Hvrc).
    cbn [is_CalledProcessError]. rewrite bind_unfold, print_eq.
    fold (audit_install_cmd w). by rewrite bind_unfold. }
  split.
  - intros Hirc.
    assert (Hrun : pip_audit w root st
                   = (Return None,
                      after [Spawn None (audit_version_cmd w);
                             Print [Lit (py "[audit] pip-audit not found. Installing" ++ [ELLIPSIS])];
                             Spawn None (audit_install_cmd w);
                             Print [Lit (py "[audit] Could not install pip-audit. Skipping.")]]
                        st)).
    { rewrite Hstart, bind_unfold, try_except_unfold, bind_unfold.
      rewrite (run_check_fails w _ _ _ irc iout ierr Hinstall Hirc).
      cbn [is_CalledProcessError]. rewrite bind_unfold, print_eq. cbn [mret M_ret negb].
      f_equal. same_state. }
    eexists. split; [exact Hrun|]. split; [reflexivity|].
    by rewrite (new_events_after _ _ _ _ Hrun).
  - intros -> rc out err Hrun Hdir.
    destruct (pip_audit_runs_tool w root
                (log (Spawn None (audit_install_cmd w))
                   (log (Print [Lit (py "[audit] pip-audit not found. Installing" ++ [ELLIPSIS])])
                      (log (Spawn None (audit_version_cmd w)) st)))
                rc out err Hrun Hdir) as (st' & Htool & Hfs & msg & Htrace).
    assert (Hrun' : pip_audit w root st
                    = (Return (Some (path_str (audit_report_path root))), st')).
    { rewrite Hstart, bind_unfold, try_except_unfold, bind_unfold.
      rewrite (run_ok w _ _ _ _ iout ierr Hinstall). cbn [mret M_ret negb].
      exact Htool. }
    exists st'. split; [done|]. split; [done|].
    unfold new_events. rewrite Hrun'. cbn [snd]. rewrite Htrace. cbn [trace log].
    rewrite <- !(assoc_L (++)). by rewrite drop_app_length.
Qed.

Lemma pip_audit_installs_tool_witness :
  exists st',
    pip_audit world_installing sample_root state_with_requirements
    = (Return (Some (path_str (audit_report_path sample_root))), st') /\
    fs st' = <[audit_report_path sample_root :=
                 File (translate_out Posix ([] ++ [LF] ++ []))]>
               (fs state_with_requirements) /\
    commands (new_events (pip_audit world_installing sample_root) state_with_requirements)
    = [audit_version_cmd world_installing; audit_install_cmd world_installing;
       audit_cmd world_installing sample_root].
Proof.
  destruct (pip_audit_installs_tool world_installing sample_root state_with_requirements
              1 0 [] (py "No module named pip_audit") [] []) as [_ Hinstalled].
  - vm_compute. eexists. reflexivity.
  - vm_compute. reflexivity.
  - lia.
  - vm_compute. reflexivity.
  - apply (Hinstalled eq_refl 0 [] []).
    + vm_compute. reflexivity.
    + vm_compute. discriminate.
Defined.

(** The scan proper, once the tool is there. *)
Lemma bandit_scan_runs_tool w root st0 rc out err :
  subprocess_run w None (bandit_cmd w) = Exited rc out err ->
  fs st0 !! bandit_report_path root <> Some Dir ->
  (print [Lit (py "[bandit] Scanning" ++ [ELLIPSIS])];;
   result ← run w [executable w; py "-m"; py "bandit"; py "-r"; py "."] None false;
   write_text w (root // py "bandit-report.txt")
     (cp_stdout result ++ [LF] ++ cp_stderr result);;
   print [Lit (py "[bandit] Finished (see bandit-report.txt)")];;
   mret (Some (path_str (root // py "bandit-report.txt")))) st0
  = (Return (Some (path_str (bandit_report_path root))),
     log (Print [Lit (py "[bandit] Finished (see bandit-report.txt)")])
       (set_fs (<[bandit_report_path root :=
                    File (translate_out (platform w) (out ++ [LF] ++ err))]> (fs st0))
          (log (Spawn None (bandit_cmd w))
             (log (Print [Lit (py "[bandit] Scanning" ++ [ELLIPSIS])]) st0)))).
Proof.
  intros Hrun Hdir. fold (bandit_report_path root) (bandit_cmd w).
  rewrite bind_unfold, print_eq, bind_unfold.
  rewrite (run_unchecked w _ _ _ rc out err Hrun). cbn [cp_stdout cp_stderr cp_returncode].
  rewrite bind_unfold. unfold write_text at 1. cbn [fs log].
  destruct (fs st0 !! bandit_report_path root) as [[c|]|] eqn:Hrep; try done.
Qed.

(** X17. Once bandit is there, at hand or just installed, [bandit_scan]
    runs it on the current directory and stores its standard output, a
    line feed and its standard error in the report, replacing any earlier
    report, and returns the path of the report, whatever the status of
    the scan. *)
Theorem bandit_scan_writes_report (w : World) (root : path) (st : State)
    (vrc : Z) (vout verr : str) (rc : Z) (out err : str) :
  subprocess_run w None (bandit_version_cmd w) = Exited vrc vout verr ->
  (vrc <> 0 ->
   exists iout ierr, subprocess_run w None (bandit_install_cmd w) = Exited 0 iout ierr) ->
  subprocess_run w None (bandit_cmd w) = Exited rc out err ->
  fs st !! bandit_report_path root <> Some Dir ->
  exists st',
    bandit_scan w root st = (Return (Some (path_str (bandit_report_path root))), st') /\
    fs st' = <[bandit_report_path root :=
                 File (translate_out (platform w) (out ++ [LF] ++ err))]> (fs st) /\
    commands (new_events (bandit_scan w root) st)
    = if vrc =? 0 then [bandit_version_cmd w; bandit_cmd w]
      else [bandit_version_cmd w; bandit_install_cmd w; bandit_cmd w].
Proof.
  intros Hversion Hinstall Hrun Hdir.
  destruct (vrc =? 0) eqn:Hvrc.
  - apply Z.eqb_eq in Hvrc as ->.
    assert (Hscan : bandit_scan w root st
                    = (Return (Some (path_str (bandit_report_path root))),
                       log (Print [Lit (py "[bandit] Finished (see bandit-report.txt)")])
                         (set_fs (<[bandit_report_path root :=
                                      File (translate_out (platform w) (out ++ [LF] ++ err))]>
                                    (fs st))
                            (after [Spawn None (bandit_version_cmd w);
                                    Print [Lit (py "[bandit] Scanning" ++ [ELLIPSIS])];
                                    Spawn None (bandit_cmd w)] st)))).
    { unfold bandit_scan.
      rewrite bind_unfold, try_except_unfold, bind_unfold. fold (bandit_version_cmd w).
      rewrite (run_ok w _ _ _ _ vout verr Hversion). cbn [mret M_ret negb].
      rewrite (bandit_scan_runs_tool w root (log (Spawn None (bandit_version_cmd w)) st)
                 rc out err Hrun Hdir).
      f_equal. same_state. }
    eexists. split; [exact Hscan|]. split; [reflexivity|].
    unfold new_events. rewrite Hscan. cbn [snd trace log set_fs after].
    rewrite <- (assoc_L (++)). by rewrite drop_app_length.
  - apply Z.eqb_neq in Hvrc. destruct (Hinstall Hvrc) as (iout & ierr & Hinst).
    assert (Hscan : bandit_scan w root st
                    = (Return (Some (path_str (bandit_report_path root))),
                       log (Print [Lit (py "[bandit] Finished (see bandit-report.txt)")])
                         (set_fs (<[bandit_report_path root :=
                                      File (translate_out (platform w) (out ++ [LF] ++ err))]>
                                    (fs st))
                            (after [Spawn None (bandit_version_cmd w);
                                    Print [Lit (py "[bandit] bandit not found. Installing"
                                                ++ [ELLIPSIS])];
                                    Spawn None (bandit_install_cmd w);
                                    Print [Lit (py "[bandit] Scanning" ++ [ELLIPSIS])];
                                    Spawn None (bandit_cmd w)] st)))).
    { unfold bandit_scan.
      rewrite bind_unfold, try_except_unfold, bind_unfold. fold (bandit_version_cmd w).
      rewrite (run_check_fails w _ _ _ vrc vout verr Hversion Hvrc).
      cbn [is_CalledProcessError]. rewrite bind_unfold, print_eq.
      fold (bandit_install_cmd w). rewrite try_except_unfold, bind_unfold.
      rewrite (run_ok w _ _ _ _ iout ierr Hinst). cbn [mret M_ret negb].
      rewrite (bandit_scan_runs_tool w root
                 (log (Spawn None (bandit_install_cmd w))
                    (log (Print [Lit (py "[bandit] bandit not found. Installing"
                                      ++ [ELLIPSIS])])
                       (log (Spawn None (bandit_version_cmd w)) st)))
                 rc out err Hrun Hdir).
      f_equal. same_state. }
    eexists. split; [exact Hscan|]. split; [reflexivity|].
    unfold new_events. rewrite Hscan. cbn [snd trace log set_fs after].
    rewrite <- (assoc_L (++)). by rewrite drop_app_length.
Qed.

Lemma bandit_scan_writes_report_witness :
  exists st',
    bandit_scan world_without_bandit sample_root empty_state
    = (Return (Some (path_str (bandit_report_path sample_root))), st') /\
    fs st' = <[bandit_report_path sample_root :=
                 File (translate_out Posix ([] ++ [LF] ++ []))]> (fs empty_state) /\
    commands (new_events (bandit_scan world_without_bandit sample_root) empty_state)
    = [bandit_version_cmd world_without_bandit; bandit_install_cmd world_without_bandit;
       bandit_cmd world_without_bandit].
Proof.
  apply (bandit_scan_writes_report world_without_bandit sample_root empty_state
           1 [] (py "No module named bandit") 0 [] []).
  - vm_compute. reflexivity.
  - intros _. exists [], []. vm_compute. reflexivity.
  - vm_compute. reflexivity.
  - vm_compute. discriminate.
Defined.

(** X18. When bandit is missing and cannot be installed, [bandit_scan]
    returns [None] after the two attempts: the scan is not run and no
    file is written. *)
Theorem bandit_scan_gives_up (w : World) (root : path) (st : State)
    (vrc irc : Z) (vout verr iout ierr : str) :
  subprocess_run w None (bandit_version_cmd w) = Exited vrc vout verr -> vrc <> 0 ->
  subprocess_run w None (bandit_install_cmd w) = Exited irc iout ierr -> irc <> 0 ->
  bandit_scan w root st
  = (Return None,
     after [Spawn None (bandit_version_cmd w);
            Print [Lit (py "[bandit] bandit not found. Installing" ++ [ELLIPSIS])];
            Spawn None (bandit_install_cmd w);
            Print [Lit (py "[bandit] Could not install bandit. Skipping.")]] st).
Proof.
  intros Hversion Hvrc Hinst Hirc. unfold bandit_scan.
  rewrite bind_unfold, try_except_unfold, bind_unfold. fold (bandit_version_cmd w).
  rewrite (run_check_fails w _ _ _ vrc vout verr Hversion Hvrc).
  cbn [is_CalledProcessError]. rewrite bind_unfold, print_eq.
  fold (bandit_install_cmd w). rewrite try_except_unfold, bind_unfold.
  rewrite (run_check_fails w _ _ _ irc iout ierr Hinst Hirc).
  cbn [is_CalledProcessError]. rewrite bind_unfold, print_eq. cbn [mret M_ret negb].
  f_equal. same_state.
Qed.

Lemma bandit_scan_gives_up_witness :
  bandit_scan world_offline sample_root empty_state
  = (Return None,
     after [Spawn None (bandit_version_cmd world_offline);
            Print [Lit (py "[bandit] bandit not found. Installing" ++ [ELLIPSIS])];
            Spawn None (bandit_install_cmd world_offline);
            Print [Lit (py "[bandit] Could not install bandit. Skipping.")]] empty_state).
Proof.
  apply (bandit_scan_gives_up world_offline sample_root empty_state
           1 1 [] (py "No matching distribution found")
           [] (py "No matching distribution found")).
  - vm_compute. reflexivity.
  - lia.
  - vm_compute. reflexivity.
  - lia.
Defined.





(** ** The request *)

Lemma filter_no_post evs :
  Forall (fun e => is_post e = false) evs -> List.filter is_post evs = [].
Proof.
  induction 1 as [|e evs He _ IH]; [done|]. cbn [List.filter]. by rewrite He.
Qed.

Lemma filter_local evs :
  Forall (fun e => is_local e = true) evs -> List.filter is_post evs = [].
Proof.
  intros H. apply filter_no_post. eapply Forall_impl; [done|]. apply local_not_post.
Qed.

(** Creating the repository calls the endpoint once, first of all. *)
Lemma create_github_repo_posts_once w repo_name is_private token description st :
  exists rest,
    trace (snd (create_github_repo w repo_name is_private token description st))
    = trace st ++ Post (api_request repo_name is_private token description) :: rest /\
    Forall (fun e => is_post e = false) rest.
Proof.
  destruct (requests_post w (api_request repo_name is_private token description))
    as [detail|resp] eqn:Hpost.
  { unfold create_github_repo. rewrite bind_unfold, post_eq, Hpost. by exists []. }
  rewrite (create_github_repo_responded _ _ _ _ _ _ resp Hpost). cbv zeta.
  destruct (300 <=? status_code resp); [by exists []|].
  destruct (rs_json resp) as [[| | | | | |fields]|]; try (by exists []).
  destruct (opt_truthy (fields !! py "clone_url")); [|by exists []].
  eexists [_]. cbn [snd trace log]. rewrite <- (assoc_L (++)).
  split; [done|]. by repeat constructor.
Qed.

Lemma connect_remote_and_push_no_post w root clone_url branch_name :
  emits (fun e => negb (is_post e)) (connect_remote_and_push w root clone_url branch_name).
Proof. unfold connect_remote_and_push, as_argument. repeat emits_step. Qed.

(** X20. A run of [main] calls the HTTP endpoint at most once.  When it
    does, a non-empty credential was found, and the request is the one
    that creates the repository with that credential. *)
Theorem main_sends_one_request (w : World) (args : Namespace) (st : State) :
  List.filter is_post (new_events (main w args) st) = [] \/
  exists token,
    lookup_token w = Some token /\ token <> [] /\
    List.filter is_post (new_events (main w args) st)
    = [Post (main_request w args token)].
Proof.
  pose proof (main_shape w args st) as Hshape.
  inversion Hshape as
    [r st1 Hpre Hr Hmain
    |st1 Hpre Hmiss Hmain
    |st1 token e st2 Hpre Htok Hne Hcreate Hmain
    |st1 token fields v st2 e st3 Hpre Htok Hne Hcreate Hclone Hv Hpush Hmain
    |st1 token fields v st2 st3 Hpre Htok Hne Hcreate Hclone Hv Hpush Hmain];
    destruct (emits_outcome _ _ _ _ _ (emits_prelude w args) Hpre) as (evs & Heq & Hall);
    apply filter_local in Hall.
  - left. by rewrite (new_events_eq (main w args) st evs) by (by rewrite <- Hmain).
  - left.
    rewrite (new_events_eq (main w args) st (evs ++ [Print [Lit missing_token_message]]))
      by (rewrite <- Hmain; cbn [snd trace log]; by rewrite Heq, (assoc_L (++))).
    by rewrite List.filter_app, Hall.
  - right. exists token. split; [done|]. split; [done|].
    destruct (create_github_repo_posts_once w (repo_name_of args (cwd w)) (private args)
                token (desc args) st1) as (rest & Heq' & Hrest).
    rewrite Hcreate in Heq'. cbn [snd] in Heq'.
    rewrite (new_events_eq (main w args) st
               (evs ++ Post (main_request w args token) :: rest ++ [error_report e]))
      by (rewrite <- Hmain; cbn [snd trace log]; rewrite Heq', Heq;
          by rewrite <- !(assoc_L (++))).
    rewrite List.filter_app, Hall. cbn [app List.filter is_post].
    by rewrite List.filter_app, (filter_no_post rest Hrest).
  - right. exists token. split; [done|]. split; [done|].
    destruct (create_github_repo_posts_once w (repo_name_of args (cwd w)) (private args)
                token (desc args) st1) as (rest & Heq' & Hrest).
    rewrite Hcreate in Heq'. cbn [snd] in Heq'.
    destruct (emits_outcome _ _ _ _ _
                (connect_remote_and_push_no_post w _ _ _) Hpush) as (evs3 & Heq3 & Hall3).
    rewrite (new_events_eq (main w args) st
               (evs ++ Post (main_request w args token) :: rest ++ evs3 ++ [error_report e]))
      by (rewrite <- Hmain; cbn [snd trace log]; rewrite Heq3, Heq', Heq;
          by rewrite <- !(assoc_L (++))).
    rewrite List.filter_app, Hall. cbn [app List.filter is_post].
    rewrite !List.filter_app, (filter_no_post rest Hrest).
    rewrite (filter_no_post evs3); [done|].
    eapply Forall_impl; [done|]. intros x Hx. by apply negb_true_iff.
  - right. exists token. split; [done|]. split; [done|].
    destruct (create_github_repo_posts_once w (repo_name_of args (cwd w)) (private args)
                token (desc args) st1) as (rest & Heq' & Hrest).
    rewrite Hcreate in Heq'. cbn [snd] in Heq'.
    destruct (emits_outcome _ _ _ _ _
                (connect_remote_and_push_no_post w _ _ _) Hpush) as (evs3 & Heq3 & Hall3).
    rewrite (new_events_eq (main w args) st
               (evs ++ Post (main_request w args token) :: rest ++ evs3
                    ++ summary_events args fields))
      by (rewrite <- Hmain; cbn [snd]; rewrite summary_trace, Heq3, Heq', Heq;
          by rewrite <- !(assoc_L (++))).
    rewrite List.filter_app, Hall. cbn [app List.filter is_post].
    rewrite !List.filter_app, (filter_no_post rest Hrest).
    rewrite (filter_no_post evs3); [done|].
    eapply Forall_impl; [done|]. intros x Hx. by apply negb_true_iff.
Qed.

Lemma main_not_created w args st st1 token e st2 :
  prelude w args st = (Return tt, st1) ->
  lookup_token w = Some token -> token <> [] ->
  create_github_repo w (repo_name_of args (cwd w)) (private args) token (desc args) st1
  = (Raise e, st2) ->
  main w args st = (SysExit 3, log (error_report e) st2).
Proof.
  intros Hpre Htok Hne Hcreate.
  rewrite (main_after_prelude w args st st1 Hpre).
  rewrite (publish_with_token w args st1 token Htok Hne).
  unfold create_and_push. by rewrite bind_unfold, Hcreate.
Qed.

(** X21. An answer that cannot be used ends the run with status 3 right
    after the request, with the error printed and no git command run for
    the remote: a request that fails (time-out, no connection), a body
    that is not JSON, and a JSON body that is not an object. *)
Theorem unusable_answer_ends_run (w : World) (args : Namespace) (st st1 : State)
    (token : str) :
  prelude w args st = (Return tt, st1) ->
  lookup_token w = Some token -> token <> [] ->
  let rq := main_request w args token in
  (forall detail,
      requests_post w rq = PostFailed detail ->
      main w args st
      = (SysExit 3, after [Post rq; error_report (RequestException detail)] st1)) /\
  (forall resp,
      requests_post w rq = Responded resp -> status_code resp < 300 ->
      (rs_json resp = None ->
       main w args st
       = (SysExit 3, after [Post rq; error_report (JSONDecodeError (rs_text resp))] st1)) /\
      (forall v,
          rs_json resp = Some v -> (forall fields, v <> JObj fields) ->
          main w args st
          = (SysExit 3,
             after [Post rq;
                    error_report (AttributeError (py "object has no attribute 'get'"))]
               st1))).
Proof.
  intros Hpre Htok Hne rq. subst rq. unfold main_request. split.
  - intros detail Hpost.
    rewrite (main_not_created w args st st1 token (RequestException detail)
               (log (Post (main_request w args token)) st1) Hpre Htok Hne).
    + f_equal. same_state.
    + unfold create_github_repo. by rewrite bind_unfold, post_eq, Hpost.
  - intros resp Hpost Hstatus. apply Z.leb_gt in Hstatus. split.
    + intros Hjson.
      rewrite (main_not_created w args st st1 token (JSONDecodeError (rs_text resp))
                 (log (Post (main_request w args token)) st1) Hpre Htok Hne).
      * f_equal. same_state.
      * rewrite (create_github_repo_responded _ _ _ _ _ _ resp Hpost). cbv zeta.
        by rewrite Hstatus, Hjson.
    + intros v Hjson Hobj.
      rewrite (main_not_created w args st st1 token
                 (AttributeError (py "object has no attribute 'get'"))
                 (log (Post (main_request w args token)) st1) Hpre Htok Hne).
      * f_equal. same_state.
      * rewrite (create_github_repo_responded _ _ _ _ _ _ resp Hpost). cbv zeta.
        rewrite Hstatus, Hjson. destruct v; try done. by destruct (Hobj fields).
Qed.

Lemma unusable_answer_ends_run_witness :
  main (world_answering html_response) sample_args empty_state
  = (SysExit 3,
     after [Post (main_request (world_answering html_response) sample_args (py "ghp_2"));
            error_report (JSONDecodeError (rs_text html_response))]
       (snd (prelude (world_answering html_response) sample_args empty_state))).
Proof.
  destruct (unusable_answer_ends_run (world_answering html_response) sample_args empty_state
              (snd (prelude (world_answering html_response) sample_args empty_state))
              (py "ghp_2")) as [_ Hanswer].
  - vm_compute. reflexivity.
  - vm_compute. reflexivity.
  - discriminate.
  - destruct (Hanswer html_response) as [Hbody _].
    + reflexivity.
    + vm_compute. reflexivity.
    + apply Hbody. reflexivity.
Defined.

(** ** The credential *)

Lemma credential_missing_iff w :
  token_missing (lookup_token w) = true <->
  unset_or_empty (environ w !! py "GITHUB_TOKEN") /\
  unset_or_empty (environ w !! py "GH_TOKEN").
Proof.
  unfold lookup_token, unset_or_empty.
  destruct (environ w !! py "GITHUB_TOKEN") as [[|c1 v1]|];
    destruct (environ w !! py "GH_TOKEN") as [[|c2 v2]|]; cbn;
    split; try done; try (by intros [[H|H] [H'|H']]); try (intros _; split; by auto).
Qed.

(** Once the command line is parsed, a run ends with status 2 exactly
    when the steps before the credential lookup return and no credential
    is found. *)
Lemma main_exit_2 (w : World) (args : Namespace) (st : State) :
  exit_code (fst (main w args st)) = 2 <->
  (exists st1, prelude w args st = (Return tt, st1)) /\
  unset_or_empty (environ w !! py "GITHUB_TOKEN") /\
  unset_or_empty (environ w !! py "GH_TOKEN").
Proof.
  rewrite <- credential_missing_iff. split.
  - destruct (main_classified w args st) as
      [(r & st1 & _ & _ & Hmain & Hcode)
      |[(st1 & Hpre & Hmiss & _)
       |[(st1 & token & e & st2 & _ & _ & _ & _ & Hmain)
        |(st1 & token & data & st2 & _ & _ & _ & _ & Hmain)]]].
    + rewrite Hmain. cbn [fst]. lia.
    + intros _. split; [by exists st1|done].
    + by rewrite Hmain.
    + by rewrite Hmain.
  - intros [[st1 Hpre] Hmiss].
    rewrite (main_after_prelude w args st st1 Hpre).
    by rewrite publish_without_token.
Qed.

(** X22. The program ends with status 2 in two cases and no other: the
    parser rejects the command line; or the command line is parsed, the
    steps before the credential lookup return, and each of [GITHUB_TOKEN]
    and [GH_TOKEN] is unset or set to the empty string (an empty value
    counts as no credential). *)
Theorem exit_2_without_credential (w : World) (cmdline : parse_result) (st : State) :
  exit_code (fst (cli_main w cmdline st)) = 2 <->
  (exists message, cmdline = UsageError message) \/
  (exists args,
      cmdline = Parsed args /\
      (exists st1, prelude w args st = (Return tt, st1)) /\
      unset_or_empty (environ w !! py "GITHUB_TOKEN") /\
      unset_or_empty (environ w !! py "GH_TOKEN")).
Proof.
  destruct cmdline as [args|message|].
  - change (cli_main w (Parsed args) st) with (main w args st).
    rewrite main_exit_2. split.
    + intros H. right. by exists args.
    + intros [[message H] | (args' & H & Hrun)]; [done|]. by injection H as <-.
  - split; [intros _; left; by exists message|done].
  - split; [done|]. by intros [[message H] | (args & H & _)].
Qed.

(** ** The programs a run starts *)

Lemma emits_git_scaffolding w root :
  emits runs_git (ensure_git_installed w) /\
  emits runs_git (ensure_gitignore w root) /\
  emits runs_git (create_license w root) /\
  emits runs_git (init_git w root).
Proof.
  repeat split.
  - unfold ensure_git_installed. repeat emits_step.
  - unfold ensure_gitignore. repeat emits_step.
  - unfold create_license. repeat emits_step.
  - unfold init_git. repeat emits_step.
Qed.

Lemma emits_git_publish w args : emits runs_git (publish w args).
Proof.
  unfold publish, create_and_push, create_github_repo, response_json, dict_get, getitem,
    connect_remote_and_push, as_argument.
  repeat emits_step.
Qed.

(** X23. With both audits off, git is the only program a run of [main]
    starts, however the run ends. *)
Theorem main_runs_git_only (w : World) (args : Namespace) (st : State) :
  no_audit args = true -> bandit args = false ->
  Forall (fun e => runs_git e = true) (new_events (main w args) st).
Proof.
  intros Haudit Hbandit.
  destruct (emits_git_scaffolding w (cwd w)) as (Hgit & Hignore & Hlicense & Hinit).
  assert (Hmain : emits runs_git (prelude w args ≫= fun _ => publish w args)).
  { apply emits_bind; [|intros _; apply emits_git_publish].
    unfold prelude, audits. rewrite Haudit, Hbandit. cbn [negb].
    repeat first [apply Hgit | apply Hignore | apply Hlicense | apply Hinit | emits_step]. }
  destruct (Hmain st) as (evs & Heq & Hall). rewrite <- main_phases in Heq.
  by rewrite (new_events_eq (main w args) st evs Heq).
Qed.

Lemma main_runs_git_only_witness :
  Forall (fun e => runs_git e = true)
    (new_events (main (calm_world Posix) plain_args) empty_state).
Proof.
  apply (main_runs_git_only (calm_world Posix) plain_args empty_state); reflexivity.
Defined.

(** ** The exit status of the program *)

Lemma cli_main_parsed w args st : cli_main w (Parsed args) st = main w args st.
Proof. reflexivity. Qed.

(** A commit that fails with an identity report ends the steps before the
    credential lookup with status 1, once the run gets to the commit. *)
Lemma prelude_identity_exit w args st :
  ~ git_check_fails w ->
  fs st !! gitignore_path (cwd w) <> Some Dir ->
  (is_Some (fs st !! (cwd w // py ".git")) \/
   exists out err, subprocess_run w (Some (cwd w)) init_cmd = Exited 0 out err) ->
  (exists out err, subprocess_run w (Some (cwd w)) add_cmd = Exited 0 out err) ->
  identity_reported w ->
  exists st', prelude w args st = (SysExit 1, st').
Proof.
  intros Hgit Hdir Hinit Hadd (rc & out & err & Hcommit & Hrc & Hid).
  unfold prelude. rewrite bind_unfold.
  destruct (ensure_git_installed_cases w st) as [[Hfail _] | [_ [st0 Hrun0]]]; [done|].
  pose proof (touches_ensure_git_installed w st) as Hsame0.
  rewrite Hrun0 in Hsame0 |- *. cbn [snd] in Hsame0.
  rewrite <- (proj1 (Hsame0 (gitignore_path (cwd w)))) in Hdir by (by intros []).
  destruct (ensure_gitignore_settles w (cwd w) st0 Hdir)
    as (changed & st1 & content & Hrun1 & _).
  pose proof (touches_ensure_gitignore w (cwd w) st0) as Hsame1.
  rewrite bind_unfold, Hrun1. rewrite Hrun1 in Hsame1. cbn [snd] in Hsame1.
  destruct (create_license_returns w (cwd w) st1)
    as (created & st2 & Hrun2 & _ & Hframe).
  rewrite bind_unfold, Hrun2.
  assert (Hrepo : fs st2 !! (cwd w // py ".git") = fs st !! (cwd w // py ".git")).
  { rewrite Hframe by (apply path_join_ne; by vm_compute).
    rewrite (proj1 (Hsame1 _)) by (apply path_join_ne; by vm_compute).
    apply (proj1 (Hsame0 _)). by intros []. }
  rewrite <- Hrepo in Hinit.
  destruct (init_git_reaches_commit w (cwd w) st2 Hinit Hadd) as (st3 & Hreach & _).
  rewrite bind_unfold, Hreach.
  rewrite (commit_step_failure w (cwd w) st3 rc out err Hcommit Hrc).
  apply (mentions_identity_spec rc commit_cmd) in Hid. rewrite Hid. by eexists.
Qed.

(** C2, as amended.  The exit status of every run is 0, 1, 2 or 3.  It is
    0 exactly when help is asked for, or the command line is parsed and
    creation and push return; 2 exactly when the parser rejects the
    command line, or the command line is parsed, the steps before the
    credential lookup return and no credential is found; 3 exactly when a
    credential is found and creation or push raises an error; and 1
    exactly when the command line is parsed and the run ends before the
    credential lookup.  Such an end by [sys.exit] has status 1 and comes
    from a failed git version check or from a commit whose report names an
    identity setting; the other ends before the lookup are errors that no
    handler catches.  Both causes do give status 1: a failed git version
    check always, and a commit that fails with an identity report whenever
    the run gets to the commit (the git check passes, the ignore path is
    not a directory, [git init] and [git add] succeed). *)
Theorem exit_code_table (w : World) (cmdline : parse_result) (st : State) :
  let o := fst (cli_main w cmdline st) in
  (exit_code o = 0 \/ exit_code o = 1 \/ exit_code o = 2 \/ exit_code o = 3) /\
  (exit_code o = 0 <->
   cmdline = HelpRequested \/
   exists args st1 token data st2,
     cmdline = Parsed args /\
     prelude w args st = (Return tt, st1) /\
     lookup_token w = Some token /\ token <> [] /\
     create_and_push w args (cwd w) token st1 = (Return data, st2)) /\
  (exit_code o = 2 <->
   (exists message, cmdline = UsageError message) \/
   exists args st1,
     cmdline = Parsed args /\
     prelude w args st = (Return tt, st1) /\ token_missing (lookup_token w) = true) /\
  (exit_code o = 3 <->
   exists args st1 token e st2,
     cmdline = Parsed args /\
     prelude w args st = (Return tt, st1) /\
     lookup_token w = Some token /\ token <> [] /\
     create_and_push w args (cwd w) token st1 = (Raise e, st2)) /\
  (exit_code o = 1 <->
   exists args r st1,
     cmdline = Parsed args /\ prelude w args st = (r, st1) /\ r <> Return tt) /\
  (forall args c st1,
      cmdline = Parsed args ->
      prelude w args st = (SysExit c, st1) ->
      c = 1 /\ (git_check_fails w \/ identity_reported w)) /\
  (forall args, cmdline = Parsed args -> git_check_fails w -> o = SysExit 1) /\
  (forall args,
      cmdline = Parsed args ->
      ~ git_check_fails w ->
      fs st !! gitignore_path (cwd w) <> Some Dir ->
      (is_Some (fs st !! (cwd w // py ".git")) \/
       exists out err, subprocess_run w (Some (cwd w)) init_cmd = Exited 0 out err) ->
      (exists out err, subprocess_run w (Some (cwd w)) add_cmd = Exited 0 out err) ->
      identity_reported w ->
      o = SysExit 1).
Proof.
  cbv zeta. destruct cmdline as [args|message|].
  - rewrite cli_main_parsed.
    destruct (main_exit_codes w args st) as (Hrange & H0 & H2 & H3 & H1 & Hexit & Hgit).
    cbv zeta in *.
    split; [done|]. split; [|split; [|split; [|split; [|split; [|split]]]]].
    + rewrite H0. split.
      * intros (st1 & token & data & st2 & H). right. by exists args, st1, token, data, st2.
      * intros [H | (args' & st1 & token & data & st2 & H & Hrest)]; [done|].
        injection H as <-. by exists st1, token, data, st2.
    + rewrite H2. split.
      * intros (st1 & H). right. by exists args, st1.
      * intros [[message H] | (args' & st1 & H & Hrest)]; [done|].
        injection H as <-. by exists st1.
    + rewrite H3. split.
      * intros (st1 & token & e & st2 & H). by exists args, st1, token, e, st2.
      * intros (args' & st1 & token & e & st2 & H & Hrest).
        injection H as <-. by exists st1, token, e, st2.
    + rewrite H1. split.
      * intros (r & st1 & H). by exists args, r, st1.
      * intros (args' & r & st1 & H & Hrest). injection H as <-. by exists r, st1.
    + intros args' c st1 H Hpre. injection H as <-.
      destruct (Hexit c st1 Hpre) as [-> Hcause]. split; [done|].
      by rewrite identity_reported_iff.
    + intros args' _. apply Hgit.
    + intros args' H Hcheck Hdir Hinit Hadd Hid. injection H as <-.
      destruct (prelude_identity_exit w args st Hcheck Hdir Hinit Hadd Hid) as (st' & Hpre).
      by rewrite main_phases, bind_unfold, Hpre.
  - change (fst (cli_main w (UsageError message) st)) with (@SysExit unit 2).
    cbn [exit_code].
    split; [auto|]. split; [|split; [|split; [|split; [|split; [|split]]]]].
    + split; [done|]. by intros [H | (? & ? & ? & ? & ? & H & _)].
    + split; [|done]. intros _. left. by exists message.
    + split; [done|]. by intros (? & ? & ? & ? & ? & H & _).
    + split; [done|]. by intros (? & ? & ? & H & _).
    + by intros args c st1 H.
    + by intros args H.
    + by intros args H.
  - change (fst (cli_main w HelpRequested st)) with (@SysExit unit 0).
    cbn [exit_code].
    split; [auto|]. split; [|split; [|split; [|split; [|split; [|split]]]]].
    + split; [|done]. intros _. by left.
    + split; [done|]. by intros [[? H] | (? & ? & H & _)].
    + split; [done|]. by intros (? & ? & ? & ? & ? & H & _).
    + split; [done|]. by intros (? & ? & ? & H & _).
    + by intros args c st1 H.
    + by intros args H.
    + by intros args H.
Qed.

Lemma exit_code_table_witness :
  fst (cli_main world_without_git (Parsed sample_args) empty_state) = SysExit 1 /\
  fst (cli_main world_without_identity (Parsed sample_args) empty_state) = SysExit 1 /\
  exit_code (fst (cli_main (calm_world Posix) (UsageError (py "unrecognized arguments: -x"))
                    empty_state)) = 2.
Proof.
  split; [|split].
  - destruct (exit_code_table world_without_git (Parsed sample_args) empty_state)
      as (_ & _ & _ & _ & _ & _ & Hgit & _).
    apply (Hgit sample_args); [reflexivity|]. vm_compute. exact I.
  - destruct (exit_code_table world_without_identity (Parsed sample_args) empty_state)
      as (_ & _ & _ & _ & _ & _ & _ & Hidentity).
    apply (Hidentity sample_args).
    + reflexivity.
    + vm_compute. intros H. by apply H.
    + vm_compute. discriminate.
    + right. exists [], []. vm_compute. reflexivity.
    + exists [], []. vm_compute. reflexivity.
    + exists 128, [], identity_unknown_stderr.
      split; [vm_compute; reflexivity|]. split; [lia|].
      right. apply contains_spec. vm_compute. reflexivity.
  - destruct (exit_code_table (calm_world Posix)
                (UsageError (py "unrecognized arguments: -x")) empty_state)
      as (_ & _ & Htwo & _).
    apply Htwo. left. by eexists.
Defined.

(** C2, as the specification words it, fails in three ways.  When
    [git add] fails, the error is not handled and the interpreter ends
    with status 1, although git is installed and no commit failed; the
    status is then not 2 although no credential is set.  And a command
    line that the parser rejects gives status 2 although a credential is
    set. *)
Lemma exit_code_table_counterexample :
  let o := fst (cli_main world_add_fails (Parsed sample_args) empty_state) in
  exit_code o = 1 /\
  (exists e, o = Raise e) /\
  ~ git_check_fails world_add_fails /\
  ~ identity_reported world_add_fails /\
  token_missing (lookup_token world_add_fails) = true /\
  exit_code o <> 2 /\
  token_missing (lookup_token (calm_world Posix)) = false /\
  exit_code (fst (cli_main (calm_world Posix) (UsageError (py "unrecognized arguments: -x"))
                    empty_state)) = 2.
Proof.
  cbv zeta. split; [vm_compute; reflexivity|]. split; [eexists; vm_compute; reflexivity|].
  split; [vm_compute; intros H; by apply H|].
  split.
  { intros (rc & out & err & Hrun & Hrc & _). vm_compute in Hrun. congruence. }
  split; [vm_compute; reflexivity|]. split; [vm_compute; congruence|].
  split; vm_compute; reflexivity.
Qed.
